(** * Analytics core of the goal-setting / reflection platform

    A shallow embedding of the aggregation functions of
    [src/services/firebaseServiceReal.ts]:
    [checkAndAwardBadges], [calculateConsistencyAndStreak],
    [calculateDailyEngagement] and the at-risk part of
    [getAdminDashboardData].

    Conventions of the embedding.
    - JavaScript numbers are exact: integers are [Z], the results of [/]
      are rationals [Q].  Binary64 rounding error, [NaN] and [Infinity] are
      outside the model; a quiz is well formed when its [total] is positive.
    - A [Date] is its [getTime()] value, milliseconds since the epoch.  The
      built-in parser [new Date(s).getTime()] is a parameter [getTime]; the
      local time zone is a fixed offset [tz] (milliseconds east of UTC, no
      daylight-saving change), and [now] is the value of [new Date()].
    - The first ten characters of [toISOString()] are represented by the
      UTC day number they denote.
    - [Array.prototype.sort] is stable (ECMAScript 2019). *)

From Stdlib Require Import ZArith QArith Qround List String Ascii Bool Lia.
From Stdlib Require Import Permutation Sorted DecimalString.
Import ListNotations.

Local Open Scope string_scope.
Local Open Scope list_scope.
Local Open Scope Z_scope.

(** ** JavaScript built-ins used by the service *)

(** [Math.round]: nearest integer, ties towards plus infinity. *)
Definition Math_round (x : Q) : Z := Qfloor (x + (1 # 2))%Q.

(** [a < b] and [a >= b] on numbers. *)
Definition Qltb (a b : Q) : bool := negb (Qle_bool b a).
Definition Qgeb (a b : Q) : bool := Qle_bool b a.

(** [Z] and [nat] as numbers. *)
Definition ZtoQ (z : Z) : Q := inject_Z z.
Definition len {A : Type} (l : list A) : Z := Z.of_nat (List.length l).

(** [sum.reduce((s, x) => s + f(x), 0)] on integers and on rationals. *)
Definition reduceZ {A : Type} (f : A -> Z) (l : list A) : Z :=
  fold_left (fun s x => s + f x) l 0.
Definition reduceQ {A : Type} (f : A -> Q) (l : list A) : Q :=
  fold_left (fun s x => (s + f x)%Q) l 0%Q.

(** [arr.sort(cmp)]: a stable sort; [x] goes before [y] when
    [cmp x y <= 0], so that equal elements keep their input order. *)
Fixpoint sort_insert {A : Type} (cmp : A -> A -> Z) (x : A) (l : list A)
  : list A :=
  match l with
  | [] => [x]
  | y :: ys => if cmp x y <=? 0 then x :: l else y :: sort_insert cmp x ys
  end.

Fixpoint Array_sort {A : Type} (cmp : A -> A -> Z) (l : list A) : list A :=
  match l with
  | [] => []
  | x :: xs => sort_insert cmp x (Array_sort cmp xs)
  end.

(** The orders a comparator [(a, b) => key(a) - key(b)] sorts by. *)
Definition keyLe {A : Type} (key : A -> Z) (a b : A) : Prop := key a <= key b.
Definition keyLt {A : Type} (key : A -> Z) (a b : A) : Prop := key a < key b.

(** [arr.slice(-k)], [arr.slice(-s, -e)] and [arr.slice(0, k)]; the
    truncated subtraction of [nat] is the clamping at index 0. *)
Definition slice_last {A : Type} (k : nat) (l : list A) : list A :=
  skipn (List.length l - k) l.

Definition slice_last_range {A : Type} (s e : nat) (l : list A) : list A :=
  firstn ((List.length l - e) - (List.length l - s))
         (skipn (List.length l - s) l).

Definition slice_first {A : Type} (k : nat) (l : list A) : list A :=
  firstn k l.

(** [s.includes(sub)]. *)
Fixpoint includes (s sub : string) : bool :=
  String.prefix sub s ||
  match s with
  | EmptyString => false
  | String _ s' => includes s' sub
  end.

(** [`${n}`] for a non-negative integer. *)
Definition Number_toString (n : nat) : string :=
  NilEmpty.string_of_uint (Nat.to_uint n).

(** [throw new Error(msg)] against a normal return. *)
Inductive Outcome (A : Type) : Type :=
  | Done (a : A)
  | Thrown (msg : string).
Arguments Done {A} a.
Arguments Thrown {A} msg.

(** ** Data model *)

(** Modelled from the spec: the type declarations of [src/types] (the file
    is not part of the sources at hand).  The fields are the ones the
    service reads and writes; an optional field is an [option]. *)
Record Badge := {
  badge_id : string;
  badge_name : string;
  description : string;
  icon : string
}.

Record GoalData := { goal_text : string; completed : bool }.
Record ReflectionData := { reflection_text : string; depth : Z }.
Record QuizEvaluation := { score : Z; total : Z }.

Record DailyEntry := {
  date : string;
  goal : option GoalData;
  reflection : option ReflectionData;
  quizEvaluation : option QuizEvaluation
}.

Record DailyEngagement := {
  day_date : Z;
  engagementScore : Z;
  activitiesCompleted : Z;
  hasGoal : bool;
  hasReflection : bool;
  hasQuiz : bool
}.

Record DailyEngagementMetrics := {
  dailyEngagement : list DailyEngagement;
  averageDaily : Q;
  activeDays : Z;
  streakDays : Z;
  weeklyTrend : Q;
  monthlyTrend : Q
}.

Record StudentData := {
  studentId : string;
  student_name : string;
  student_consistencyScore : Z;
  student_streak : Z;
  badges : list Badge;
  entries : list DailyEntry;
  student_dailyEngagement : option DailyEngagementMetrics
}.

Record AtRiskStudent := {
  atRisk_id : string;
  atRisk_name : string;
  reason : string;
  missedGoals : Z;
  avgReflectionDepth : Q;
  avgTestScore : Z
}.

(** The object returned by [calculateConsistencyAndStreak]. *)
Record ConsistencyAndStreak := { consistencyScore : Z; streak : Z }.

(** Truthiness of an optional object field. *)
Definition truthy {A : Type} (o : option A) : bool :=
  match o with Some _ => true | None => false end.

(** [arr.map(f).filter(Boolean)] for an optional field [f]. *)
Fixpoint present {A B : Type} (f : A -> option B) (l : list A) : list B :=
  match l with
  | [] => []
  | x :: xs => match f x with
               | Some y => y :: present f xs
               | None => present f xs
               end
  end.

(** ** Badges *)

Definition ALL_BADGES : list Badge :=
  [ {| badge_id := "streak-7"; badge_name := "7-Day Streak";
       description := "Maintained a consistent streak for 7 days in a row!";
       icon := "fire" |};
    {| badge_id := "consistency-90"; badge_name := "High Achiever";
       description := "Achieved a consistency score of 90% or higher.";
       icon := "trophy" |};
    {| badge_id := "deep-thinker"; badge_name := "Deep Thinker";
       description :=
         "Consistently provided deep, thoughtful reflections (average depth of 4+).";
       icon := "brain" |};
    {| badge_id := "quiz-whiz"; badge_name := "Quiz Whiz";
       description :=
         "Mastered the daily quizzes with an average score of 90% or higher.";
       icon := "target" |};
    {| badge_id := "perfect-week"; badge_name := "Perfect Week";
       description := "Completed every goal for a full 7 days.";
       icon := "star" |} ].

(** A [Map<string, Badge>]: keys in insertion order, [set] on a key already
    present replaces its value in place. *)
Definition BadgeMap := list (string * Badge).

Fixpoint Map_set (k : string) (v : Badge) (m : BadgeMap) : BadgeMap :=
  match m with
  | [] => [(k, v)]
  | (k', v') :: m' =>
      if String.eqb k' k then (k', v) :: m' else (k', v') :: Map_set k v m'
  end.

Definition Map_has (k : string) (m : BadgeMap) : bool :=
  existsb (fun p => String.eqb (fst p) k) m.

Definition Map_new (ps : list (string * Badge)) : BadgeMap :=
  fold_left (fun m p => Map_set (fst p) (snd p) m) ps [].

Definition Map_values (m : BadgeMap) : list Badge := map snd m.

(** The keys of a map, and the maps the service builds: no key twice, and
    every badge filed under its own id. *)
Definition Map_keys (m : BadgeMap) : list string := map fst m.

Definition wfMap (m : BadgeMap) : Prop :=
  NoDup (Map_keys m) /\ Forall (fun p => badge_id (snd p) = fst p) m.


(** [ALL_BADGES.find(b => b.id === k)!]; the catalog holds every id the
    service asks for, the fall-back stands for [undefined]. *)
Definition undefined_badge : Badge :=
  {| badge_id := EmptyString; badge_name := EmptyString;
     description := EmptyString; icon := EmptyString |}.

Definition find_badge (k : string) : Badge :=
  match find (fun b => String.eqb (badge_id b) k) ALL_BADGES with
  | Some b => b
  | None => undefined_badge
  end.

(** One [if (cond && !earnedBadges.has(k)) earnedBadges.set(k, ...)]. *)
Definition award (cond : bool) (k : string) (m : BadgeMap) : BadgeMap :=
  if cond && negb (Map_has k m) then Map_set k (find_badge k) m else m.

Definition reflections_of (es : list DailyEntry) : list ReflectionData :=
  present reflection es.

Definition quizzes_of (es : list DailyEntry) : list QuizEvaluation :=
  present quizEvaluation es.

(** [q.score / q.total]. *)
Definition ratio (q : QuizEvaluation) : Q := (ZtoQ (score q) / ZtoQ (total q))%Q.

Definition deepThinkerCond (es : list DailyEntry) : bool :=
  let reflections := reflections_of es in
  if 2 <? len reflections then
    let avgDepth := (ZtoQ (reduceZ depth reflections) / ZtoQ (len reflections))%Q in
    Qgeb avgDepth 4
  else false.

Definition quizWhizCond (es : list DailyEntry) : bool :=
  let quizzes := quizzes_of es in
  if 0 <? len quizzes then
    let avgScore := ((reduceQ ratio quizzes / ZtoQ (len quizzes)) * 100)%Q in
    Qgeb avgScore 90
  else false.

Definition checkAndAwardBadges (student : StudentData) : StudentData :=
  let earnedBadges := Map_new (map (fun b => (badge_id b, b)) (badges student)) in
  let earnedBadges := award (7 <=? student_streak student) "streak-7" earnedBadges in
  let earnedBadges :=
    award (90 <=? student_consistencyScore student) "consistency-90" earnedBadges in
  let earnedBadges := award (deepThinkerCond (entries student)) "deep-thinker" earnedBadges in
  let earnedBadges := award (quizWhizCond (entries student)) "quiz-whiz" earnedBadges in
  {| studentId := studentId student;
     student_name := student_name student;
     student_consistencyScore := student_consistencyScore student;
     student_streak := student_streak student;
     badges := Map_values earnedBadges;
     entries := entries student;
     student_dailyEngagement := student_dailyEngagement student |}.

(** The ids of a badge list. *)
Definition badge_ids (bs : list Badge) : list string := map badge_id bs.

(** What one run adds for one catalog entry, and for the four entries the
    service checks, in the order it checks them. *)
Definition newBadge (cond : bool) (k : string) (held : list string) : list Badge :=
  if cond && negb (existsb (String.eqb k) held) then [find_badge k] else [].

Definition newlyAwarded (student : StudentData) : list Badge :=
  let held := badge_ids (badges student) in
  newBadge (7 <=? student_streak student) "streak-7" held
  ++ newBadge (90 <=? student_consistencyScore student) "consistency-90" held
  ++ newBadge (deepThinkerCond (entries student)) "deep-thinker" held
  ++ newBadge (quizWhizCond (entries student)) "quiz-whiz" held.


(** ** At-risk students of the admin dashboard *)

(** [allEntries.filter(e => e.date.includes(student.studentId))]. *)
Definition studentEntries (allEntries : list DailyEntry) (student : StudentData)
  : list DailyEntry :=
  filter (fun e => includes (date e) (studentId student)) allEntries.

(** [!e.goal?.completed]: true when the goal is absent or not completed. *)
Definition goalNotCompleted (e : DailyEntry) : bool :=
  match goal e with
  | Some g => negb (completed g)
  | None => true
  end.

Definition countMissedGoals (es : list DailyEntry) : Z :=
  len (filter goalNotCompleted es).

(** [filter(e => e.reflection).map(e => e.reflection!)] is [present]. *)
Definition avgDepthOf (es : list DailyEntry) : Q :=
  let studentReflections := present reflection es in
  if 0 <? len studentReflections then
    (ZtoQ (reduceZ depth studentReflections) / ZtoQ (len studentReflections))%Q
  else 0%Q.

Definition avgScoreOf (es : list DailyEntry) : Q :=
  let studentQuizzes := present quizEvaluation es in
  if 0 <? len studentQuizzes then
    ((reduceQ ratio studentQuizzes / ZtoQ (len studentQuizzes)) * 100)%Q
  else 0%Q.

(** The callback of [students.filter]. *)
Definition isAtRisk (allEntries : list DailyEntry) (student : StudentData) : bool :=
  let es := studentEntries allEntries student in
  let missed := countMissedGoals es in
  let avgDepth := avgDepthOf es in
  (2 <? missed) || Qltb avgDepth 2 || (student_consistencyScore student <? 60).

Definition reasonOf (missed : Z) (avgDepth : Q) (consistency : Z) : string :=
  if 2 <? missed then
    String.append "Missed "
      (String.append (Number_toString (Z.to_nat missed)) " goals")
  else if Qltb avgDepth 2 then "Low reflection depth"
  else if consistency <? 60 then "Low consistency score"
  else "Multiple issues".

(** The callback of [.map] after the filter. *)
Definition toAtRisk (allEntries : list DailyEntry) (student : StudentData)
  : AtRiskStudent :=
  let es := studentEntries allEntries student in
  let missed := countMissedGoals es in
  let avgDepth := avgDepthOf es in
  let avgScore := avgScoreOf es in
  {| atRisk_id := studentId student;
     atRisk_name := student_name student;
     reason := reasonOf missed avgDepth (student_consistencyScore student);
     missedGoals := missed;
     avgReflectionDepth := (ZtoQ (Math_round (avgDepth * 10)) / 10)%Q;
     avgTestScore := Math_round avgScore |}.

Definition atRiskStudents (students : list StudentData) (allEntries : list DailyEntry)
  : list AtRiskStudent :=
  map (toAtRisk allEntries) (filter (isAtRisk allEntries) students).

(** [adminData.atRiskStudents = atRiskStudents.slice(0, 5)]. *)
Definition dashboardAtRisk (students : list StudentData) (allEntries : list DailyEntry)
  : list AtRiskStudent :=
  slice_first 5 (atRiskStudents students allEntries).

(** ** Key figures of the admin dashboard *)

(** [e.goal?.completed]. *)
Definition goalCompleted (e : DailyEntry) : bool :=
  match goal e with
  | Some g => completed g
  | None => false
  end.

Definition goalCompletion (allEntries : list DailyEntry) : Z :=
  let completedGoals := len (filter goalCompleted allEntries) in
  let totalGoals := len allEntries in
  if 0 <? totalGoals
  then Math_round ((ZtoQ completedGoals / ZtoQ totalGoals) * 100)%Q
  else 0.

Definition kpiReflectionDepth (allEntries : list DailyEntry) : Q :=
  let reflections := present reflection allEntries in
  if 0 <? len reflections
  then (ZtoQ (Math_round
                ((ZtoQ (reduceZ depth reflections) / ZtoQ (len reflections)) * 10))
        / 10)%Q
  else 0%Q.

Definition avgTestPerformance (allEntries : list DailyEntry) : Z :=
  let quizzes := present quizEvaluation allEntries in
  if 0 <? len quizzes
  then Math_round ((reduceQ ratio quizzes / ZtoQ (len quizzes)) * 100)%Q
  else 0.

(** One point of the [engagementData] series. *)
Record EngagementWeek := {
  week_name : string;
  goals : Z;
  reflections : Z;
  confidence : Z
}.

Definition engagementData (goalCompletion : Z) (avgReflectionDepth : Q)
  (avgTestPerformance : Z) : list EngagementWeek :=
  [ {| week_name := "Week 1"; goals := goalCompletion;
       reflections := Math_round (avgReflectionDepth * 20)%Q;
       confidence := Math_round (ZtoQ avgTestPerformance * (8 # 10))%Q |};
    {| week_name := "Week 2"; goals := Z.max 0 (goalCompletion - 5);
       reflections := Math_round (avgReflectionDepth * 18)%Q;
       confidence := Math_round (ZtoQ avgTestPerformance * (75 # 100))%Q |};
    {| week_name := "Week 3"; goals := Z.min 100 (goalCompletion + 3);
       reflections := Math_round (avgReflectionDepth * 22)%Q;
       confidence := Math_round (ZtoQ avgTestPerformance * (85 # 100))%Q |};
    {| week_name := "Week 4"; goals := goalCompletion;
       reflections := Math_round (avgReflectionDepth * 20)%Q;
       confidence := Math_round (ZtoQ avgTestPerformance * (8 # 10))%Q |} ].

(** The series the dashboard shows for a collection of records. *)
Definition dashboardEngagement (allEntries : list DailyEntry) : list EngagementWeek :=
  engagementData (goalCompletion allEntries) (kpiReflectionDepth allEntries)
    (avgTestPerformance allEntries).




(** ** Dates *)

Definition msPerDay : Z := 86400000.

(** [d.toISOString().split('T')[0]], as the UTC day number it denotes. *)
Definition toISODate (t : Z) : Z := t / msPerDay.

(** A reading of [new Date(s).getTime()] for the two formats the service
    stores, [YYYY-MM-DD] and [YYYY-MM-DDTHH:MM:SS.sssZ] (both UTC), used
    to instantiate the parameter [getTime] on concrete records. *)
Definition digitOf (c : ascii) : Z := Z.of_nat (nat_of_ascii c) - 48.

Fixpoint readDigits (n : nat) (s : string) (acc : Z) : Z * string :=
  match n, s with
  | S n', String c s' => readDigits n' s' (10 * acc + digitOf c)
  | _, _ => (acc, s)
  end.

Definition dropChar (s : string) : string :=
  match s with
  | String _ s' => s'
  | EmptyString => EmptyString
  end.

(** Days from 1970-01-01 to a day of the proleptic Gregorian calendar. *)
Definition daysFromCivil (y m d : Z) : Z :=
  let y' := if m <=? 2 then y - 1 else y in
  let era := y' / 400 in
  let yoe := y' - era * 400 in
  let mp := (m + 9) mod 12 in
  let doy := (153 * mp + 2) / 5 + d - 1 in
  let doe := yoe * 365 + yoe / 4 - yoe / 100 + doy in
  era * 146097 + doe - 719468.

Definition isoGetTime (s : string) : Z :=
  let '(y, s) := readDigits 4 s 0 in
  let '(m, s) := readDigits 2 (dropChar s) 0 in
  let '(d, s) := readDigits 2 (dropChar s) 0 in
  let days := daysFromCivil y m d in
  match s with
  | String "T" s =>
      let '(hh, s) := readDigits 2 s 0 in
      let '(mi, s) := readDigits 2 (dropChar s) 0 in
      let '(ss, s) := readDigits 2 (dropChar s) 0 in
      let '(ms, _) := readDigits 3 (dropChar s) 0 in
      days * msPerDay + hh * 3600000 + mi * 60000 + ss * 1000 + ms
  | _ => days * msPerDay
  end.

(** ** Sample records *)

Definition tzUTC : Z := 0.

(** India Standard Time, UTC+05:30. *)
Definition tzIST : Z := 19800000.

Definition sampleNow : Z := isoGetTime "2026-11-01T10:00:00.000Z".

Definition goalEntry (d : string) (done : bool) : DailyEntry :=
  {| date := d;
     goal := Some {| goal_text := "Read one chapter"; completed := done |};
     reflection := None;
     quizEvaluation := None |}.

Definition reflectionEntry (d : string) (n : Z) : DailyEntry :=
  {| date := d;
     goal := None;
     reflection := Some {| reflection_text := "What went well today"; depth := n |};
     quizEvaluation := None |}.

Definition quizEntry (d : string) (s t : Z) : DailyEntry :=
  {| date := d;
     goal := None;
     reflection := None;
     quizEvaluation := Some {| score := s; total := t |} |}.

Definition blankEntry (d : string) : DailyEntry :=
  {| date := d; goal := None; reflection := None; quizEvaluation := None |}.

(** Three active days ending today, and one older record. *)
Definition sampleRun : list DailyEntry :=
  [ goalEntry "2026-10-25T09:00:00.000Z" true;
    goalEntry "2026-11-01T08:00:00.000Z" true;
    reflectionEntry "2026-10-31T08:00:00.000Z" 4;
    quizEntry "2026-10-30T08:00:00.000Z" 9 10 ].

(** Records written after midnight, Indian time: four different UTC
    dates; the first two fall on the same local day, the others on the two
    local days before it. *)
Definition lateNight : list DailyEntry :=
  [ goalEntry "2026-11-01T10:00:00.000Z" true;
    goalEntry "2026-10-31T20:00:00.000Z" true;
    goalEntry "2026-10-30T20:00:00.000Z" false;
    reflectionEntry "2026-10-29T20:00:00.000Z" 3 ].

(** Two records with one date stamp, in both orders. *)
Definition sameStamp : list DailyEntry :=
  [ goalEntry "2026-11-01" true; blankEntry "2026-11-01" ].

Definition sameStampSwapped : list DailyEntry :=
  [ blankEntry "2026-11-01"; goalEntry "2026-11-01" true ].

Definition zeroQuiz : list DailyEntry :=
  [ quizEntry "2026-11-01T08:00:00.000Z" 0 10 ].

Definition mkStudent (sid nm : string) (cons str : Z) (bs : list Badge)
  (es : list DailyEntry) : StudentData :=
  {| studentId := sid; student_name := nm;
     student_consistencyScore := cons; student_streak := str;
     badges := bs; entries := es; student_dailyEngagement := None |}.

(** A student whose id occurs in the date of three October records, none
    of which has a goal. *)
Definition octoberStudent : StudentData :=
  mkStudent "2026-10" "Asha" 100 3 [] [].

Definition octoberEntries : list DailyEntry :=
  [ reflectionEntry "2026-10-05" 3;
    reflectionEntry "2026-10-06" 3;
    reflectionEntry "2026-10-07" 4 ].

Definition thinker : StudentData :=
  mkStudent "u1" "Ravi" 50 2 []
    [ reflectionEntry "2026-10-29" 4; reflectionEntry "2026-10-30" 4;
      reflectionEntry "2026-10-31" 5 ].

(** The streak badge held from an earlier run, the streak now at 0. *)
Definition lapsed : StudentData :=
  mkStudent "u2" "Meera" 40 0
    [ {| badge_id := "streak-7"; badge_name := "7-Day Streak";
         description := "Maintained a consistent streak for 7 days in a row!";
         icon := "fire" |} ]
    [].


(** The ranges the source comments give for a record ("10-50 points based
    on depth", "0-25 points based on performance"): a depth from 1 to 5,
    a quiz score from 0 to a positive total. *)
Definition wfEntry (e : DailyEntry) : Prop :=
  (forall r, reflection e = Some r -> 1 <= depth r <= 5) /\
  (forall q, quizEvaluation e = Some q -> 0 <= score q <= total q /\ 0 < total q).


(** Membership in a list of literals, one case per element. *)
Ltac each_member H :=
  cbn in H; repeat (destruct H as [<- | H]); [.. | contradiction H].

(** Well-formedness of a list of literal records. *)
Ltac sample_wf :=
  let e := fresh "e" in
  let He := fresh "He" in
  let x := fresh "x" in
  let Hx := fresh "Hx" in
  intros e He; each_member He;
  (split; intros x Hx; cbn in *; try discriminate;
   injection Hx as <-; cbn; lia).


(** [NoDup] of a list of literals. *)
Ltac concrete_NoDup :=
  vm_compute;
  repeat (constructor; [cbn; intuition discriminate|]);
  constructor.

Section Analytics.

(** [new Date(s).getTime()], the local offset from UTC, and [new Date()]. *)
Variable getTime : string -> Z.
Variable tz : Z.
Variable now : Z.

(** [d.setHours(0, 0, 0, 0)]: midnight of the local day of [t]. *)
Definition setHoursZero (t : Z) : Z := t - (t + tz) mod msPerDay.

(** [d.setDate(d.getDate() - i)]: the same local time, [i] days earlier. *)
Definition setDateBack (t i : Z) : Z := t - i * msPerDay.

(** The local calendar day of an instant, as a day number, and the instant
    at which a local day starts. *)
Definition localDay (t : Z) : Z := (t + tz) / msPerDay.
Definition dayStart (d : Z) : Z := d * msPerDay - tz.

Definition entryTime (e : DailyEntry) : Z := getTime (date e).
Definition entryDay (e : DailyEntry) : Z := localDay (entryTime e).

(** ** Consistency and streak *)

(** [entry.goal || entry.reflection || entry.quizEvaluation]. *)
Definition isActive (entry : DailyEntry) : bool :=
  truthy (goal entry) || truthy (reflection entry) || truthy (quizEvaluation entry).

Definition byDateAscending (a b : DailyEntry) : Z := entryTime a - entryTime b.
Definition byDateDescending (a b : DailyEntry) : Z := entryTime b - entryTime a.

(** The [for] loop over [recentEntries], from index [i] with the count
    [streak] so far; [break] returns the count. *)
Fixpoint streakLoop (today : Z) (recentEntries : list DailyEntry)
  (i : Z) (streak : Z) : Z :=
  match recentEntries with
  | [] => streak
  | entry :: rest =>
      let entryDate := setHoursZero (entryTime entry) in
      let expectedDate := setDateBack today i in
      if entryDate =? expectedDate then
        if isActive entry then streakLoop today rest (i + 1) (streak + 1)
        else streak
      else streak
  end.

Definition calculateConsistencyAndStreak (entries : list DailyEntry)
  : ConsistencyAndStreak :=
  if len entries =? 0 then {| consistencyScore := 0; streak := 0 |}
  else
    let sortedEntries := Array_sort byDateAscending entries in
    let last30Days := slice_last 30 sortedEntries in
    let activeDays := len (filter isActive last30Days) in
    let consistencyScore :=
      Math_round ((ZtoQ activeDays / ZtoQ (Z.min 30 (len entries))) * 100)%Q in
    let today := setHoursZero now in
    let recentEntries := Array_sort byDateDescending entries in
    {| consistencyScore := consistencyScore;
       streak := streakLoop today recentEntries 0 0 |}.

(** ** Daily engagement *)

(** [for (let i = 29; i >= 0; i--)]: the index values in loop order. *)
Definition countdown29 : list Z := map Z.of_nat (rev (seq 0 30)).

Definition last30Days : list Z :=
  map (fun i => setHoursZero (setDateBack now i)) countdown29.

(** The body of [dayEntries.forEach]; the five local variables are the
    fields of the accumulator. *)
Definition addGoal (entry : DailyEntry) (acc : DailyEngagement) : DailyEngagement :=
  match goal entry with
  | Some g =>
      {| day_date := day_date acc;
         engagementScore :=
           engagementScore acc + 30 + (if completed g then 10 else 0);
         activitiesCompleted := activitiesCompleted acc + 1;
         hasGoal := true;
         hasReflection := hasReflection acc;
         hasQuiz := hasQuiz acc |}
  | None => acc
  end.

Definition addReflection (entry : DailyEntry) (acc : DailyEngagement) : DailyEngagement :=
  match reflection entry with
  | Some r =>
      {| day_date := day_date acc;
         engagementScore :=
           engagementScore acc + depth r * 10 + (if 4 <=? depth r then 5 else 0);
         activitiesCompleted := activitiesCompleted acc + 1;
         hasGoal := hasGoal acc;
         hasReflection := true;
         hasQuiz := hasQuiz acc |}
  | None => acc
  end.

Definition addQuiz (entry : DailyEntry) (acc : DailyEngagement) : DailyEngagement :=
  match quizEvaluation entry with
  | Some q =>
      let quizPerformance := (ratio q * 100)%Q in
      {| day_date := day_date acc;
         engagementScore :=
           engagementScore acc + Math_round (quizPerformance * (1 # 4))%Q
           + (if Qgeb quizPerformance 90 then 5 else 0);
         activitiesCompleted := activitiesCompleted acc + 1;
         hasGoal := hasGoal acc;
         hasReflection := hasReflection acc;
         hasQuiz := true |}
  | None => acc
  end.

Definition addEntry (acc : DailyEngagement) (entry : DailyEntry) : DailyEngagement :=
  addQuiz entry (addReflection entry (addGoal entry acc)).

(** The callback of [last30Days.map]. *)
Definition engagementOfDay (entries : list DailyEntry) (day : Z) : DailyEngagement :=
  let dateString := toISODate day in
  let dayEntries :=
    filter (fun entry => setHoursZero (entryTime entry) =? day) entries in
  let acc := fold_left addEntry dayEntries
    {| day_date := dateString; engagementScore := 0; activitiesCompleted := 0;
       hasGoal := false; hasReflection := false; hasQuiz := false |} in
  {| day_date := day_date acc;
     engagementScore := Z.min 100 (engagementScore acc);
     activitiesCompleted := activitiesCompleted acc;
     hasGoal := hasGoal acc;
     hasReflection := hasReflection acc;
     hasQuiz := hasQuiz acc |}.

(** The backward loop counting trailing days with a positive score, on the
    reversed list. *)
Fixpoint engagementStreak (reversed : list DailyEngagement) : Z :=
  match reversed with
  | [] => 0
  | d :: rest => if 0 <? engagementScore d then 1 + engagementStreak rest else 0
  end.

Definition averageOf (days : list DailyEngagement) (n : Z) : Q :=
  (ZtoQ (reduceZ engagementScore days) / ZtoQ n)%Q.

(** [previous > 0 ? ((recent - previous) / previous) * 100 : 0]. *)
Definition trend (recent previous : Q) : Q :=
  if Qltb 0 previous then (((recent - previous) / previous) * 100)%Q else 0%Q.

(** [Math.round(x * 10) / 10]. *)
Definition round1 (x : Q) : Q := (ZtoQ (Math_round (x * 10)) / 10)%Q.

Definition calculateDailyEngagement (entries : list DailyEntry)
  : DailyEngagementMetrics :=
  if len entries =? 0 then
    {| dailyEngagement := []; averageDaily := 0%Q; activeDays := 0;
       streakDays := 0; weeklyTrend := 0%Q; monthlyTrend := 0%Q |}
  else
    let dailyEngagement := map (engagementOfDay entries) last30Days in
    let totalEngagement := reduceZ engagementScore dailyEngagement in
    let averageDaily := (ZtoQ totalEngagement / 30)%Q in
    let activeDays := len (filter (fun day => 0 <? engagementScore day) dailyEngagement) in
    let streakDays := engagementStreak (rev dailyEngagement) in
    let last7Average := averageOf (slice_last 7 dailyEngagement) 7 in
    let previous7Average := averageOf (slice_last_range 14 7 dailyEngagement) 7 in
    let weeklyTrend := trend last7Average previous7Average in
    let last14Average := averageOf (slice_last 14 dailyEngagement) 14 in
    let previous14Average := averageOf (slice_last_range 28 14 dailyEngagement) 14 in
    let monthlyTrend := trend last14Average previous14Average in
    {| dailyEngagement := dailyEngagement;
       averageDaily := round1 averageDaily;
       activeDays := activeDays;
       streakDays := streakDays;
       weeklyTrend := round1 weeklyTrend;
       monthlyTrend := round1 monthlyTrend |}.

(** ** The quantities of the specification *)

(** [sum_{x in l} f x]. *)
Definition sumOver {A : Type} (f : A -> Z) (l : list A) : Z :=
  fold_right (fun x s => f x + s) 0 l.

(** Section 4.2 of the specification: the points one record brings. *)
Definition specGoalPoints (e : DailyEntry) : Z :=
  match goal e with
  | Some g => 30 + (if completed g then 10 else 0)
  | None => 0
  end.

Definition specReflectionPoints (e : DailyEntry) : Z :=
  match reflection e with
  | Some r => 10 * depth r + (if 4 <=? depth r then 5 else 0)
  | None => 0
  end.

Definition specQuizPoints (e : DailyEntry) : Z :=
  match quizEvaluation e with
  | Some q =>
      Math_round (25 * ratio q)%Q + (if Qgeb (ratio q) (9 # 10) then 5 else 0)
  | None => 0
  end.

Definition specPoints (e : DailyEntry) : Z :=
  specGoalPoints e + specReflectionPoints e + specQuizPoints e.

Definition specActivities (e : DailyEntry) : Z :=
  (if truthy (goal e) then 1 else 0) + (if truthy (reflection e) then 1 else 0)
  + (if truthy (quizEvaluation e) then 1 else 0).

(** The records of one local calendar day, and the entry of the 30-day
    table for that day. *)
Definition recordsOfDay (entries : list DailyEntry) (d : Z) : list DailyEntry :=
  filter (fun e => entryDay e =? d) entries.

Definition tableEntry (entries : list DailyEntry) (d : Z) : DailyEngagement :=
  let rs := recordsOfDay entries d in
  {| day_date := toISODate (dayStart d);
     engagementScore := Z.min 100 (sumOver specPoints rs);
     activitiesCompleted := sumOver specActivities rs;
     hasGoal := existsb (fun e => truthy (goal e)) rs;
     hasReflection := existsb (fun e => truthy (reflection e)) rs;
     hasQuiz := existsb (fun e => truthy (quizEvaluation e)) rs |}.

(** Section 4.1: a day is active when it has an active record; the streak
    is the number of consecutive active days ending today. *)
Definition dayActive (entries : list DailyEntry) (d : Z) : bool :=
  existsb (fun e => (entryDay e =? d) && isActive e) entries.

Definition IsStreak (entries : list DailyEntry) (n : Z) : Prop :=
  0 <= n /\
  (forall j, 0 <= j < n -> dayActive entries (localDay now - j) = true) /\
  dayActive entries (localDay now - n) = false.

(** One record per local calendar day, and none dated after today: what
    the entry store maintains by its per-date upsert. *)
Definition onePerDay (entries : list DailyEntry) : Prop :=
  NoDup (map entryDay entries).

Definition noneAfterToday (entries : list DailyEntry) : Prop :=
  forall e, In e entries -> entryDay e <= localDay now.

(** ** The document store *)

(** The Firestore collections the service reads and writes, with the calls
    it makes on them.  A collection keyed by document id is a list of
    pairs with distinct ids; [dailyEntries], whose ids the store chooses,
    is a list of documents.  [getDoc] is [getDoc(...)] followed by
    [exists()] and [data()], [setDoc] replaces a document or creates it,
    [deleteDoc] succeeds on a missing document, [updateDoc] is written out
    field by field where it is used.  A backend call that fails (network,
    permissions) is outside the model. *)
Fixpoint getDoc {V : Type} (k : string) (c : list (string * V)) : option V :=
  match c with
  | [] => None
  | (k', v) :: c' => if String.eqb k' k then Some v else getDoc k c'
  end.

Fixpoint setDoc {V : Type} (k : string) (v : V) (c : list (string * V))
  : list (string * V) :=
  match c with
  | [] => [(k, v)]
  | (k', v') :: c' =>
      if String.eqb k' k then (k', v) :: c' else (k', v') :: setDoc k v c'
  end.

Definition deleteDoc {V : Type} (k : string) (c : list (string * V))
  : list (string * V) :=
  filter (fun p => negb (String.eqb (fst p) k)) c.

(** Modelled from the spec: the enumeration [UserRole] of [src/types]
    (the file is not part of the sources at hand); the service uses its
    members [STUDENT] and [ADMIN]. *)
Inductive UserRole := STUDENT | ADMIN.

Definition isAdminRole (r : UserRole) : bool :=
  match r with ADMIN => true | STUDENT => false end.

Record UserProfile := {
  uid : string;
  email : string;
  displayName : string;
  photoURL : option string;
  role : UserRole;
  createdAt : Z;
  lastLoginAt : Z;
  geminiApiKey : option string;
  apiKeyUpdatedAt : option string
}.

(** The document [createUserProfile] writes to [adminUsers]. *)
Record AdminDoc := {
  admin_uid : string;
  admin_email : string;
  admin_displayName : string;
  promotedAt : Z;
  permissions : list string;
  canPromoteUsers : bool;
  canViewAllData : bool
}.

(** A document of [dailyEntries]: the record's own fields and the ones
    [addOrUpdateDailyEntry] adds.  The service never writes a [userId]
    field; [removeUser] queries it. *)
Record EntryDoc := {
  doc_userId : option string;
  doc_studentId : string;
  dateString : Z;
  timestamp : Z;
  doc_date : string;
  doc_goal : option GoalData;
  doc_reflection : option ReflectionData;
  doc_quizEvaluation : option QuizEvaluation
}.

Record Store := {
  studentDocs : list (string * StudentData);
  entryDocs : list EntryDoc;
  userDocs : list (string * UserProfile);
  adminDocs : list (string * AdminDoc)
}.

(** The user object of the authentication library, as far as
    [createUserProfile] reads it. *)
Record AuthUser := {
  user_uid : string;
  user_email : string;
  user_displayName : option string;
  user_photoURL : option string
}.

(** [s || d] on an optional string: the empty string is falsy. *)
Definition orElse (s : option string) (d : string) : string :=
  match s with
  | Some (String c s') => String c s'
  | _ => d
  end.

(** *** Records of a student *)

Definition entryOfDoc (d : EntryDoc) : DailyEntry :=
  {| date := doc_date d; goal := doc_goal d; reflection := doc_reflection d;
     quizEvaluation := doc_quizEvaluation d |}.

(** [query(..., where('studentId', '==', studentId))]. *)
Definition entriesOfStudent (sid : string) (docs : list EntryDoc) : list EntryDoc :=
  filter (fun d => String.eqb (doc_studentId d) sid) docs.

(** [getStudentData(studentId, displayName)]: the returned aggregate and
    the store after the call. *)
Definition getStudentData (sid : string) (name : option string) (st : Store)
  : StudentData * Store :=
  match getDoc sid (studentDocs st) with
  | None =>
      let newStudent :=
        {| studentId := sid;
           student_name := orElse name (String.append "Student " sid);
           student_consistencyScore := 0;
           student_streak := 0;
           badges := [];
           entries := [];
           student_dailyEngagement := None |} in
      (newStudent,
       {| studentDocs := setDoc sid newStudent (studentDocs st);
          entryDocs := entryDocs st;
          userDocs := userDocs st;
          adminDocs := adminDocs st |})
  | Some stored =>
      let fetched := map entryOfDoc (entriesOfStudent sid (entryDocs st)) in
      let sorted := Array_sort byDateDescending fetched in
      let cs := calculateConsistencyAndStreak sorted in
      let de := calculateDailyEngagement sorted in
      let studentData := checkAndAwardBadges
        {| studentId := studentId stored;
           student_name := student_name stored;
           student_consistencyScore := consistencyScore cs;
           student_streak := streak cs;
           badges := badges stored;
           entries := sorted;
           student_dailyEngagement := Some de |} in
      let updated :=
        {| studentId := studentId stored;
           student_name := student_name stored;
           student_consistencyScore := student_consistencyScore studentData;
           student_streak := student_streak studentData;
           badges := badges studentData;
           entries := entries stored;
           student_dailyEngagement := student_dailyEngagement studentData |} in
      (studentData,
       {| studentDocs := setDoc sid updated (studentDocs st);
          entryDocs := entryDocs st;
          userDocs := userDocs st;
          adminDocs := adminDocs st |})
  end.

(** *** Saving a record *)

(** The key of the upsert: the student and the UTC date of the record. *)
Definition sameKey (sid : string) (day : Z) (d : EntryDoc) : bool :=
  String.eqb (doc_studentId d) sid && (dateString d =? day).

(** [updateDoc(existingDoc.ref, entryData)]: the fields of [entryData]
    replace the stored ones, a field the record leaves undefined keeps its
    stored value. *)
Definition mergeEntry (old : EntryDoc) (sid : string) (entry : DailyEntry)
  : EntryDoc :=
  {| doc_userId := doc_userId old;
     doc_studentId := sid;
     dateString := toISODate (getTime (date entry));
     timestamp := getTime (date entry);
     doc_date := date entry;
     doc_goal :=
       match goal entry with Some g => Some g | None => doc_goal old end;
     doc_reflection :=
       match reflection entry with Some r => Some r | None => doc_reflection old end;
     doc_quizEvaluation :=
       match quizEvaluation entry with
       | Some q => Some q
       | None => doc_quizEvaluation old
       end |}.

(** [addDoc(collection, entryData)]. *)
Definition newEntryDoc (sid : string) (entry : DailyEntry) : EntryDoc :=
  {| doc_userId := None;
     doc_studentId := sid;
     dateString := toISODate (getTime (date entry));
     timestamp := getTime (date entry);
     doc_date := date entry;
     doc_goal := goal entry;
     doc_reflection := reflection entry;
     doc_quizEvaluation := quizEvaluation entry |}.

(** The update of [existingEntrySnapshot.docs[0]]: the first document of
    the collection that matches. *)
Fixpoint updateFirst (p : EntryDoc -> bool) (f : EntryDoc -> EntryDoc)
  (docs : list EntryDoc) : list EntryDoc :=
  match docs with
  | [] => []
  | d :: ds => if p d then f d :: ds else d :: updateFirst p f ds
  end.

Definition upsertEntry (sid : string) (entry : DailyEntry) (docs : list EntryDoc)
  : list EntryDoc :=
  let entryDate := toISODate (getTime (date entry)) in
  match filter (sameKey sid entryDate) docs with
  | _ :: _ => updateFirst (sameKey sid entryDate) (fun d => mergeEntry d sid entry) docs
  | [] => docs ++ [newEntryDoc sid entry]
  end.

Definition addOrUpdateDailyEntry (sid : string) (entry : DailyEntry) (st : Store)
  : StudentData * Store :=
  getStudentData sid None
    {| studentDocs := studentDocs st;
       entryDocs := upsertEntry sid entry (entryDocs st);
       userDocs := userDocs st;
       adminDocs := adminDocs st |}.

(** What the upsert maintains: one document per student and UTC date, each
    filed under the UTC date of its own [date]. *)
Definition docKey (d : EntryDoc) : string * Z := (doc_studentId d, dateString d).

Definition uniqueKeys (docs : list EntryDoc) : Prop := NoDup (map docKey docs).

Definition filedByDate (docs : list EntryDoc) : Prop :=
  Forall (fun d => dateString d = toISODate (getTime (doc_date d))) docs.

(** *** Users *)

Definition withLastLogin (u : UserProfile) (t : Z) : UserProfile :=
  {| uid := uid u; email := email u; displayName := displayName u;
     photoURL := photoURL u; role := role u; createdAt := createdAt u;
     lastLoginAt := t; geminiApiKey := geminiApiKey u;
     apiKeyUpdatedAt := apiKeyUpdatedAt u |}.

Definition withUsers (st : Store) (us : list (string * UserProfile)) : Store :=
  {| studentDocs := studentDocs st; entryDocs := entryDocs st;
     userDocs := us; adminDocs := adminDocs st |}.

(** [getUserProfile(uid)]: the profile as read, before the login time is
    updated. *)
Definition getUserProfile (id : string) (st : Store)
  : option UserProfile * Store :=
  match getDoc id (userDocs st) with
  | Some userData =>
      (Some userData,
       withUsers st (setDoc id (withLastLogin userData now) (userDocs st)))
  | None => (None, st)
  end.

Definition isUserAdmin (id : string) (st : Store) : bool :=
  truthy (getDoc id (adminDocs st)).

Definition createUserProfile (user : AuthUser) (r : UserRole) (st : Store)
  : UserProfile * Store :=
  let userProfile :=
    {| uid := user_uid user;
       email := user_email user;
       displayName := orElse (user_displayName user) "Unknown User";
       photoURL := user_photoURL user;
       role := r;
       createdAt := now;
       lastLoginAt := now;
       geminiApiKey := None;
       apiKeyUpdatedAt := None |} in
  let users' := setDoc (user_uid user) userProfile (userDocs st) in
  let admins' :=
    if isAdminRole r then
      setDoc (user_uid user)
        {| admin_uid := user_uid user;
           admin_email := user_email user;
           admin_displayName := orElse (user_displayName user) "Admin User";
           promotedAt := now;
           permissions := ["read"; "write"; "admin"; "manage_users"];
           canPromoteUsers := true;
           canViewAllData := true |}
        (adminDocs st)
    else adminDocs st in
  (userProfile,
   {| studentDocs := studentDocs st; entryDocs := entryDocs st;
      userDocs := users'; adminDocs := admins' |}).

(** [where('userId', '==', userId)]. *)
Definition hasUserId (id : string) (d : EntryDoc) : bool :=
  match doc_userId d with
  | Some u => String.eqb u id
  | None => false
  end.

Definition removeUser (userId adminUserId : string) (st : Store)
  : Outcome unit * Store :=
  let '(adminProfile, st) := getUserProfile adminUserId st in
  match adminProfile with
  | None => (Thrown "Unauthorized: Only admins can remove users", st)
  | Some a =>
      if negb (isAdminRole (role a))
      then (Thrown "Unauthorized: Only admins can remove users", st)
      else
        let '(userProfile, st) := getUserProfile userId st in
        match userProfile with
        | None => (Thrown "User not found", st)
        | Some u =>
            if String.eqb userId adminUserId
            then (Thrown "Cannot remove your own admin account", st)
            else if isAdminRole (role u)
            then (Thrown "Cannot remove other admin users", st)
            else
              (Done tt,
               {| studentDocs := deleteDoc userId (studentDocs st);
                  entryDocs := filter (fun d => negb (hasUserId userId d)) (entryDocs st);
                  userDocs := deleteDoc userId (userDocs st);
                  adminDocs := deleteDoc userId (adminDocs st) |})
        end
  end.


(** *** Complete removal *)

Record UserDeletionOptions := {
  opt_deleteAuthAccount : option bool;
  opt_clearBrowserData : option bool;
  opt_clearExternalData : option bool
}.

(** [const { x = d } = options]. *)
Definition withDefault (o : option bool) (d : bool) : bool :=
  match o with Some b => b | None => d end.

(** [clearExternalData] only logs. *)
Definition clearExternalData (userId : string) : Outcome unit := Done tt.

Section CompleteRemoval.

(** The browser state and [clearBrowserData], which works on storage,
    caches and cookies only, are parameters. *)
Variable Browser : Type.
Variable clearBrowserData : string -> Browser -> Outcome unit * Browser.

(** The state [removeUserCompletely] works on: the store, the signed-in
    user [auth.currentUser] and the browser. *)
Record Session := {
  store : Store;
  currentUser : option string;
  browser : Browser
}.

(** Step 2, [if (deleteAuthAccount) { ... }]: only the signed-in user's own
    account can be deleted; any error is re-thrown with a prefix. *)
Definition deleteAuthStep (userId : string) (s : Session) : Outcome unit * Session :=
  match currentUser s with
  | Some u =>
      if String.eqb u userId
      then (Done tt, {| store := store s; currentUser := None; browser := browser s |})
      else (Thrown "Failed to delete authentication account: Error: Auth account deletion requires server-side implementation", s)
  | None =>
      (Thrown "Failed to delete authentication account: Error: Auth account deletion requires server-side implementation", s)
  end.

Definition removeUserCompletely (userId adminUserId : string)
  (options : UserDeletionOptions) (s : Session) : Outcome unit * Session :=
  let deleteAuthAccount := withDefault (opt_deleteAuthAccount options) false in
  let shouldClearBrowser := withDefault (opt_clearBrowserData options) true in
  let shouldClearExternal := withDefault (opt_clearExternalData options) false in
  match removeUser userId adminUserId (store s) with
  | (Thrown msg, st) =>
      (Thrown msg, {| store := st; currentUser := currentUser s; browser := browser s |})
  | (Done _, st) =>
      let s1 := {| store := st; currentUser := currentUser s; browser := browser s |} in
      match (if deleteAuthAccount then deleteAuthStep userId s1 else (Done tt, s1)) with
      | (Thrown msg, s2) => (Thrown msg, s2)
      | (Done _, s2) =>
          match (if shouldClearBrowser
                 then let '(r, b) := clearBrowserData userId (browser s2) in
                      (r, {| store := store s2; currentUser := currentUser s2;
                             browser := b |})
                 else (Done tt, s2)) with
          | (Thrown msg, s3) => (Thrown msg, s3)
          | (Done _, s3) =>
              if shouldClearExternal
              then (clearExternalData userId, s3)
              else (Done tt, s3)
          end
      end
  end.

End CompleteRemoval.

(** ** Sample stores *)

Definition todayOnly : list DailyEntry :=
  [ goalEntry "2026-11-01T08:00:00.000Z" true ].

Definition oldOnly : list DailyEntry :=
  [ goalEntry "2026-09-01T08:00:00.000Z" true ].

Definition withTomorrow : list DailyEntry :=
  [ goalEntry "2026-11-01T08:00:00.000Z" true;
    goalEntry "2026-11-02T08:00:00.000Z" false ].

Definition sampleAdmin : UserProfile :=
  {| uid := "adm1"; email := "head@school.example"; displayName := "Head";
     photoURL := None; role := ADMIN; createdAt := 0; lastLoginAt := 0;
     geminiApiKey := None; apiKeyUpdatedAt := None |}.

Definition sampleUser : UserProfile :=
  {| uid := "stu1"; email := "asha@school.example"; displayName := "Asha";
     photoURL := None; role := STUDENT; createdAt := 0; lastLoginAt := 0;
     geminiApiKey := None; apiKeyUpdatedAt := None |}.

(** The document a first save of a record writes, its dates read by
    [isoGetTime]. *)
Definition sampleDoc (sid : string) (entry : DailyEntry) : EntryDoc :=
  {| doc_userId := None;
     doc_studentId := sid;
     dateString := toISODate (isoGetTime (date entry));
     timestamp := isoGetTime (date entry);
     doc_date := date entry;
     doc_goal := goal entry;
     doc_reflection := reflection entry;
     doc_quizEvaluation := quizEvaluation entry |}.

Definition sampleStore : Store :=
  {| studentDocs := [("stu1", mkStudent "stu1" "Asha" 0 0 [] [])];
     entryDocs :=
       map (sampleDoc "stu1") sampleRun
       ++ [sampleDoc "stu2" (goalEntry "2026-11-01T09:00:00.000Z" false)];
     userDocs := [("adm1", sampleAdmin); ("stu1", sampleUser)];
     adminDocs := [] |}.

(** A reflection saved later on the day of [sampleRun]'s goal of today. *)
Definition eveningReflection : DailyEntry :=
  reflectionEntry "2026-11-01T18:00:00.000Z" 5.

Definition newcomer : AuthUser :=
  {| user_uid := "stu3"; user_email := "ravi@school.example";
     user_displayName := None; user_photoURL := None |}.

Definition deleteEverything : UserDeletionOptions :=
  {| opt_deleteAuthAccount := Some true; opt_clearBrowserData := None;
     opt_clearExternalData := None |}.

Definition noBrowser (userId : string) (b : unit) : Outcome unit * unit :=
  (Done tt, b).

Definition adminSession : Session unit :=
  {| store := sampleStore; currentUser := Some "adm1"; browser := tt |}.

(** ** The weekly pattern of the engagement panel *)

Definition dayNames : list string :=
  ["Sun"; "Mon"; "Tue"; "Wed"; "Thu"; "Fri"; "Sat"].

(** [date.getDay()]: 1 January 1970 was a Thursday. *)
Definition getDay (t : Z) : Z := (localDay t + 4) mod 7.

Definition dayNameOf (entry : DailyEntry) : string :=
  nth (Z.to_nat (getDay (entryTime entry))) dayNames EmptyString.

(** [if (!acc[k]) acc[k] = 0; acc[k]++] on an object whose keys are kept
    in insertion order. *)
Fixpoint countUp (k : string) (acc : list (string * Z)) : list (string * Z) :=
  match acc with
  | [] => [(k, 0 + 1)]
  | (k', n) :: rest =>
      if String.eqb k' k
      then (k', (if n =? 0 then 0 else n) + 1) :: rest
      else (k', n) :: countUp k rest
  end.

Definition weeklyActivity (entries : list DailyEntry) : list (string * Z) :=
  let sortedEntries := Array_sort byDateAscending entries in
  fold_left (fun acc entry => countUp (dayNameOf entry) acc) sortedEntries [].

(** [obj[k]], with 0 standing for [undefined] in a comparison. *)
Definition countOf (obj : list (string * Z)) (k : string) : Z :=
  match getDoc k obj with Some n => n | None => 0 end.

(** [arr.reduce(f)] without an initial value: a [TypeError] on the empty
    array. *)
Definition reduce1 {A : Type} (f : A -> A -> A) (l : list A) : Outcome A :=
  match l with
  | [] => Thrown "Reduce of empty array with no initial value"
  | x :: xs => Done (fold_left f xs x)
  end.

Definition mostActiveDay (entries : list DailyEntry) : Outcome (string * Z) :=
  let wa := weeklyActivity entries in
  reduce1 (fun a b => if countOf wa (fst b) <? countOf wa (fst a) then a else b) wa.


(** ** Date arithmetic *)

Lemma msPerDay_pos : 0 < msPerDay.
Proof. reflexivity. Qed.

Lemma setHoursZero_dayStart (t : Z) : setHoursZero t = dayStart (localDay t).
Proof.
  unfold setHoursZero, dayStart, localDay.
  pose proof (Z.div_mod (t + tz) msPerDay) as H.
  pose proof msPerDay_pos. lia.
Qed.

Lemma dayStart_inj (d1 d2 : Z) : dayStart d1 = dayStart d2 -> d1 = d2.
Proof.
  unfold dayStart. pose proof msPerDay_pos. intros. nia.
Qed.

Lemma localDay_setDateBack (t i : Z) :
  localDay (setDateBack t i) = localDay t - i.
Proof.
  unfold localDay, setDateBack.
  replace (t - i * msPerDay + tz) with (t + tz + (- i) * msPerDay) by ring.
  rewrite Z.div_add by (pose proof msPerDay_pos; lia). ring.
Qed.

Lemma localDay_dayStart (d : Z) : localDay (dayStart d) = d.
Proof.
  unfold localDay, dayStart.
  replace (d * msPerDay - tz + tz) with (d * msPerDay) by ring.
  apply Z.div_mul. pose proof msPerDay_pos; lia.
Qed.

Lemma setDateBack_dayStart (d i : Z) :
  setDateBack (dayStart d) i = dayStart (d - i).
Proof. unfold setDateBack, dayStart. ring. Qed.

Lemma localDay_mono (t1 t2 : Z) : t1 <= t2 -> localDay t1 <= localDay t2.
Proof.
  intros. unfold localDay. apply Z.div_le_mono; [apply msPerDay_pos | lia].
Qed.

(** The date label of a local day is that day shifted by a constant: the
    labels of consecutive days are consecutive. *)
Lemma toISODate_dayStart (d : Z) :
  toISODate (dayStart d) = d + (- tz) / msPerDay.
Proof.
  unfold toISODate, dayStart.
  replace (d * msPerDay - tz) with (- tz + d * msPerDay) by ring.
  rewrite Z.div_add by (pose proof msPerDay_pos; lia). ring.
Qed.

(** West of Greenwich, and at it, the label is the local day itself; east
    of it the label is the day before. *)
Lemma toISODate_dayStart_west (d : Z) :
  - msPerDay < tz <= 0 -> toISODate (dayStart d) = d.
Proof.
  intros H. rewrite toISODate_dayStart.
  rewrite (Z.div_small (- tz) msPerDay) by lia. ring.
Qed.

Lemma toISODate_dayStart_east (d : Z) :
  0 < tz <= msPerDay -> toISODate (dayStart d) = d - 1.
Proof.
  intros H. rewrite toISODate_dayStart.
  replace (- tz) with ((msPerDay - tz) + (-1) * msPerDay) by ring.
  rewrite Z.div_add by (pose proof msPerDay_pos; lia).
  rewrite (Z.div_small (msPerDay - tz) msPerDay) by lia. ring.
Qed.

(** ** Rounding *)

Lemma Math_round_Qeq (x y : Q) : (x == y)%Q -> Math_round x = Math_round y.
Proof.
  intros H. unfold Math_round. now rewrite H.
Qed.

(** [Math.round(p / q)] on integers, [q] positive. *)
Lemma Math_round_div (p q : Z) :
  0 < q -> Math_round (ZtoQ p / ZtoQ q)%Q = (2 * p + q) / (2 * q).
Proof.
  intros Hq. destruct q as [|q|q]; try lia.
  unfold ZtoQ, Math_round.
  rewrite (Qfloor_comp _ ((2 * p + Z.pos q) # (2 * q))%Q).
  - reflexivity.
  - rewrite <- Qmake_Qdiv. unfold Qeq, Qplus. cbn [Qnum Qden].
    rewrite !Pos2Z.inj_mul. ring.
Qed.

(** The rounded value is within one half of the quotient. *)
Lemma Math_round_div_spec (p q : Z) :
  0 < q ->
  let r := Math_round (ZtoQ p / ZtoQ q)%Q in
  2 * q * r <= 2 * p + q < 2 * q * (r + 1).
Proof.
  intros Hq r. subst r. rewrite Math_round_div by assumption.
  pose proof (Z.div_mod (2 * p + q) (2 * q)) as H.
  pose proof (Z.mod_pos_bound (2 * p + q) (2 * q)) as Hb.
  lia.
Qed.

Lemma Math_round_percent_bounds (a m : Z) :
  0 <= a <= m -> 0 < m ->
  0 <= Math_round (ZtoQ (100 * a) / ZtoQ m)%Q <= 100.
Proof.
  intros Ha Hm. rewrite Math_round_div by assumption. split.
  - apply Z.div_pos; lia.
  - enough ((2 * (100 * a) + m) / (2 * m) < 101) by lia.
    apply Z.div_lt_upper_bound; lia.
Qed.

(** ** Lists: sums, folds, slices *)

Lemma len_nil {A : Type} : len (@nil A) = 0.
Proof. reflexivity. Qed.

Lemma len_cons {A : Type} (x : A) (l : list A) : len (x :: l) = len l + 1.
Proof. unfold len. simpl List.length. lia. Qed.

Lemma len_nonneg {A : Type} (l : list A) : 0 <= len l.
Proof. unfold len. lia. Qed.

Lemma len_zero_iff {A : Type} (l : list A) : (len l =? 0) = true <-> l = [].
Proof.
  destruct l as [|x l].
  - split; reflexivity.
  - rewrite len_cons. pose proof (len_nonneg l).
    split; [intros H0; apply Z.eqb_eq in H0; lia | discriminate].
Qed.

Lemma len_filter_le {A : Type} (f : A -> bool) (l : list A) :
  len (filter f l) <= len l.
Proof.
  induction l as [|x l IH]; [reflexivity|].
  cbn [filter]. destruct (f x); rewrite ?len_cons; lia.
Qed.

Lemma reduceZ_acc {A : Type} (f : A -> Z) (l : list A) (a : Z) :
  fold_left (fun s x => s + f x) l a = a + sumOver f l.
Proof.
  revert a. induction l as [|x l IH]; intros a; simpl; [lia|].
  rewrite IH. lia.
Qed.

Lemma reduceZ_sumOver {A : Type} (f : A -> Z) (l : list A) :
  reduceZ f l = sumOver f l.
Proof. unfold reduceZ. rewrite reduceZ_acc. lia. Qed.

Lemma sumOver_cons {A : Type} (f : A -> Z) (x : A) (l : list A) :
  sumOver f (x :: l) = f x + sumOver f l.
Proof. reflexivity. Qed.

Lemma sumOver_perm {A : Type} (f : A -> Z) (l1 l2 : list A) :
  Permutation l1 l2 -> sumOver f l1 = sumOver f l2.
Proof.
  induction 1; simpl; lia.
Qed.

Lemma existsb_perm {A : Type} (f : A -> bool) (l1 l2 : list A) :
  Permutation l1 l2 -> existsb f l1 = existsb f l2.
Proof.
  induction 1; simpl.
  - reflexivity.
  - now rewrite IHPermutation.
  - destruct (f x), (f y); reflexivity.
  - congruence.
Qed.

Lemma filter_perm {A : Type} (f : A -> bool) (l1 l2 : list A) :
  Permutation l1 l2 -> Permutation (filter f l1) (filter f l2).
Proof.
  induction 1; simpl.
  - constructor.
  - destruct (f x); [constructor|]; assumption.
  - destruct (f x), (f y); try apply Permutation_refl. constructor.
  - eapply Permutation_trans; eassumption.
Qed.

Lemma len_perm {A : Type} (l1 l2 : list A) :
  Permutation l1 l2 -> len l1 = len l2.
Proof.
  intros H. unfold len. now rewrite (Permutation_length H).
Qed.

Lemma filter_ext_in_eq {A : Type} (f g : A -> bool) (l : list A) :
  (forall x, In x l -> f x = g x) -> filter f l = filter g l.
Proof.
  induction l as [|x l IH]; intros H; simpl; [reflexivity|].
  rewrite (H x) by (left; reflexivity).
  rewrite IH by (intros; apply H; right; assumption).
  reflexivity.
Qed.

(** ** The stable sort *)

Section Sorting.

Context {A : Type}.
Variable cmp : A -> A -> Z.
Variable key : A -> Z.
Hypothesis cmp_key : forall a b, cmp a b <= 0 <-> key a <= key b.

Lemma sort_insert_perm (x : A) (l : list A) :
  Permutation (sort_insert cmp x l) (x :: l).
Proof.
  induction l as [|y ys IH]; simpl.
  - apply Permutation_refl.
  - destruct (cmp x y <=? 0).
    + apply Permutation_refl.
    + eapply Permutation_trans; [apply perm_skip, IH | apply perm_swap].
Qed.

Lemma Array_sort_perm (l : list A) : Permutation (Array_sort cmp l) l.
Proof.
  induction l as [|x xs IH]; simpl.
  - constructor.
  - eapply Permutation_trans; [apply sort_insert_perm | now constructor].
Qed.

Lemma sort_insert_sorted (x : A) (l : list A) :
  StronglySorted (keyLe key) l -> StronglySorted (keyLe key) (sort_insert cmp x l).
Proof.
  induction 1 as [|y ys Hs IH Hy]; simpl.
  - repeat constructor.
  - destruct (cmp x y <=? 0) eqn:E.
    + apply Z.leb_le, cmp_key in E.
      constructor; [constructor; assumption|].
      constructor; [exact E|].
      rewrite Forall_forall in Hy |- *. intros z Hz.
      unfold keyLe in *. specialize (Hy z Hz). lia.
    + apply Z.leb_gt in E.
      assert (Hyx : keyLe key y x).
      { unfold keyLe. destruct (Z.le_gt_cases (key x) (key y)) as [Hle|Hgt].
        - apply cmp_key in Hle. lia.
        - lia. }
      constructor; [exact IH|].
      rewrite Forall_forall in Hy |- *. intros z Hz.
      apply (Permutation_in _ (sort_insert_perm x ys)) in Hz.
      destruct Hz as [<-|Hz]; [exact Hyx | exact (Hy z Hz)].
Qed.

Lemma Array_sort_sorted (l : list A) : StronglySorted (keyLe key) (Array_sort cmp l).
Proof.
  induction l as [|x xs IH]; simpl.
  - constructor.
  - now apply sort_insert_sorted.
Qed.

(** With pairwise distinct keys a sorted list is strictly sorted. *)
Lemma sorted_strict (l : list A) :
  StronglySorted (keyLe key) l -> NoDup (map key l) -> StronglySorted (keyLt key) l.
Proof.
  induction 1 as [|x xs Hs IH Hx]; intros Hnd; simpl in *.
  - constructor.
  - inversion Hnd as [|? ? Hnotin Hnd']; subst.
    constructor; [now apply IH|].
    rewrite Forall_forall in Hx |- *. intros z Hz.
    specialize (Hx z Hz). unfold keyLe, keyLt in *.
    assert (key x <> key z).
    { intros Heq. apply Hnotin. rewrite Heq. now apply in_map. }
    lia.
Qed.

(** Two strictly sorted lists with the same elements are equal. *)
Lemma strict_sorted_unique (l1 l2 : list A) :
  StronglySorted (keyLt key) l1 -> StronglySorted (keyLt key) l2 ->
  Permutation l1 l2 -> l1 = l2.
Proof.
  intros H1. revert l2.
  induction H1 as [|a l1 Hs1 IH Ha]; intros l2 H2 HP.
  - apply Permutation_nil in HP. now subst.
  - destruct l2 as [|b l2].
    + apply Permutation_sym, Permutation_nil in HP. discriminate.
    + inversion H2 as [|? ? Hs2 Hb]; subst.
      assert (Hab : a = b).
      { assert (Hin1 : In a (b :: l2)) by
          (apply (Permutation_in _ HP); left; reflexivity).
        assert (Hin2 : In b (a :: l1)) by
          (apply (Permutation_in _ (Permutation_sym HP)); left; reflexivity).
        rewrite Forall_forall in Ha, Hb.
        destruct Hin1 as [->|Hin1]; [reflexivity|].
        destruct Hin2 as [->|Hin2]; [reflexivity|].
        specialize (Ha _ Hin2). specialize (Hb _ Hin1).
        unfold keyLt in *. lia. }
      subst b. f_equal. apply IH; [assumption|].
      now apply Permutation_cons_inv in HP.
Qed.

Lemma Array_sort_perm_eq (l1 l2 : list A) :
  Permutation l1 l2 -> NoDup (map key l1) ->
  Array_sort cmp l1 = Array_sort cmp l2.
Proof.
  intros HP Hnd.
  assert (Hnd1 : NoDup (map key (Array_sort cmp l1))).
  { eapply Permutation_NoDup; [|exact Hnd].
    apply Permutation_map, Permutation_sym, Array_sort_perm. }
  assert (Hnd2 : NoDup (map key (Array_sort cmp l2))).
  { eapply Permutation_NoDup; [|exact Hnd].
    apply Permutation_map.
    eapply Permutation_trans; [exact HP|].
    apply Permutation_sym, Array_sort_perm. }
  apply strict_sorted_unique.
  - apply sorted_strict; [apply Array_sort_sorted | exact Hnd1].
  - apply sorted_strict; [apply Array_sort_sorted | exact Hnd2].
  - eapply Permutation_trans; [apply Array_sort_perm|].
    eapply Permutation_trans; [exact HP|].
    apply Permutation_sym, Array_sort_perm.
Qed.

End Sorting.

(** In a sorted list every element of a prefix is below every element of
    the rest. *)
Lemma sorted_app_le {A : Type} (R : A -> A -> Prop) (l1 l2 : list A) :
  StronglySorted R (l1 ++ l2) ->
  forall a b, In a l1 -> In b l2 -> R a b.
Proof.
  induction l1 as [|x l1 IH]; simpl; intros Hs a b Ha Hb.
  - contradiction.
  - inversion Hs as [|? ? Hs' Hx]; subst.
    destruct Ha as [<-|Ha].
    + rewrite Forall_forall in Hx. apply Hx, in_or_app. now right.
    + now apply IH.
Qed.

(** ** Consistency score *)

Lemma byDateAscending_key (a b : DailyEntry) :
  byDateAscending a b <= 0 <-> entryTime a <= entryTime b.
Proof. unfold byDateAscending. lia. Qed.

Lemma byDateDescending_key (a b : DailyEntry) :
  byDateDescending a b <= 0 <-> - entryTime a <= - entryTime b.
Proof. unfold byDateDescending. lia. Qed.

Lemma len_slice_last {A : Type} (k : nat) (l : list A) :
  len (slice_last k l) = Z.min (Z.of_nat k) (len l).
Proof.
  unfold slice_last, len. rewrite length_skipn. lia.
Qed.

Lemma calculateConsistencyAndStreak_nil :
  calculateConsistencyAndStreak [] = {| consistencyScore := 0; streak := 0 |}.
Proof. reflexivity. Qed.

Lemma calculateConsistencyAndStreak_cons (e : DailyEntry) (es : list DailyEntry) :
  let entries := e :: es in
  calculateConsistencyAndStreak entries =
  {| consistencyScore :=
       Math_round
         ((ZtoQ (len (filter isActive (slice_last 30 (Array_sort byDateAscending entries))))
           / ZtoQ (Z.min 30 (len entries))) * 100)%Q;
     streak :=
       streakLoop (setHoursZero now) (Array_sort byDateDescending entries) 0 0 |}.
Proof.
  intros entries. unfold calculateConsistencyAndStreak.
  destruct (len entries =? 0) eqn:E; [|reflexivity].
  apply len_zero_iff in E. discriminate.
Qed.

(** [(a / m) * 100] and [(100 * a) / m] are the same number. *)
Lemma percent_Qeq (a m : Z) :
  ((ZtoQ a / ZtoQ m) * 100 == ZtoQ (100 * a) / ZtoQ m)%Q.
Proof.
  unfold ZtoQ, Qdiv. rewrite inject_Z_mult.
  change (inject_Z 100) with 100%Q. ring.
Qed.

(** C4. The consistency score is [round(100 * active / size)] over the
    window of the last [min(30, n)] records by date, where a record is
    active when it has a goal, a reflection or a quiz result; it is 0 for
    no records and always lies between 0 and 100. *)
Theorem consistencyScore_window (entries : list DailyEntry) :
  let r := consistencyScore (calculateConsistencyAndStreak entries) in
  (entries = [] -> r = 0) /\
  0 <= r <= 100 /\
  (entries <> [] ->
   exists older window,
     Permutation (older ++ window) entries /\
     len window = Z.min 30 (len entries) /\
     (forall a b, In a older -> In b window -> entryTime a <= entryTime b) /\
     r = Math_round
           (ZtoQ (100 * len (filter isActive window)) / ZtoQ (len window))%Q /\
     2 * len window * r
       <= 200 * len (filter isActive window) + len window
       < 2 * len window * (r + 1)).
Proof.
  destruct entries as [|e es].
  - cbn zeta. rewrite calculateConsistencyAndStreak_nil. cbn [consistencyScore].
    repeat split; try lia. intros H; now contradiction H.
  - cbn zeta. rewrite calculateConsistencyAndStreak_cons. cbn [consistencyScore].
    set (entries := e :: es).
    set (sorted := Array_sort byDateAscending entries).
    set (window := slice_last 30 sorted).
    assert (Hperm : Permutation sorted entries) by apply Array_sort_perm.
    assert (Hlen : len window = Z.min 30 (len entries)).
    { unfold window. rewrite len_slice_last, (len_perm _ _ Hperm). reflexivity. }
    assert (Hpos : 0 < len entries).
    { unfold entries. rewrite len_cons. pose proof (len_nonneg es). lia. }
    assert (Hround :
      Math_round ((ZtoQ (len (filter isActive window))
                   / ZtoQ (Z.min 30 (len entries))) * 100)%Q
      = Math_round (ZtoQ (100 * len (filter isActive window))
                    / ZtoQ (len window))%Q).
    { rewrite Hlen. apply Math_round_Qeq, percent_Qeq. }
    rewrite Hround. split; [discriminate|]. split.
    + apply Math_round_percent_bounds; [|lia].
      split; [apply len_nonneg | apply len_filter_le].
    + intros _. exists (firstn (List.length sorted - 30) sorted), window.
      split; [|split; [exact Hlen|split; [|split; [reflexivity|]]]].
      * unfold window, slice_last. rewrite firstn_skipn. exact Hperm.
      * intros a b Ha Hb.
        assert (Hs : StronglySorted (keyLe entryTime)
                       (firstn (List.length sorted - 30) sorted ++ window)).
        { unfold window, slice_last. rewrite firstn_skipn.
          apply (Array_sort_sorted byDateAscending entryTime byDateAscending_key). }
        exact (sorted_app_le _ _ _ Hs a b Ha Hb).
      * pose proof (Math_round_div_spec (100 * len (filter isActive window))
                      (len window)) as Hspec.
        cbv zeta in Hspec. lia.
Qed.

(** ** Streak *)

(** The loop's date test compares local calendar days. *)
Lemma streak_test (e : DailyEntry) (i : Z) :
  (setHoursZero (entryTime e) =? setDateBack (setHoursZero now) i)
  = (entryDay e =? localDay now - i).
Proof.
  rewrite !setHoursZero_dayStart, setDateBack_dayStart.
  fold (entryDay e).
  destruct (entryDay e =? localDay now - i) eqn:E.
  - apply Z.eqb_eq in E. rewrite E. apply Z.eqb_refl.
  - apply Z.eqb_neq in E. apply Z.eqb_neq. intros H.
    apply E. now apply dayStart_inj.
Qed.

Lemma dayActive_cons (e : DailyEntry) (l : list DailyEntry) (d : Z) :
  dayActive (e :: l) d = ((entryDay e =? d) && isActive e) || dayActive l d.
Proof. reflexivity. Qed.

Lemma dayActive_none (l : list DailyEntry) (d : Z) :
  (forall e, In e l -> entryDay e <> d) -> dayActive l d = false.
Proof.
  induction l as [|e l IH]; intros H; [reflexivity|].
  rewrite dayActive_cons, IH by (intros; apply H; now right).
  assert (entryDay e <> d) by (apply H; now left).
  apply Z.eqb_neq in H0. rewrite H0. reflexivity.
Qed.

(** Newest first by time and one record per day: strictly newest first by
    day. *)
Lemma sorted_days_strict (l : list DailyEntry) :
  StronglySorted (keyLe (fun e => - entryTime e)) l ->
  NoDup (map entryDay l) ->
  StronglySorted (fun a b => entryDay b < entryDay a) l.
Proof.
  induction 1 as [|x xs Hs IH Hx]; intros Hnd.
  - constructor.
  - cbn [map] in Hnd. inversion Hnd as [|? ? Hnotin Hnd']; subst.
    constructor; [now apply IH|].
    rewrite Forall_forall in Hx |- *. intros z Hz.
    specialize (Hx z Hz). unfold keyLe in Hx.
    assert (Hle : entryDay z <= entryDay x).
    { unfold entryDay. apply localDay_mono. lia. }
    assert (entryDay x <> entryDay z).
    { intros Heq. apply Hnotin. rewrite Heq. now apply in_map. }
    lia.
Qed.

Lemma streakLoop_spec (l : list DailyEntry) :
  StronglySorted (fun a b => entryDay b < entryDay a) l ->
  forall i s,
    (forall e, In e l -> entryDay e <= localDay now - i) ->
    exists n,
      0 <= n /\
      streakLoop (setHoursZero now) l i s = s + n /\
      (forall j, 0 <= j < n -> dayActive l (localDay now - i - j) = true) /\
      dayActive l (localDay now - i - n) = false.
Proof.
  induction 1 as [|e l Hs IH He]; intros i s Hbound.
  - exists 0. repeat split; try lia. cbn [streakLoop]. lia.
  - rewrite Forall_forall in He.
    assert (Hrest : forall e', In e' l -> entryDay e' < entryDay e)
      by (intros; now apply He).
    assert (Hhead : entryDay e <= localDay now - i)
      by (apply Hbound; now left).
    cbn [streakLoop]. cbv zeta. rewrite streak_test.
    destruct (entryDay e =? localDay now - i) eqn:E.
    + apply Z.eqb_eq in E. destruct (isActive e) eqn:Ea.
      * destruct (IH (i + 1) (s + 1)) as (n & Hn & Hloop & Hact & Hstop).
        { intros e' He'. specialize (Hrest e' He'). lia. }
        exists (n + 1). split; [lia|]. split; [rewrite Hloop; lia|]. split.
        -- intros j Hj. rewrite dayActive_cons.
           destruct (Z.eq_dec j 0) as [->|Hj0].
           ++ replace (localDay now - i - 0) with (localDay now - i) by lia.
              rewrite <- E, Z.eqb_refl, Ea. reflexivity.
           ++ replace (localDay now - i - j)
                with (localDay now - (i + 1) - (j - 1)) by lia.
              rewrite Hact by lia. apply orb_true_r.
        -- rewrite dayActive_cons.
           replace (localDay now - i - (n + 1))
             with (localDay now - (i + 1) - n) by lia.
           rewrite Hstop.
           assert (Hne : entryDay e <> localDay now - (i + 1) - n) by lia.
           apply Z.eqb_neq in Hne. rewrite Hne. reflexivity.
      * exists 0. repeat split; try lia.
        replace (localDay now - i - 0) with (localDay now - i) by lia.
        rewrite dayActive_cons, Ea, andb_false_r. cbn [orb].
        apply dayActive_none. intros e' He'. specialize (Hrest e' He'). lia.
    + apply Z.eqb_neq in E. exists 0. repeat split; try lia.
      replace (localDay now - i - 0) with (localDay now - i) by lia.
      rewrite dayActive_cons.
      apply Z.eqb_neq in E. rewrite E. cbn [andb orb].
      apply Z.eqb_neq in E.
      apply dayActive_none. intros e' He'. specialize (Hrest e' He'). lia.
Qed.

Lemma dayActive_perm (l1 l2 : list DailyEntry) (d : Z) :
  Permutation l1 l2 -> dayActive l1 d = dayActive l2 d.
Proof. intros H. unfold dayActive. now apply existsb_perm. Qed.

Lemma streak_IsStreak (entries : list DailyEntry) :
  onePerDay entries -> noneAfterToday entries ->
  IsStreak entries (streak (calculateConsistencyAndStreak entries)).
Proof.
  intros Hone Hpast. destruct entries as [|e es].
  - rewrite calculateConsistencyAndStreak_nil. cbn [streak].
    repeat split; try lia.
  - rewrite calculateConsistencyAndStreak_cons. cbn [streak].
    set (entries := e :: es) in *.
    set (recent := Array_sort byDateDescending entries).
    assert (Hperm : Permutation recent entries) by apply Array_sort_perm.
    assert (Hsorted : StronglySorted (fun a b => entryDay b < entryDay a) recent).
    { apply sorted_days_strict.
      - apply (Array_sort_sorted byDateDescending (fun e => - entryTime e)
                 byDateDescending_key).
      - eapply Permutation_NoDup; [|exact Hone].
        apply Permutation_map, Permutation_sym, Hperm. }
    destruct (streakLoop_spec recent Hsorted 0 0) as (n & Hn & Hloop & Hact & Hstop).
    { intros e' He'. apply (Permutation_in _ Hperm), Hpast in He'. lia. }
    rewrite Hloop. replace (0 + n) with n by lia.
    split; [exact Hn|]. split.
    + intros j Hj. rewrite <- (dayActive_perm _ _ _ Hperm).
      replace (localDay now - j) with (localDay now - 0 - j) by lia.
      now apply Hact.
    + rewrite <- (dayActive_perm _ _ _ Hperm).
      replace (localDay now - n) with (localDay now - 0 - n) by lia.
      exact Hstop.
Qed.

Lemma IsStreak_unique (entries : list DailyEntry) (n m : Z) :
  IsStreak entries n -> IsStreak entries m -> n = m.
Proof.
  intros (Hn & Han & Hsn) (Hm & Ham & Hsm).
  destruct (Z.lt_trichotomy n m) as [Hlt|[Heq|Hgt]]; [|exact Heq|].
  - rewrite Ham in Hsn by lia. discriminate.
  - rewrite Han in Hsm by lia. discriminate.
Qed.

(** C3, amended.  When the records hold at most one record per local
    calendar day and none is dated after today, the streak is the number
    of consecutive active days ending today: every day [today - j] with
    [j] below the streak has an active record, day [today - streak] has
    none, and no other number has this property.  In particular the streak
    is 0 when today has no active record, and 3 when today and the two
    days before have one and the third day before has none, whatever older
    records exist. *)
Theorem streak_consecutive_active_days (entries : list DailyEntry) :
  onePerDay entries -> noneAfterToday entries ->
  let s := streak (calculateConsistencyAndStreak entries) in
  let today := localDay now in
  IsStreak entries s /\
  (forall n, IsStreak entries n -> n = s) /\
  (dayActive entries today = false -> s = 0) /\
  (dayActive entries today = true ->
   dayActive entries (today - 1) = true ->
   dayActive entries (today - 2) = true ->
   dayActive entries (today - 3) = false -> s = 3).
Proof.
  intros Hone Hpast s today.
  pose proof (streak_IsStreak entries Hone Hpast) as Hs. fold s in Hs.
  split; [exact Hs|]. split; [|split].
  - intros n Hn. exact (IsStreak_unique entries n s Hn Hs).
  - intros H0. symmetry. apply (IsStreak_unique entries 0 s); [|exact Hs].
    repeat split; try lia.
    replace (localDay now - 0) with today by (unfold today; lia). exact H0.
  - intros H0 H1 H2 H3. symmetry.
    apply (IsStreak_unique entries 3 s); [|exact Hs].
    split; [lia|]. split; [|exact H3].
    intros j Hj.
    assert (Hcases : j = 0 \/ j = 1 \/ j = 2) by lia.
    destruct Hcases as [-> | [-> | ->]]; [|exact H1|exact H2].
    replace (localDay now - 0) with today by (unfold today; lia). exact H0.
Qed.

(** ** Daily engagement: one record, one day *)

Lemma quiz_round_Qeq (q : QuizEvaluation) :
  Math_round ((ratio q * 100) * (1 # 4))%Q = Math_round (25 * ratio q)%Q.
Proof. apply Math_round_Qeq. ring. Qed.

Lemma quiz_bonus_eq (r : Q) : Qgeb (r * 100)%Q 90 = Qgeb r (9 # 10).
Proof.
  unfold Qgeb.
  destruct (Qle_bool (9 # 10) r) eqn:E.
  - apply Qle_bool_iff. apply Qle_bool_iff in E.
    destruct r as [n d]. unfold Qle, Qmult in *. cbn [Qnum Qden] in *.
    rewrite Pos2Z.inj_mul. lia.
  - destruct (Qle_bool 90 (r * 100)) eqn:E'; [|reflexivity].
    apply Qle_bool_iff in E'.
    assert (H : Qle_bool (9 # 10) r = true).
    { apply Qle_bool_iff. destruct r as [n d].
      unfold Qle, Qmult in *. cbn [Qnum Qden] in *.
      rewrite Pos2Z.inj_mul in E'. lia. }
    congruence.
Qed.

(** For a well-formed quiz the points are integer arithmetic on [score]
    and [total]. *)
Lemma specQuizPoints_integers (e : DailyEntry) (q : QuizEvaluation) :
  quizEvaluation e = Some q -> 0 < total q ->
  specQuizPoints e =
  (50 * score q + total q) / (2 * total q)
  + (if 9 * total q <=? 10 * score q then 5 else 0).
Proof.
  intros Hq Ht. unfold specQuizPoints. rewrite Hq. f_equal.
  - rewrite (Math_round_Qeq _ (ZtoQ (25 * score q) / ZtoQ (total q))%Q).
    + rewrite Math_round_div by exact Ht. f_equal. lia.
    + unfold ratio, ZtoQ, Qdiv. rewrite inject_Z_mult.
      change (inject_Z 25) with 25%Q. ring.
  - assert (H : Qgeb (ratio q) (9 # 10) = (9 * total q <=? 10 * score q)).
    { unfold Qgeb, ratio, ZtoQ. destruct (total q) as [|p|p]; try lia.
      rewrite <- Qmake_Qdiv.
      destruct (9 * Z.pos p <=? 10 * score q) eqn:E.
      - apply Z.leb_le in E. apply Qle_bool_iff.
        unfold Qle. cbn [Qnum Qden]. lia.
      - apply Z.leb_gt in E.
        destruct (Qle_bool (9 # 10) (score q # p)) eqn:E'; [|reflexivity].
        apply Qle_bool_iff in E'. unfold Qle in E'. cbn [Qnum Qden] in E'. lia. }
    now rewrite H.
Qed.

Lemma addGoal_fields (e : DailyEntry) (acc : DailyEngagement) :
  addGoal e acc =
  {| day_date := day_date acc;
     engagementScore := engagementScore acc + specGoalPoints e;
     activitiesCompleted :=
       activitiesCompleted acc + (if truthy (goal e) then 1 else 0);
     hasGoal := hasGoal acc || truthy (goal e);
     hasReflection := hasReflection acc;
     hasQuiz := hasQuiz acc |}.
Proof.
  unfold addGoal, specGoalPoints. destruct acc, (goal e) as [[t []]|]; cbn.
  - f_equal; [lia | apply eq_sym, orb_true_r].
  - f_equal; [lia | apply eq_sym, orb_true_r].
  - f_equal; [lia | lia | apply eq_sym, orb_false_r].
Qed.

Lemma addReflection_fields (e : DailyEntry) (acc : DailyEngagement) :
  addReflection e acc =
  {| day_date := day_date acc;
     engagementScore := engagementScore acc + specReflectionPoints e;
     activitiesCompleted :=
       activitiesCompleted acc + (if truthy (reflection e) then 1 else 0);
     hasGoal := hasGoal acc;
     hasReflection := hasReflection acc || truthy (reflection e);
     hasQuiz := hasQuiz acc |}.
Proof.
  unfold addReflection, specReflectionPoints.
  destruct acc, (reflection e) as [r|];
    cbn [day_date engagementScore activitiesCompleted hasGoal hasReflection
         hasQuiz truthy].
  - destruct (4 <=? depth r); f_equal; try lia; apply eq_sym, orb_true_r.
  - f_equal; [lia | lia | apply eq_sym, orb_false_r].
Qed.

Lemma addQuiz_fields (e : DailyEntry) (acc : DailyEngagement) :
  addQuiz e acc =
  {| day_date := day_date acc;
     engagementScore := engagementScore acc + specQuizPoints e;
     activitiesCompleted :=
       activitiesCompleted acc + (if truthy (quizEvaluation e) then 1 else 0);
     hasGoal := hasGoal acc;
     hasReflection := hasReflection acc;
     hasQuiz := hasQuiz acc || truthy (quizEvaluation e) |}.
Proof.
  unfold addQuiz, specQuizPoints. destruct acc, (quizEvaluation e) as [q|].
  - cbv zeta. rewrite quiz_round_Qeq, quiz_bonus_eq.
    cbn [day_date engagementScore activitiesCompleted hasGoal hasReflection
         hasQuiz truthy].
    f_equal; [ring | apply eq_sym, orb_true_r].
  - cbn [day_date engagementScore activitiesCompleted hasGoal hasReflection
         hasQuiz truthy].
    f_equal; [lia | lia | apply eq_sym, orb_false_r].
Qed.

Lemma addEntry_fields (acc : DailyEngagement) (e : DailyEntry) :
  addEntry acc e =
  {| day_date := day_date acc;
     engagementScore := engagementScore acc + specPoints e;
     activitiesCompleted := activitiesCompleted acc + specActivities e;
     hasGoal := hasGoal acc || truthy (goal e);
     hasReflection := hasReflection acc || truthy (reflection e);
     hasQuiz := hasQuiz acc || truthy (quizEvaluation e) |}.
Proof.
  unfold addEntry. rewrite addQuiz_fields, addReflection_fields, addGoal_fields.
  cbn [day_date engagementScore activitiesCompleted hasGoal hasReflection hasQuiz].
  unfold specPoints, specActivities. f_equal; lia.
Qed.

(** The [forEach] loop sums the points of the records it visits. *)
Lemma forEach_fields (l : list DailyEntry) (acc : DailyEngagement) :
  fold_left addEntry l acc =
  {| day_date := day_date acc;
     engagementScore := engagementScore acc + sumOver specPoints l;
     activitiesCompleted := activitiesCompleted acc + sumOver specActivities l;
     hasGoal := hasGoal acc || existsb (fun e => truthy (goal e)) l;
     hasReflection := hasReflection acc || existsb (fun e => truthy (reflection e)) l;
     hasQuiz := hasQuiz acc || existsb (fun e => truthy (quizEvaluation e)) l |}.
Proof.
  revert acc. induction l as [|e l IH]; intros acc.
  - destruct acc. cbn. f_equal; try lia; apply eq_sym, orb_false_r.
  - cbn [fold_left]. rewrite IH, addEntry_fields, !sumOver_cons.
    cbn [day_date engagementScore activitiesCompleted hasGoal hasReflection
         hasQuiz existsb].
    f_equal; try ring; apply eq_sym, orb_assoc.
Qed.

Lemma day_test (e : DailyEntry) (d : Z) :
  (setHoursZero (entryTime e) =? dayStart d) = (entryDay e =? d).
Proof.
  rewrite setHoursZero_dayStart. fold (entryDay e).
  destruct (entryDay e =? d) eqn:E.
  - apply Z.eqb_eq in E. rewrite E. apply Z.eqb_refl.
  - apply Z.eqb_neq in E. apply Z.eqb_neq. intros H.
    apply E. now apply dayStart_inj.
Qed.

(** The table entry the code computes for a local day is the one of the
    specification. *)
Lemma engagementOfDay_tableEntry (entries : list DailyEntry) (d : Z) :
  engagementOfDay entries (dayStart d) = tableEntry entries d.
Proof.
  unfold engagementOfDay, tableEntry, recordsOfDay. cbv zeta.
  rewrite (filter_ext_in_eq _ (fun e => entryDay e =? d))
    by (intros; apply day_test).
  rewrite forEach_fields.
  cbn [day_date engagementScore activitiesCompleted hasGoal hasReflection
       hasQuiz orb].
  f_equal; lia.
Qed.

Lemma last30Days_days :
  last30Days = map (fun k => dayStart (localDay now - 29 + Z.of_nat k)) (seq 0 30).
Proof.
  unfold last30Days, countdown29.
  assert (H : forall i, setHoursZero (setDateBack now i) = dayStart (localDay now - i)).
  { intros i. now rewrite setHoursZero_dayStart, localDay_setDateBack. }
  cbn [seq rev app map]. rewrite !H. cbn [Z.of_nat Pos.of_succ_nat Pos.succ].
  repeat (f_equal; [f_equal; lia|]). do 2 f_equal. lia.
Qed.

Lemma calculateDailyEngagement_nil :
  calculateDailyEngagement [] =
  {| dailyEngagement := []; averageDaily := 0%Q; activeDays := 0;
     streakDays := 0; weeklyTrend := 0%Q; monthlyTrend := 0%Q |}.
Proof. reflexivity. Qed.

(** For a non-empty record list the table has one entry per local day from
    [today - 29] to [today], oldest first. *)
Lemma dailyEngagement_tableEntry (entries : list DailyEntry) :
  entries <> [] ->
  dailyEngagement (calculateDailyEngagement entries) =
  map (fun k => tableEntry entries (localDay now - 29 + Z.of_nat k)) (seq 0 30).
Proof.
  intros Hne. unfold calculateDailyEngagement.
  destruct (len entries =? 0) eqn:E.
  - apply len_zero_iff in E. contradiction.
  - cbn [dailyEngagement]. rewrite last30Days_days, map_map.
    apply map_ext. intros k. apply engagementOfDay_tableEntry.
Qed.

Lemma nth_error_map_seq {B : Type} (f : nat -> B) (n k : nat) :
  (k < n)%nat -> nth_error (map f (seq 0 n)) k = Some (f k).
Proof.
  intros Hk. rewrite nth_error_map.
  rewrite (nth_error_nth' _ 0%nat) by (rewrite length_seq; exact Hk).
  rewrite seq_nth by exact Hk. reflexivity.
Qed.

(** C1, amended.  For the empty record list the computation returns an
    empty table and the five summary figures 0.  For every non-empty
    record list the table has exactly 30 entries; entry [k] is computed
    from the records of local calendar day [today - 29 + k], so the days
    ascend and end today, and the date labels of the entries are
    consecutive. *)
Theorem perDay_thirty_days (entries : list DailyEntry) :
  let m := calculateDailyEngagement entries in
  (entries = [] ->
   dailyEngagement m = [] /\ averageDaily m = 0%Q /\ activeDays m = 0 /\
   streakDays m = 0 /\ weeklyTrend m = 0%Q /\ monthlyTrend m = 0%Q) /\
  (entries <> [] ->
   List.length (dailyEngagement m) = 30%nat /\
   exists first,
     forall k, (k < 30)%nat ->
       exists day,
         nth_error (dailyEngagement m) k = Some day /\
         day_date day = first + Z.of_nat k /\
         let rs := recordsOfDay entries (localDay now - 29 + Z.of_nat k) in
         engagementScore day = Z.min 100 (sumOver specPoints rs) /\
         activitiesCompleted day = sumOver specActivities rs /\
         hasGoal day = existsb (fun e => truthy (goal e)) rs /\
         hasReflection day = existsb (fun e => truthy (reflection e)) rs /\
         hasQuiz day = existsb (fun e => truthy (quizEvaluation e)) rs).
Proof.
  intros m. split.
  - intros ->. subst m. rewrite calculateDailyEngagement_nil.
    repeat split.
  - intros Hne. subst m. rewrite (dailyEngagement_tableEntry entries Hne). split.
    + now rewrite length_map, length_seq.
    + exists (toISODate (dayStart (localDay now - 29))).
      intros k Hk.
      exists (tableEntry entries (localDay now - 29 + Z.of_nat k)).
      split; [|split; [|repeat split]].
      * apply (nth_error_map_seq
                 (fun k => tableEntry entries (localDay now - 29 + Z.of_nat k))).
        exact Hk.
      * cbn [tableEntry day_date]. rewrite !toISODate_dayStart. lia.
Qed.


(** ** Order of the records *)

Lemma engagementOfDay_perm (l1 l2 : list DailyEntry) (day : Z) :
  Permutation l1 l2 -> engagementOfDay l1 day = engagementOfDay l2 day.
Proof.
  intros HP. unfold engagementOfDay. cbv zeta. rewrite !forEach_fields.
  set (f := fun entry => setHoursZero (entryTime entry) =? day).
  pose proof (filter_perm f _ _ HP) as HF.
  cbn [day_date engagementScore activitiesCompleted hasGoal hasReflection hasQuiz].
  rewrite (sumOver_perm specPoints _ _ HF), (sumOver_perm specActivities _ _ HF).
  rewrite (existsb_perm (fun e => truthy (goal e)) _ _ HF).
  rewrite (existsb_perm (fun e => truthy (reflection e)) _ _ HF).
  rewrite (existsb_perm (fun e => truthy (quizEvaluation e)) _ _ HF).
  reflexivity.
Qed.

Lemma calculateDailyEngagement_ext (l1 l2 : list DailyEntry) :
  len l1 = len l2 ->
  map (engagementOfDay l1) last30Days = map (engagementOfDay l2) last30Days ->
  calculateDailyEngagement l1 = calculateDailyEngagement l2.
Proof.
  intros Hlen Hmap. unfold calculateDailyEngagement.
  rewrite Hlen, Hmap. reflexivity.
Qed.

Lemma calculateConsistencyAndStreak_perm (l1 l2 : list DailyEntry) :
  Permutation l1 l2 -> NoDup (map entryTime l1) ->
  calculateConsistencyAndStreak l1 = calculateConsistencyAndStreak l2.
Proof.
  intros HP Hnd. unfold calculateConsistencyAndStreak.
  rewrite (len_perm _ _ HP).
  rewrite (Array_sort_perm_eq byDateAscending entryTime byDateAscending_key
             l1 l2 HP Hnd).
  rewrite (Array_sort_perm_eq byDateDescending (fun e => - entryTime e)
             byDateDescending_key l1 l2 HP).
  - reflexivity.
  - rewrite <- (map_map entryTime Z.opp).
    apply NoDup_map_NoDup_ForallPairs; [|exact Hnd].
    intros x y _ _ Hxy. lia.
Qed.

(** C8, amended.  With the current date fixed, the engagement metrics of
    two permutations of one record list are identical, and so are the
    consistency score and the streak whenever the records have pairwise
    distinct date stamps.  Each computation is a function of the record
    list and the date, so a second run on the same list returns the same
    value. *)
Theorem permutation_invariance (l1 l2 : list DailyEntry) :
  Permutation l1 l2 ->
  calculateDailyEngagement l1 = calculateDailyEngagement l2 /\
  (NoDup (map entryTime l1) ->
   calculateConsistencyAndStreak l1 = calculateConsistencyAndStreak l2).
Proof.
  intros HP. split.
  - apply calculateDailyEngagement_ext.
    + now apply len_perm.
    + apply map_ext. intros day. now apply engagementOfDay_perm.
  - intros Hnd. now apply calculateConsistencyAndStreak_perm.
Qed.

(** ** A day whose only activity is a quiz scored 0 *)

Lemma sumOver_zero {A : Type} (f : A -> Z) (l : list A) :
  (forall x, In x l -> f x = 0) -> sumOver f l = 0.
Proof.
  induction l as [|x l IH]; intros H; [reflexivity|].
  rewrite sumOver_cons, (H x), IH; [reflexivity| |now left].
  intros y Hy. apply H. now right.
Qed.

Lemma len_app {A : Type} (l1 l2 : list A) : len (l1 ++ l2) = len l1 + len l2.
Proof. unfold len. rewrite length_app. lia. Qed.

Lemma nth_error_decompose {A : Type} (l : list A) (p : nat) (x : A) :
  nth_error l p = Some x -> l = firstn p l ++ x :: skipn (S p) l.
Proof.
  revert p. induction l as [|y l IH]; intros [|p] H; try discriminate.
  - cbn in H. injection H as ->. reflexivity.
  - cbn in H. cbn [firstn skipn app]. f_equal. now apply IH.
Qed.

Lemma engagementStreak_stop (a b : list DailyEngagement) (d : DailyEngagement) :
  engagementScore d = 0 -> engagementStreak (a ++ d :: b) = engagementStreak a.
Proof.
  intros Hd. induction a as [|x a IH]; cbn [app engagementStreak].
  - rewrite Hd. reflexivity.
  - destruct (0 <? engagementScore x); [now rewrite IH | reflexivity].
Qed.

Lemma engagementStreak_le_len (a : list DailyEngagement) :
  0 <= engagementStreak a <= len a.
Proof.
  induction a as [|x a IH]; cbn [engagementStreak].
  - unfold len. cbn. lia.
  - rewrite len_cons. destruct (0 <? engagementScore x); lia.
Qed.

Lemma ratio_zero (q : QuizEvaluation) : score q = 0 -> (ratio q == 0)%Q.
Proof.
  intros H. unfold ratio, ZtoQ, Qdiv. rewrite H.
  change (inject_Z 0) with 0%Q. ring.
Qed.

Lemma specPoints_zero_quiz (e : DailyEntry) (q : QuizEvaluation) :
  goal e = None -> reflection e = None ->
  quizEvaluation e = Some q -> score q = 0 -> specPoints e = 0.
Proof.
  intros Hg Hr Hq Hs.
  unfold specPoints, specGoalPoints, specReflectionPoints, specQuizPoints.
  rewrite Hg, Hr, Hq.
  rewrite (Math_round_Qeq (25 * ratio q) 0)
    by (rewrite (ratio_zero q Hs); ring).
  unfold Qgeb. rewrite (ratio_zero q Hs). reflexivity.
Qed.

Lemma summary_of_table (entries : list DailyEntry) :
  entries <> [] ->
  let m := calculateDailyEngagement entries in
  activeDays m = len (filter (fun day => 0 <? engagementScore day) (dailyEngagement m))
  /\ streakDays m = engagementStreak (rev (dailyEngagement m)).
Proof.
  intros Hne. cbv zeta. unfold calculateDailyEngagement.
  destruct (len entries =? 0) eqn:E.
  - apply len_zero_iff in E. contradiction.
  - split; reflexivity.
Qed.

(** C9.  When the records of one of the 30 trailing days are all quiz
    results with score 0 (and a positive total), without goal and without
    reflection, that day's entry has engagement score 0 and [hasQuiz] set;
    the day is not counted by [activeDays], and [streakDays] is the streak
    of the days after it only, so at most their number; yet each of those
    records is an active record for the consistency score and the
    streak. *)
Theorem zero_score_quiz_day (entries : list DailyEntry) (j : nat) :
  (j < 30)%nat ->
  let d := localDay now - Z.of_nat j in
  recordsOfDay entries d <> [] ->
  (forall e, In e (recordsOfDay entries d) ->
     goal e = None /\ reflection e = None /\
     exists q, quizEvaluation e = Some q /\ score q = 0 /\ 0 < total q) ->
  let m := calculateDailyEngagement entries in
  let perDay := dailyEngagement m in
  let positive := fun day => 0 <? engagementScore day in
  exists day,
    nth_error perDay (29 - j) = Some day /\
    engagementScore day = 0 /\
    hasQuiz day = true /\
    activeDays m =
      len (filter positive (firstn (29 - j) perDay))
      + len (filter positive (skipn (30 - j) perDay)) /\
    streakDays m = engagementStreak (rev (skipn (30 - j) perDay)) /\
    streakDays m <= Z.of_nat j /\
    (forall e, In e (recordsOfDay entries d) -> isActive e = true).
Proof.
  intros Hj d Hsome Hall m perDay positive.
  assert (Hne : entries <> []).
  { intros ->. apply Hsome. reflexivity. }
  assert (Htable : perDay =
    map (fun k => tableEntry entries (localDay now - 29 + Z.of_nat k)) (seq 0 30))
    by (apply dailyEngagement_tableEntry; exact Hne).
  assert (Hlen : List.length perDay = 30%nat)
    by (rewrite Htable, length_map, length_seq; reflexivity).
  assert (Hnth : nth_error perDay (29 - j) = Some (tableEntry entries d)).
  { rewrite Htable.
    rewrite (nth_error_map_seq
               (fun k => tableEntry entries (localDay now - 29 + Z.of_nat k)))
      by lia.
    do 2 f_equal. unfold d. lia. }
  assert (Hscore : engagementScore (tableEntry entries d) = 0).
  { cbn [tableEntry engagementScore]. rewrite sumOver_zero; [reflexivity|].
    intros e He. destruct (Hall e He) as (Hg & Hr & q & Hq & Hs & _).
    exact (specPoints_zero_quiz e q Hg Hr Hq Hs). }
  destruct (summary_of_table entries Hne) as [Hactive Hstreak].
  fold m in Hactive, Hstreak. fold perDay in Hactive, Hstreak.
  pose proof (nth_error_decompose perDay (29 - j) _ Hnth) as Hsplit.
  replace (S (29 - j)) with (30 - j)%nat in Hsplit by lia.
  exists (tableEntry entries d).
  split; [exact Hnth|]. split; [exact Hscore|]. split; [|split; [|split; [|split]]].
  - cbn [tableEntry hasQuiz].
    destruct (recordsOfDay entries d) as [|e rs] eqn:Ers; [contradiction|].
    destruct (Hall e (or_introl eq_refl)) as (_ & _ & q & Hq & _).
    cbn [existsb]. rewrite Hq. reflexivity.
  - rewrite Hactive. rewrite Hsplit at 1.
    rewrite filter_app, len_app. cbn [filter].
    unfold positive at 2. rewrite Hscore. reflexivity.
  - rewrite Hstreak. rewrite Hsplit at 1.
    rewrite rev_app_distr. cbn [rev]. rewrite <- app_assoc. cbn [app].
    now apply engagementStreak_stop.
  - rewrite Hstreak. rewrite Hsplit at 1.
    rewrite rev_app_distr. cbn [rev]. rewrite <- app_assoc. cbn [app].
    rewrite engagementStreak_stop by exact Hscore.
    pose proof (engagementStreak_le_len (rev (skipn (30 - j) perDay))) as Hle.
    unfold len in Hle. rewrite length_rev, length_skipn, Hlen in Hle. lia.
  - intros e He. destruct (Hall e He) as (_ & _ & q & Hq & _).
    unfold isActive. rewrite Hq. cbn [truthy]. apply orb_true_r.
Qed.

(** ** The 30-day table and its summary figures *)

Lemma nth_error_table (entries : list DailyEntry) (k : nat) (day : DailyEngagement) :
  nth_error (dailyEngagement (calculateDailyEngagement entries)) k = Some day ->
  (k < 30)%nat /\ entries <> [] /\
  day = tableEntry entries (localDay now - 29 + Z.of_nat k).
Proof.
  intros Hnth. destruct entries as [|e es].
  - rewrite calculateDailyEngagement_nil in Hnth. cbn [dailyEngagement] in Hnth.
    destruct k; discriminate Hnth.
  - assert (Hne : e :: es <> []) by discriminate.
    rewrite (dailyEngagement_tableEntry _ Hne) in Hnth.
    assert (Hk : (k < 30)%nat).
    { assert (Hlt : (k < List.length
        (map (fun k => tableEntry (e :: es) (localDay now - 29 + Z.of_nat k))
             (seq 0 30)))%nat)
        by (apply nth_error_Some; rewrite Hnth; discriminate).
      now rewrite length_map, length_seq in Hlt. }
    rewrite (nth_error_map_seq
               (fun k => tableEntry (e :: es) (localDay now - 29 + Z.of_nat k)))
      in Hnth by exact Hk.
    injection Hnth as <-. repeat split; assumption.
Qed.

Lemma In_table (entries : list DailyEntry) (day : DailyEngagement) :
  In day (dailyEngagement (calculateDailyEngagement entries)) ->
  exists k, (k < 30)%nat /\
    day = tableEntry entries (localDay now - 29 + Z.of_nat k).
Proof.
  intros Hin. apply In_nth_error in Hin. destruct Hin as [k Hk].
  exists k. apply nth_error_table in Hk. tauto.
Qed.

Lemma recordsOfDay_In (entries : list DailyEntry) (d : Z) (e : DailyEntry) :
  In e (recordsOfDay entries d) <-> In e entries /\ entryDay e = d.
Proof.
  unfold recordsOfDay. rewrite filter_In, Z.eqb_eq. reflexivity.
Qed.

(** The points of a well-formed record, part by part. *)
Lemma specPoints_ranges (e : DailyEntry) :
  wfEntry e ->
  (goal e = None -> specGoalPoints e = 0) /\
  (goal e <> None -> 30 <= specGoalPoints e <= 40) /\
  (reflection e = None -> specReflectionPoints e = 0) /\
  (reflection e <> None -> 10 <= specReflectionPoints e <= 55) /\
  (quizEvaluation e = None -> specQuizPoints e = 0) /\
  0 <= specQuizPoints e <= 30 /\
  (forall q, quizEvaluation e = Some q ->
     (specQuizPoints e = 0 <-> 50 * score q < total q)).
Proof.
  intros [Hr Hq].
  split; [intros H; unfold specGoalPoints; now rewrite H|].
  split.
  { unfold specGoalPoints. destruct (goal e) as [[t []]|]; cbn; intros H;
      try lia. now contradiction H. }
  split; [intros H; unfold specReflectionPoints; now rewrite H|].
  split.
  { unfold specReflectionPoints. destruct (reflection e) as [r|]; intros H.
    - specialize (Hr r eq_refl). destruct (4 <=? depth r); lia.
    - now contradiction H. }
  split; [intros H; unfold specQuizPoints; now rewrite H|].
  destruct (quizEvaluation e) as [q|] eqn:E.
  - destruct (Hq q eq_refl) as [Hs Ht].
    rewrite (specQuizPoints_integers e q E Ht).
    assert (Hdiv : 0 <= (50 * score q + total q) / (2 * total q) <= 25).
    { split; [apply Z.div_pos; lia|].
      enough ((50 * score q + total q) / (2 * total q) < 26) by lia.
      apply Z.div_lt_upper_bound; lia. }
    split.
    + destruct (9 * total q <=? 10 * score q); lia.
    + intros q' Hq'. injection Hq' as <-.
      destruct (9 * total q <=? 10 * score q) eqn:Eb.
      * apply Z.leb_le in Eb. split; lia.
      * rewrite Z.add_0_r. split.
        -- intros H0.
           destruct (Z.lt_ge_cases (50 * score q) (total q)) as [Hlt|Hge];
             [exact Hlt|].
           assert (1 <= (50 * score q + total q) / (2 * total q))
             by (apply Z.div_le_lower_bound; lia).
           lia.
        -- intros Hlt. apply Z.div_small. lia.
  - unfold specQuizPoints. rewrite E. split; [lia|]. intros q Hq'. discriminate.
Qed.

Lemma specPoints_nonneg (e : DailyEntry) : wfEntry e -> 0 <= specPoints e.
Proof.
  intros Hwf.
  destruct (specPoints_ranges e Hwf) as (Hg0 & Hg & Hr0 & Hr & _ & Hq & _).
  unfold specPoints.
  assert (0 <= specGoalPoints e).
  { destruct (goal e) eqn:E; [|rewrite Hg0; [lia|reflexivity]].
    assert (30 <= specGoalPoints e <= 40) by (apply Hg; discriminate). lia. }
  assert (0 <= specReflectionPoints e).
  { destruct (reflection e) eqn:E; [|rewrite Hr0; [lia|reflexivity]].
    assert (10 <= specReflectionPoints e <= 55) by (apply Hr; discriminate). lia. }
  lia.
Qed.

Lemma sumOver_nonneg {A : Type} (f : A -> Z) (l : list A) :
  (forall x, In x l -> 0 <= f x) -> 0 <= sumOver f l.
Proof.
  induction l as [|x l IH]; intros H; [cbn; lia|].
  rewrite sumOver_cons.
  assert (0 <= f x) by (apply H; now left).
  assert (0 <= sumOver f l) by (apply IH; intros; apply H; now right).
  lia.
Qed.

Lemma sumOver_zero_iff {A : Type} (f : A -> Z) (l : list A) :
  (forall x, In x l -> 0 <= f x) ->
  (sumOver f l = 0 <-> forall x, In x l -> f x = 0).
Proof.
  induction l as [|x l IH]; intros H.
  - split; [intros _ y []|reflexivity].
  - rewrite sumOver_cons.
    assert (Hx : 0 <= f x) by (apply H; now left).
    assert (Hl : forall y, In y l -> 0 <= f y) by (intros; apply H; now right).
    pose proof (sumOver_nonneg f l Hl) as Hs.
    specialize (IH Hl). split.
    + intros H0 y [<-|Hy]; [lia|]. apply IH; [lia|exact Hy].
    + intros Hall. rewrite (Hall x) by now left.
      assert (sumOver f l = 0) by (apply IH; intros; apply Hall; now right).
      lia.
Qed.

Lemma table_score_bounds (entries : list DailyEntry) (day : DailyEngagement) :
  (forall e, In e entries -> wfEntry e) ->
  In day (dailyEngagement (calculateDailyEngagement entries)) ->
  0 <= engagementScore day <= 100.
Proof.
  intros Hwf Hin. apply In_table in Hin. destruct Hin as (k & _ & ->).
  cbn [tableEntry engagementScore].
  assert (Hnn : forall e,
    In e (recordsOfDay entries (localDay now - 29 + Z.of_nat k)) ->
    0 <= specPoints e).
  { intros e He. apply recordsOfDay_In in He. apply specPoints_nonneg, Hwf, He. }
  pose proof (sumOver_nonneg specPoints _ Hnn). lia.
Qed.

(** X1.  For well-formed records every score of the table lies between 0
    and 100, and a day scores 0 exactly when none of its records has a
    goal or a reflection and each of its quizzes has a score below one
    fiftieth of its total. *)
Theorem table_score_range (entries : list DailyEntry) (k : nat)
  (day : DailyEngagement) :
  (forall e, In e entries -> wfEntry e) ->
  nth_error (dailyEngagement (calculateDailyEngagement entries)) k = Some day ->
  0 <= engagementScore day <= 100 /\
  (engagementScore day = 0 <->
   forall e, In e entries -> entryDay e = localDay now - 29 + Z.of_nat k ->
     goal e = None /\ reflection e = None /\
     forall q, quizEvaluation e = Some q -> 50 * score q < total q).
Proof.
  intros Hwf Hnth. apply nth_error_table in Hnth.
  destruct Hnth as (_ & _ & ->).
  set (d := localDay now - 29 + Z.of_nat k).
  cbn [tableEntry engagementScore].
  assert (Hnn : forall e, In e (recordsOfDay entries d) -> 0 <= specPoints e).
  { intros e He. apply recordsOfDay_In in He. apply specPoints_nonneg, Hwf, He. }
  pose proof (sumOver_nonneg specPoints _ Hnn) as Hsum.
  split; [lia|].
  assert (Hmin : Z.min 100 (sumOver specPoints (recordsOfDay entries d)) = 0
                 <-> sumOver specPoints (recordsOfDay entries d) = 0) by lia.
  rewrite Hmin, (sumOver_zero_iff specPoints _ Hnn). split.
  - intros H0 e He Hd.
    assert (Hin : In e (recordsOfDay entries d)) by (apply recordsOfDay_In; now split).
    specialize (H0 e Hin).
    destruct (specPoints_ranges e (Hwf e He)) as (_ & Hg & _ & Hr & _ & Hq & Hq0).
    unfold specPoints in H0.
    assert (Hgn : goal e = None).
    { destruct (goal e) eqn:E; [|reflexivity].
      assert (30 <= specGoalPoints e <= 40) by (apply Hg; discriminate).
      destruct (reflection e) eqn:E2.
      - assert (10 <= specReflectionPoints e <= 55) by (apply Hr; discriminate). lia.
      - unfold specReflectionPoints in H0. rewrite E2 in H0. lia. }
    assert (Hrn : reflection e = None).
    { destruct (reflection e) eqn:E; [|reflexivity].
      assert (10 <= specReflectionPoints e <= 55) by (apply Hr; discriminate).
      unfold specGoalPoints in H0. rewrite Hgn in H0. lia. }
    split; [exact Hgn|]. split; [exact Hrn|].
    intros q Eq. apply (Hq0 q Eq).
    unfold specGoalPoints, specReflectionPoints in H0.
    rewrite Hgn, Hrn in H0. lia.
  - intros Hall e He. apply recordsOfDay_In in He. destruct He as [He Hd].
    destruct (Hall e He Hd) as (Hg & Hr & Hq).
    destruct (specPoints_ranges e (Hwf e He)) as (Hg0 & _ & Hr0 & _ & Hq0 & _ & Hqz).
    unfold specPoints. rewrite (Hg0 Hg), (Hr0 Hr).
    destruct (quizEvaluation e) as [q|] eqn:E.
    + assert (specQuizPoints e = 0) by (apply (Hqz q eq_refl), Hq; reflexivity). lia.
    + rewrite Hq0 by reflexivity. lia.
Qed.

Lemma engagementStreak_le_active (l : list DailyEngagement) :
  engagementStreak l <= len (filter (fun day => 0 <? engagementScore day) l).
Proof.
  induction l as [|x l IH]; cbn [engagementStreak filter].
  - unfold len. cbn. lia.
  - destruct (0 <? engagementScore x); [rewrite len_cons; lia|].
    apply len_nonneg.
Qed.

Lemma len_filter_rev {A : Type} (f : A -> bool) (l : list A) :
  len (filter f (rev l)) = len (filter f l).
Proof.
  apply len_perm, filter_perm, Permutation_sym, Permutation_rev.
Qed.

Lemma len_table (entries : list DailyEntry) :
  len (dailyEngagement (calculateDailyEngagement entries)) = 0 \/
  len (dailyEngagement (calculateDailyEngagement entries)) = 30.
Proof.
  destruct entries as [|e es].
  - left. reflexivity.
  - right. rewrite dailyEngagement_tableEntry by discriminate.
    unfold len. now rewrite length_map, length_seq.
Qed.

(** X2.  For every record list the engagement streak is at most the
    number of active days, which is at most 30, and neither is negative. *)
Theorem streakDays_activeDays_bounds (entries : list DailyEntry) :
  let m := calculateDailyEngagement entries in
  0 <= streakDays m <= activeDays m /\ activeDays m <= 30.
Proof.
  cbv zeta. destruct entries as [|e es].
  - rewrite calculateDailyEngagement_nil. cbn. lia.
  - assert (Hne : e :: es <> []) by discriminate.
    destruct (summary_of_table _ Hne) as [Ha Hs]. rewrite Ha, Hs.
    set (table := dailyEngagement (calculateDailyEngagement (e :: es))).
    pose proof (engagementStreak_le_len (rev table)) as H1.
    pose proof (engagementStreak_le_active (rev table)) as H2.
    rewrite len_filter_rev in H2.
    pose proof (len_filter_le (fun day => 0 <? engagementScore day) table) as H3.
    destruct (len_table (e :: es)) as [H4|H4]; fold table in H4; lia.
Qed.

(** The summary figures as functions of the table. *)
Lemma summary_unfold (entries : list DailyEntry) :
  entries <> [] ->
  let m := calculateDailyEngagement entries in
  let table := dailyEngagement m in
  averageDaily m = round1 (ZtoQ (reduceZ engagementScore table) / 30)%Q /\
  weeklyTrend m =
    round1 (trend (averageOf (slice_last 7 table) 7)
                  (averageOf (slice_last_range 14 7 table) 7)) /\
  monthlyTrend m =
    round1 (trend (averageOf (slice_last 14 table) 14)
                  (averageOf (slice_last_range 28 14 table) 14)).
Proof.
  intros Hne. cbv zeta. unfold calculateDailyEngagement.
  destruct (len entries =? 0) eqn:E.
  - apply len_zero_iff in E. contradiction.
  - repeat split.
Qed.

Lemma In_firstn_list {A : Type} (n : nat) (l : list A) (x : A) :
  In x (firstn n l) -> In x l.
Proof.
  intros H. rewrite <- (firstn_skipn n l). apply in_or_app. now left.
Qed.

Lemma In_skipn {A : Type} (n : nat) (l : list A) (x : A) :
  In x (skipn n l) -> In x l.
Proof.
  intros H. rewrite <- (firstn_skipn n l). apply in_or_app. now right.
Qed.

Lemma In_slice_last {A : Type} (k : nat) (l : list A) (x : A) :
  In x (slice_last k l) -> In x l.
Proof. apply In_skipn. Qed.

Lemma In_slice_last_range {A : Type} (s e : nat) (l : list A) (x : A) :
  In x (slice_last_range s e l) -> In x l.
Proof.
  unfold slice_last_range. intros H.
  eapply In_skipn, In_firstn_list. exact H.
Qed.

Lemma round1_zero (x : Q) : (x == 0)%Q -> (round1 x == 0)%Q.
Proof.
  intros H. unfold round1.
  rewrite (Math_round_Qeq (x * 10) 0) by (rewrite H; ring).
  reflexivity.
Qed.

Lemma averageOf_zero (days : list DailyEngagement) (n : Z) :
  (forall day, In day days -> engagementScore day = 0) ->
  (averageOf days n == 0)%Q.
Proof.
  intros H. unfold averageOf.
  rewrite reduceZ_sumOver, (sumOver_zero engagementScore days H).
  unfold ZtoQ, Qdiv. change (inject_Z 0) with 0%Q. ring.
Qed.

Lemma trend_zero_previous (recent previous : Q) :
  (previous == 0)%Q -> trend recent previous = 0%Q.
Proof.
  intros H. unfold trend.
  destruct (Qltb 0 previous) eqn:E; [|reflexivity].
  unfold Qltb in E. apply negb_true_iff in E.
  assert (Hle : Qle_bool previous 0 = true)
    by (apply Qle_bool_iff; rewrite H; apply Qle_refl).
  congruence.
Qed.

(** X3.  The guard against a division by zero: when the seven days before
    the last seven all score 0, the weekly trend is 0 whatever the last
    seven days score, and likewise the monthly trend for the fourteen days
    before the last fourteen. *)
Theorem trend_guard (entries : list DailyEntry) :
  let m := calculateDailyEngagement entries in
  let table := dailyEngagement m in
  ((forall day, In day (slice_last_range 14 7 table) -> engagementScore day = 0) ->
   (weeklyTrend m == 0)%Q) /\
  ((forall day, In day (slice_last_range 28 14 table) -> engagementScore day = 0) ->
   (monthlyTrend m == 0)%Q).
Proof.
  cbv zeta. destruct entries as [|e es].
  - rewrite calculateDailyEngagement_nil. cbn [weeklyTrend monthlyTrend].
    split; intros _; reflexivity.
  - assert (Hne : e :: es <> []) by discriminate.
    destruct (summary_unfold _ Hne) as (_ & Hw & Hm). cbv zeta in Hw, Hm.
    rewrite Hw, Hm. split; intros H; apply round1_zero;
      rewrite trend_zero_previous; try reflexivity;
      now apply averageOf_zero.
Qed.

(** X4.  A record list with no record on any of the 30 trailing days (all
    records older, or dated after today) still gets the 30-entry table,
    every entry scoring 0 without an activity, and all five summary
    figures are 0. *)
Theorem quiet_window (entries : list DailyEntry) :
  entries <> [] ->
  (forall e, In e entries ->
     entryDay e < localDay now - 29 \/ localDay now < entryDay e) ->
  let m := calculateDailyEngagement entries in
  List.length (dailyEngagement m) = 30%nat /\
  (forall day, In day (dailyEngagement m) ->
     engagementScore day = 0 /\ activitiesCompleted day = 0 /\
     hasGoal day = false /\ hasReflection day = false /\ hasQuiz day = false) /\
  (averageDaily m == 0)%Q /\ activeDays m = 0 /\ streakDays m = 0 /\
  (weeklyTrend m == 0)%Q /\ (monthlyTrend m == 0)%Q.
Proof.
  intros Hne Hout. cbv zeta.
  set (m := calculateDailyEngagement entries).
  set (table := dailyEngagement m).
  assert (Hlen : List.length table = 30%nat).
  { unfold table, m. rewrite dailyEngagement_tableEntry by exact Hne.
    now rewrite length_map, length_seq. }
  assert (Hday : forall day, In day table ->
     engagementScore day = 0 /\ activitiesCompleted day = 0 /\
     hasGoal day = false /\ hasReflection day = false /\ hasQuiz day = false).
  { intros day Hin. apply In_table in Hin. destruct Hin as (k & Hk & ->).
    assert (Hrs : recordsOfDay entries (localDay now - 29 + Z.of_nat k) = []).
    { destruct (recordsOfDay entries (localDay now - 29 + Z.of_nat k))
        as [|e rs] eqn:E; [reflexivity|].
      assert (He : In e (recordsOfDay entries (localDay now - 29 + Z.of_nat k)))
        by (rewrite E; now left).
      apply recordsOfDay_In in He. destruct He as [He Hd].
      specialize (Hout e He). lia. }
    cbn [tableEntry engagementScore activitiesCompleted hasGoal hasReflection hasQuiz].
    rewrite Hrs. repeat split. }
  assert (Hscore : forall day, In day table -> engagementScore day = 0)
    by (intros day Hin; apply (Hday day Hin)).
  destruct (summary_of_table entries Hne) as [Ha Hs].
  destruct (summary_unfold entries Hne) as (Havg & _). cbv zeta in Havg.
  assert (Hw : (forall day, In day (slice_last_range 14 7 table) ->
                  engagementScore day = 0) -> (weeklyTrend m == 0)%Q).
  { intros H. destruct (summary_unfold entries Hne) as (_ & Hw & _).
    cbv zeta in Hw. fold m in Hw. fold table in Hw. rewrite Hw.
    apply round1_zero. rewrite trend_zero_previous; [reflexivity|].
    now apply averageOf_zero. }
  assert (Hm : (forall day, In day (slice_last_range 28 14 table) ->
                  engagementScore day = 0) -> (monthlyTrend m == 0)%Q).
  { intros H. destruct (summary_unfold entries Hne) as (_ & _ & Hm).
    cbv zeta in Hm. fold m in Hm. fold table in Hm. rewrite Hm.
    apply round1_zero. rewrite trend_zero_previous; [reflexivity|].
    now apply averageOf_zero. }
  fold m in Ha, Hs, Havg. fold table in Ha, Hs, Havg.
  split; [exact Hlen|]. split; [exact Hday|]. split; [|split; [|split; [|split]]].
  - rewrite Havg. apply round1_zero.
    rewrite reduceZ_sumOver, (sumOver_zero engagementScore table Hscore).
    reflexivity.
  - rewrite Ha.
    assert (Hf : filter (fun day => 0 <? engagementScore day) table = []).
    { clear -Hscore. induction table as [|x l IH]; [reflexivity|].
      cbn [filter]. rewrite (Hscore x) by now left. cbn.
      apply IH. intros; apply Hscore; now right. }
    now rewrite Hf.
  - rewrite Hs.
    pose proof (engagementStreak_le_len (rev table)) as H1.
    pose proof (engagementStreak_le_active (rev table)) as H2.
    rewrite len_filter_rev in H2.
    assert (Hf : filter (fun day => 0 <? engagementScore day) table = []).
    { clear -Hscore. induction table as [|x l IH]; [reflexivity|].
      cbn [filter]. rewrite (Hscore x) by now left. cbn.
      apply IH. intros; apply Hscore; now right. }
    rewrite Hf in H2. unfold len in H2 at 1. cbn in H2. lia.
  - apply Hw. intros day Hin. apply Hscore.
    now apply In_slice_last_range in Hin.
  - apply Hm. intros day Hin. apply Hscore.
    now apply In_slice_last_range in Hin.
Qed.

Lemma Qdiv_ge_iff (a s n : Z) :
  0 < n -> (ZtoQ a <= ZtoQ s / ZtoQ n)%Q <-> a * n <= s.
Proof.
  intros Hn. destruct n as [|p|p]; try lia.
  unfold ZtoQ. rewrite <- Qmake_Qdiv. unfold Qle. cbn [Qnum Qden inject_Z].
  lia.
Qed.

Lemma Qdiv_le_iff (s n a : Z) :
  0 < n -> (ZtoQ s / ZtoQ n <= ZtoQ a)%Q <-> s <= a * n.
Proof.
  intros Hn. destruct n as [|p|p]; try lia.
  unfold ZtoQ. rewrite <- Qmake_Qdiv. unfold Qle. cbn [Qnum Qden inject_Z].
  lia.
Qed.

Lemma sumOver_bounds {A : Type} (f : A -> Z) (l : list A) (lo hi : Z) :
  (forall x, In x l -> lo <= f x <= hi) ->
  lo * len l <= sumOver f l <= hi * len l.
Proof.
  induction l as [|x l IH]; intros H.
  - unfold len. cbn. lia.
  - rewrite sumOver_cons, len_cons.
    assert (lo <= f x <= hi) by (apply H; now left).
    assert (lo * len l <= sumOver f l <= hi * len l)
      by (apply IH; intros; apply H; now right).
    lia.
Qed.

(** X5.  For well-formed records the average daily engagement lies between
    0 and 100. *)
Theorem averageDaily_range (entries : list DailyEntry) :
  (forall e, In e entries -> wfEntry e) ->
  (0 <= averageDaily (calculateDailyEngagement entries) <= 100)%Q.
Proof.
  intros Hwf. destruct entries as [|e es].
  - rewrite calculateDailyEngagement_nil. cbn [averageDaily].
    split; unfold Qle; cbn; lia.
  - assert (Hne : e :: es <> []) by discriminate.
    destruct (summary_unfold _ Hne) as (Havg & _). cbv zeta in Havg.
    rewrite Havg.
    set (table := dailyEngagement (calculateDailyEngagement (e :: es))).
    assert (Hscores : forall day, In day table -> 0 <= engagementScore day <= 100).
    { intros day Hin. exact (table_score_bounds _ day Hwf Hin). }
    pose proof (sumOver_bounds engagementScore table 0 100 Hscores) as Hsum.
    assert (Hlen : len table = 30).
    { unfold table. rewrite dailyEngagement_tableEntry by exact Hne.
      unfold len. now rewrite length_map, length_seq. }
    rewrite Hlen in Hsum. rewrite reduceZ_sumOver.
    set (T := sumOver engagementScore table) in *.
    unfold round1.
    rewrite (Math_round_Qeq _ (ZtoQ T / ZtoQ 3)%Q).
    + rewrite Math_round_div by lia.
      assert (0 <= (2 * T + 3) / (2 * 3) <= 1000).
      { split; [apply Z.div_pos; lia|].
        enough ((2 * T + 3) / (2 * 3) < 1001) by lia.
        apply Z.div_lt_upper_bound; lia. }
      change 10%Q with (ZtoQ 10). change 0%Q with (ZtoQ 0).
      change 100%Q with (ZtoQ 100). split.
      * apply Qdiv_ge_iff; lia.
      * apply Qdiv_le_iff; lia.
    + unfold ZtoQ, Qdiv. change (inject_Z 3) with 3%Q. field.
Qed.

Lemma existsb_false_iff {A : Type} (f : A -> bool) (l : list A) :
  existsb f l = false <-> forall x, In x l -> f x = false.
Proof.
  induction l as [|x l IH]; cbn [existsb].
  - split; [intros _ y []|reflexivity].
  - rewrite orb_false_iff, IH. split.
    + intros [Hx Hl] y [<-|Hy]; [exact Hx | now apply Hl].
    + intros H. split; [apply H; now left | intros; apply H; now right].
Qed.

Lemma specActivities_range (e : DailyEntry) :
  0 <= specActivities e <= 3 /\
  (specActivities e = 0 <->
   truthy (goal e) = false /\ truthy (reflection e) = false /\
   truthy (quizEvaluation e) = false).
Proof.
  unfold specActivities.
  destruct (truthy (goal e)), (truthy (reflection e)),
    (truthy (quizEvaluation e)); split; try lia;
    split; try lia; try tauto; intros (H1 & H2 & H3); discriminate.
Qed.

Lemma specPoints_blank (e : DailyEntry) :
  specActivities e = 0 -> specPoints e = 0.
Proof.
  intros H. apply specActivities_range in H. destruct H as (Hg & Hr & Hq).
  unfold specPoints, specGoalPoints, specReflectionPoints, specQuizPoints.
  destruct (goal e); [discriminate|].
  destruct (reflection e); [discriminate|].
  destruct (quizEvaluation e); [discriminate|]. reflexivity.
Qed.

(** X6.  In every entry of the table the activity count is 0 exactly when
    the three flags are all unset, a positive score comes with at least
    one activity, and the count is at most three per record of the day. *)
Theorem table_activity_flags (entries : list DailyEntry) (k : nat)
  (day : DailyEngagement) :
  nth_error (dailyEngagement (calculateDailyEngagement entries)) k = Some day ->
  (activitiesCompleted day = 0 <->
   hasGoal day = false /\ hasReflection day = false /\ hasQuiz day = false) /\
  (0 < engagementScore day -> 0 < activitiesCompleted day) /\
  0 <= activitiesCompleted day
    <= 3 * len (recordsOfDay entries (localDay now - 29 + Z.of_nat k)).
Proof.
  intros Hnth. apply nth_error_table in Hnth. destruct Hnth as (_ & _ & ->).
  set (rs := recordsOfDay entries (localDay now - 29 + Z.of_nat k)).
  cbn [tableEntry activitiesCompleted engagementScore hasGoal hasReflection hasQuiz].
  fold rs.
  assert (Hnn : forall e, In e rs -> 0 <= specActivities e)
    by (intros e _; apply specActivities_range).
  pose proof (sumOver_bounds specActivities rs 0 3
                (fun e _ => proj1 (specActivities_range e))) as Hb.
  split; [|split; [|lia]].
  - rewrite (sumOver_zero_iff specActivities rs Hnn), !existsb_false_iff. split.
    + intros H. repeat split; intros e He; apply (specActivities_range e);
        now apply H.
    + intros (Hg & Hr & Hq) e He. apply specActivities_range.
      repeat split; [now apply Hg | now apply Hr | now apply Hq].
  - intros Hpos.
    destruct (Z.eq_dec (sumOver specActivities rs) 0) as [H0|H0]; [|lia].
    exfalso.
    assert (Hz : sumOver specPoints rs = 0).
    { apply sumOver_zero. intros e He. apply specPoints_blank.
      now apply (sumOver_zero_iff specActivities rs Hnn). }
    rewrite Hz in Hpos. cbn in Hpos. lia.
Qed.

(** ** Bounds of the streak and end points of the consistency score *)

Lemma streakLoop_bounds (today : Z) (l : list DailyEntry) (i s : Z) :
  s <= streakLoop today l i s <= s + len (filter isActive l).
Proof.
  revert i s. induction l as [|e l IH]; intros i s; cbn [streakLoop filter].
  - unfold len. cbn. lia.
  - cbv zeta.
    destruct (setHoursZero (entryTime e) =? setDateBack today i),
      (isActive e) eqn:Ea; rewrite ?len_cons;
      try (specialize (IH (i + 1) (s + 1))); try lia;
      pose proof (len_nonneg (filter isActive l)); lia.
Qed.

(** X7.  The streak is never negative and never exceeds the number of
    active records, so never the number of records. *)
Theorem streak_bounds (entries : list DailyEntry) :
  0 <= streak (calculateConsistencyAndStreak entries)
    <= len (filter isActive entries) /\
  len (filter isActive entries) <= len entries.
Proof.
  split; [|apply len_filter_le].
  destruct entries as [|e es].
  - rewrite calculateConsistencyAndStreak_nil. cbn. lia.
  - rewrite calculateConsistencyAndStreak_cons. cbn [streak].
    pose proof (streakLoop_bounds (setHoursZero now)
                  (Array_sort byDateDescending (e :: es)) 0 0) as H.
    rewrite (len_perm _ _ (filter_perm isActive _ _
               (Array_sort_perm byDateDescending (e :: es)))) in H.
    lia.
Qed.

Lemma len_filter_all {A : Type} (f : A -> bool) (l : list A) :
  len (filter f l) = len l <-> forall x, In x l -> f x = true.
Proof.
  induction l as [|x l IH]; cbn [filter].
  - split; [intros _ y [] | reflexivity].
  - pose proof (len_filter_le f l) as Hle.
    destruct (f x) eqn:E; rewrite ?len_cons.
    + split.
      * intros H y [<-|Hy]; [exact E|]. apply IH; [lia | exact Hy].
      * intros H. f_equal. apply IH. intros; apply H; now right.
    + split; [lia|]. intros H. specialize (H x (or_introl eq_refl)). congruence.
Qed.

Lemma len_filter_none {A : Type} (f : A -> bool) (l : list A) :
  len (filter f l) = 0 <-> forall x, In x l -> f x = false.
Proof.
  induction l as [|x l IH]; cbn [filter].
  - split; [intros _ y [] | reflexivity].
  - pose proof (len_nonneg (filter f l)) as Hnn.
    destruct (f x) eqn:E; rewrite ?len_cons.
    + split; [lia|]. intros H. specialize (H x (or_introl eq_refl)). congruence.
    + rewrite IH. split.
      * intros H y [<-|Hy]; [exact E | now apply H].
      * intros H y Hy. apply H. now right.
Qed.

(** X8.  For a non-empty record list the consistency score is 100 exactly
    when every record of the 30-record window is active and 0 exactly when
    none is; with at most 30 records the window is the whole list. *)
Theorem consistency_end_points (entries : list DailyEntry) :
  entries <> [] ->
  let r := consistencyScore (calculateConsistencyAndStreak entries) in
  let window := slice_last 30 (Array_sort byDateAscending entries) in
  (r = 100 <-> forall e, In e window -> isActive e = true) /\
  (r = 0 <-> forall e, In e window -> isActive e = false) /\
  (len entries <= 30 -> forall e, In e window <-> In e entries).
Proof.
  intros Hne. destruct entries as [|e0 es]; [now contradiction Hne|].
  cbv zeta. rewrite calculateConsistencyAndStreak_cons. cbn [consistencyScore].
  set (entries := e0 :: es).
  set (sorted := Array_sort byDateAscending entries).
  set (window := slice_last 30 sorted).
  assert (Hperm : Permutation sorted entries) by apply Array_sort_perm.
  assert (Hlen : len window = Z.min 30 (len entries)).
  { unfold window. rewrite len_slice_last, (len_perm _ _ Hperm). reflexivity. }
  assert (Hpos : 0 < len entries).
  { unfold entries. rewrite len_cons. pose proof (len_nonneg es). lia. }
  rewrite <- Hlen.
  rewrite (Math_round_Qeq _ _ (percent_Qeq _ _)).
  rewrite Math_round_div by lia.
  set (a := len (filter isActive window)).
  set (m := len window) in *.
  assert (Ha : 0 <= a <= m)
    by (split; [apply len_nonneg | apply len_filter_le]).
  assert (Hm : 0 < m <= 30) by lia.
  pose proof (Z.div_mod (2 * (100 * a) + m) (2 * m)) as Hdm.
  pose proof (Z.mod_pos_bound (2 * (100 * a) + m) (2 * m)) as Hmb.
  split; [|split].
  - rewrite <- len_filter_all. fold a m. split; intros H; nia.
  - rewrite <- len_filter_none. fold a. split; intros H; nia.
  - intros Hle e. unfold window, slice_last.
    replace (List.length sorted - 30)%nat with 0%nat.
    + cbn [skipn]. split; apply Permutation_in;
        [exact Hperm | apply Permutation_sym, Hperm].
    + assert (len sorted = len entries) by (apply len_perm, Hperm).
      unfold len in *. lia.
Qed.

(** X9.  A record dated after today makes the streak 0, whatever the other
    records are. *)
Theorem future_record_resets_streak (entries : list DailyEntry) (f : DailyEntry) :
  In f entries -> localDay now < entryDay f ->
  streak (calculateConsistencyAndStreak entries) = 0.
Proof.
  intros Hin Hfuture. destruct entries as [|e es]; [contradiction|].
  rewrite calculateConsistencyAndStreak_cons. cbn [streak].
  set (entries := e :: es) in *.
  pose proof (Array_sort_perm byDateDescending entries) as Hperm.
  pose proof (Array_sort_sorted byDateDescending (fun e => - entryTime e)
                byDateDescending_key entries) as Hsorted.
  assert (Hf : In f (Array_sort byDateDescending entries))
    by (apply (Permutation_in _ (Permutation_sym Hperm)); exact Hin).
  destruct (Array_sort byDateDescending entries) as [|x l]; [contradiction|].
  inversion Hsorted as [|? ? _ Hx]; subst.
  assert (Hday : entryDay f <= entryDay x).
  { destruct Hf as [<-|Hf]; [lia|].
    rewrite Forall_forall in Hx. specialize (Hx f Hf). unfold keyLe in Hx.
    unfold entryDay. apply localDay_mono. lia. }
  cbn [streakLoop]. cbv zeta. rewrite streak_test.
  assert (Hne : entryDay x <> localDay now - 0) by lia.
  apply Z.eqb_neq in Hne. now rewrite Hne.
Qed.

End Analytics.

(** ** Badges *)

Lemma Map_has_In (k : string) (m : BadgeMap) :
  Map_has k m = true <-> In k (Map_keys m).
Proof.
  unfold Map_has, Map_keys. rewrite existsb_exists, in_map_iff. split.
  - intros (p & Hp & E). apply String.eqb_eq in E. now exists p.
  - intros (p & E & Hp). exists p. split; [exact Hp|]. now apply String.eqb_eq.
Qed.

Lemma Map_has_false (k : string) (m : BadgeMap) :
  Map_has k m = false <-> ~ In k (Map_keys m).
Proof.
  rewrite <- Map_has_In. destruct (Map_has k m); split; congruence.
Qed.

Lemma Map_set_fresh (k : string) (v : Badge) (m : BadgeMap) :
  ~ In k (Map_keys m) -> Map_set k v m = m ++ [(k, v)].
Proof.
  induction m as [|[k' v'] m IH]; intros Hk; cbn [Map_set app].
  - reflexivity.
  - destruct (String.eqb k' k) eqn:E.
    + apply String.eqb_eq in E. exfalso. apply Hk. now left.
    + rewrite IH; [reflexivity|]. intros Hin. apply Hk. now right.
Qed.

Lemma Map_set_keys (k : string) (v : Badge) (m : BadgeMap) :
  Map_keys (Map_set k v m) =
  if Map_has k m then Map_keys m else Map_keys m ++ [k].
Proof.
  induction m as [|[k' v'] m IH]; cbn [Map_set]; [reflexivity|].
  unfold Map_has. cbn [existsb fst].
  destruct (String.eqb k' k) eqn:E; cbn [orb]; [reflexivity|].
  fold (Map_has k m). unfold Map_keys in *. cbn [map fst app].
  rewrite IH. destruct (Map_has k m); reflexivity.
Qed.

Lemma In_Map_set (k k' : string) (v : Badge) (m : BadgeMap) :
  In k' (Map_keys (Map_set k v m)) <-> In k' (Map_keys m) \/ k' = k.
Proof.
  rewrite Map_set_keys. destruct (Map_has k m) eqn:E.
  - apply Map_has_In in E. split; [now left|].
    intros [H| ->]; assumption.
  - rewrite in_app_iff. cbn [In]. split.
    + intros [H|[H|[]]]; [now left | now right].
    + intros [H|H]; [now left | right; now left].
Qed.

Lemma Map_set_Forall (k : string) (v : Badge) (m : BadgeMap) :
  badge_id v = k ->
  Forall (fun p => badge_id (snd p) = fst p) m ->
  Forall (fun p => badge_id (snd p) = fst p) (Map_set k v m).
Proof.
  intros Hv. induction 1 as [|[k' v'] m Hp Hm IH]; cbn [Map_set].
  - constructor; [exact Hv | constructor].
  - destruct (String.eqb k' k) eqn:E.
    + apply String.eqb_eq in E. constructor; [|exact Hm].
      cbn [fst snd]. congruence.
    + constructor; assumption.
Qed.

Lemma Map_set_wf (k : string) (v : Badge) (m : BadgeMap) :
  badge_id v = k -> wfMap m -> wfMap (Map_set k v m).
Proof.
  intros Hv [Hnd Hall]. split; [|now apply Map_set_Forall].
  rewrite Map_set_keys. destruct (Map_has k m) eqn:E; [exact Hnd|].
  apply Map_has_false in E.
  apply NoDup_app; [exact Hnd | repeat constructor; intros [] |].
  intros x Hx [<-|[]]. contradiction.
Qed.

(** [new Map(badges.map(b => [b.id, b]))], started from any map. *)
Lemma Map_fold_wf (bs : list Badge) (acc : BadgeMap) :
  wfMap acc ->
  let m := fold_left (fun m p => Map_set (fst p) (snd p) m)
             (map (fun b => (badge_id b, b)) bs) acc in
  wfMap m /\
  forall k, In k (Map_keys m) <-> In k (Map_keys acc) \/ In k (badge_ids bs).
Proof.
  revert acc. induction bs as [|b bs IH]; intros acc Hacc; cbn [map fold_left].
  - split; [exact Hacc|]. intros k. cbn. tauto.
  - cbn [fst snd].
    destruct (IH (Map_set (badge_id b) b acc)) as [Hwf Hkeys].
    { now apply Map_set_wf. }
    split; [exact Hwf|]. intros k. rewrite Hkeys, In_Map_set.
    cbn [badge_ids map In]. split.
    + intros [[H|H]|H]; auto.
    + intros [H|[H|H]]; auto.
Qed.

Lemma wfMap_nil : wfMap [].
Proof. split; constructor. Qed.

Lemma Map_new_wf (bs : list Badge) :
  let m := Map_new (map (fun b => (badge_id b, b)) bs) in
  wfMap m /\ forall k, In k (Map_keys m) <-> In k (badge_ids bs).
Proof.
  destruct (Map_fold_wf bs [] wfMap_nil) as [Hwf Hkeys].
  split; [exact Hwf|]. intros k. unfold Map_new. rewrite Hkeys. cbn. tauto.
Qed.

Lemma award_wf (c : bool) (k : string) (m : BadgeMap) :
  badge_id (find_badge k) = k -> wfMap m ->
  wfMap (award c k m) /\
  forall k', In k' (Map_keys (award c k m)) <->
             In k' (Map_keys m) \/ (k' = k /\ c = true).
Proof.
  intros Hk Hwf. unfold award.
  destruct c; cbn [andb].
  - destruct (Map_has k m) eqn:E; cbn [negb].
    + split; [exact Hwf|]. intros k'. apply Map_has_In in E. split.
      * now left.
      * intros [H|[-> _]]; assumption.
    + split; [now apply Map_set_wf|]. intros k'. rewrite In_Map_set. split.
      * intros [H|H]; [now left | right; now split].
      * intros [H|[H _]]; [now left | now right].
  - split; [exact Hwf|]. intros k'. split; [now left|].
    intros [H|[_ H]]; [exact H | discriminate].
Qed.

Lemma award_present (c : bool) (k : string) (m : BadgeMap) :
  (c = true -> In k (Map_keys m)) -> award c k m = m.
Proof.
  intros H. unfold award. destruct c; [|reflexivity].
  apply Map_has_In in H; [|reflexivity]. now rewrite H.
Qed.

Lemma Map_values_ids (m : BadgeMap) :
  wfMap m -> badge_ids (Map_values m) = Map_keys m.
Proof.
  intros [_ Hall]. unfold badge_ids, Map_values, Map_keys. rewrite map_map.
  induction Hall as [|p m Hp Hm IH]; cbn [map]; [reflexivity|].
  now rewrite Hp, IH.
Qed.

Lemma Map_fold_fresh (ps acc : BadgeMap) :
  NoDup (Map_keys acc ++ Map_keys ps) ->
  fold_left (fun m p => Map_set (fst p) (snd p) m) ps acc = acc ++ ps.
Proof.
  revert acc. induction ps as [|[k v] ps IH]; intros acc Hnd; cbn [fold_left].
  - now rewrite app_nil_r.
  - cbn [fst snd]. unfold Map_keys in Hnd. cbn [map fst] in Hnd.
    rewrite Map_set_fresh.
    + rewrite IH.
      * rewrite <- app_assoc. reflexivity.
      * unfold Map_keys. rewrite map_app, <- app_assoc. exact Hnd.
    + intros Hin. apply NoDup_remove_2 in Hnd. apply Hnd.
      apply in_or_app. now left.
Qed.

(** Rebuilding the map from its own values gives it back. *)
Lemma Map_new_values (m : BadgeMap) :
  wfMap m -> Map_new (map (fun b => (badge_id b, b)) (Map_values m)) = m.
Proof.
  intros [Hnd Hall].
  assert (Hpairs : map (fun b => (badge_id b, b)) (Map_values m) = m).
  { unfold Map_values. rewrite map_map.
    induction Hall as [|[k v] m Hp Hm IH]; cbn [map]; [reflexivity|].
    cbn [fst snd] in *. inversion Hnd; subst. rewrite IH by assumption.
    reflexivity. }
  rewrite Hpairs. unfold Map_new. now rewrite Map_fold_fresh.
Qed.





Lemma len_map {A B : Type} (f : A -> B) (l : list A) : len (map f l) = len l.
Proof. unfold len. now rewrite length_map. Qed.

(** The map the service holds when it writes the badges back, and its
    keys. *)
Lemma checkAndAwardBadges_map (student : StudentData) :
  let c1 := 7 <=? student_streak student in
  let c2 := 90 <=? student_consistencyScore student in
  let c3 := deepThinkerCond (entries student) in
  let c4 := quizWhizCond (entries student) in
  exists m,
    checkAndAwardBadges student =
    {| studentId := studentId student;
       student_name := student_name student;
       student_consistencyScore := student_consistencyScore student;
       student_streak := student_streak student;
       badges := Map_values m;
       entries := entries student;
       student_dailyEngagement := student_dailyEngagement student |} /\
    m = award c4 "quiz-whiz" (award c3 "deep-thinker"
          (award c2 "consistency-90" (award c1 "streak-7"
             (Map_new (map (fun b => (badge_id b, b)) (badges student)))))) /\
    wfMap m /\
    forall k, In k (Map_keys m) <->
      In k (badge_ids (badges student)) \/
      (k = "streak-7" /\ c1 = true) \/
      (k = "consistency-90" /\ c2 = true) \/
      (k = "deep-thinker" /\ c3 = true) \/
      (k = "quiz-whiz" /\ c4 = true).
Proof.
  intros c1 c2 c3 c4.
  destruct (Map_new_wf (badges student)) as [Hwf0 Hk0].
  set (m0 := Map_new (map (fun b => (badge_id b, b)) (badges student))) in *.
  destruct (award_wf c1 "streak-7" m0 eq_refl Hwf0) as [Hwf1 Hk1].
  set (m1 := award c1 "streak-7" m0) in *.
  destruct (award_wf c2 "consistency-90" m1 eq_refl Hwf1) as [Hwf2 Hk2].
  set (m2 := award c2 "consistency-90" m1) in *.
  destruct (award_wf c3 "deep-thinker" m2 eq_refl Hwf2) as [Hwf3 Hk3].
  set (m3 := award c3 "deep-thinker" m2) in *.
  destruct (award_wf c4 "quiz-whiz" m3 eq_refl Hwf3) as [Hwf4 Hk4].
  set (m4 := award c4 "quiz-whiz" m3) in *.
  exists m4. split; [reflexivity|]. split; [reflexivity|].
  split; [exact Hwf4|].
  intros k. rewrite Hk4, Hk3, Hk2, Hk1, Hk0. tauto.
Qed.

Lemma checkAndAwardBadges_ids (student : StudentData) (k : string) :
  In k (badge_ids (badges (checkAndAwardBadges student))) <->
  In k (badge_ids (badges student)) \/
  (k = "streak-7" /\ (7 <=? student_streak student) = true) \/
  (k = "consistency-90" /\ (90 <=? student_consistencyScore student) = true) \/
  (k = "deep-thinker" /\ deepThinkerCond (entries student) = true) \/
  (k = "quiz-whiz" /\ quizWhizCond (entries student) = true).
Proof.
  destruct (checkAndAwardBadges_map student) as (m & Heq & _ & Hwf & Hkeys).
  rewrite Heq. cbn [badges]. rewrite (Map_values_ids m Hwf). apply Hkeys.
Qed.


(** C7.  Every badge id held before the computation is held after it,
    whatever the streak, the score and the records are, and a second run
    changes nothing: the badge list, and with it the whole aggregate,
    is the one of the first run. *)
Theorem badges_monotone_idempotent (student : StudentData) :
  (forall k, In k (badge_ids (badges student)) ->
             In k (badge_ids (badges (checkAndAwardBadges student)))) /\
  badges (checkAndAwardBadges (checkAndAwardBadges student))
  = badges (checkAndAwardBadges student) /\
  checkAndAwardBadges (checkAndAwardBadges student) = checkAndAwardBadges student.
Proof.
  split.
  - intros k Hk. apply checkAndAwardBadges_ids. now left.
  - destruct (checkAndAwardBadges_map student) as (m & Heq & Hm & Hwf & Hkeys).
    cbv zeta in *.
    assert (Hagain : checkAndAwardBadges (checkAndAwardBadges student)
                     = checkAndAwardBadges student).
    { rewrite Heq at 1. unfold checkAndAwardBadges at 1.
      cbn [badges entries student_streak student_consistencyScore studentId
           student_name student_dailyEngagement].
      rewrite (Map_new_values m Hwf).
      rewrite (award_present _ "streak-7" m)
        by (intros Hc; apply Hkeys; right; left; now split).
      rewrite (award_present _ "consistency-90" m)
        by (intros Hc; apply Hkeys; right; right; left; now split).
      rewrite (award_present _ "deep-thinker" m)
        by (intros Hc; apply Hkeys; right; right; right; left; now split).
      rewrite (award_present _ "quiz-whiz" m)
        by (intros Hc; apply Hkeys; right; right; right; right; now split).
      symmetry. exact Heq. }
    split; [now rewrite Hagain | exact Hagain].
Qed.

(** ** At-risk students *)

Lemma Qltb_iff (a b : Q) : Qltb a b = true <-> (a < b)%Q.
Proof.
  unfold Qltb. rewrite negb_true_iff. split.
  - intros H. apply Qnot_le_lt. intros Hle.
    apply Qle_bool_iff in Hle. congruence.
  - intros H. destruct (Qle_bool b a) eqn:E; [|reflexivity].
    apply Qle_bool_iff in E. exfalso. exact (Qlt_not_le _ _ H E).
Qed.

Lemma isAtRisk_iff (allEntries : list DailyEntry) (student : StudentData) :
  let es := studentEntries allEntries student in
  isAtRisk allEntries student = true <->
  2 < countMissedGoals es \/ (avgDepthOf es < 2)%Q \/
  student_consistencyScore student < 60.
Proof.
  cbv zeta. unfold isAtRisk. cbv zeta.
  rewrite !orb_true_iff, Z.ltb_lt, Z.ltb_lt, Qltb_iff. tauto.
Qed.


Lemma reasonOf_cases (missed : Z) (avgDepth : Q) (consistency : Z) :
  (2 < missed ->
   reasonOf missed avgDepth consistency =
   String.append "Missed "
     (String.append (Number_toString (Z.to_nat missed)) " goals")) /\
  (missed <= 2 -> (avgDepth < 2)%Q ->
   reasonOf missed avgDepth consistency = "Low reflection depth") /\
  (missed <= 2 -> ~ (avgDepth < 2)%Q -> consistency < 60 ->
   reasonOf missed avgDepth consistency = "Low consistency score") /\
  (missed <= 2 -> ~ (avgDepth < 2)%Q -> 60 <= consistency ->
   reasonOf missed avgDepth consistency = "Multiple issues").
Proof.
  unfold reasonOf. repeat split.
  - intros H. apply Z.ltb_lt in H. now rewrite H.
  - intros H Hd. apply Z.ltb_ge in H. apply Qltb_iff in Hd.
    now rewrite H, Hd.
  - intros H Hd Hc. apply Z.ltb_ge in H. rewrite H.
    destruct (Qltb avgDepth 2) eqn:E; [apply Qltb_iff in E; contradiction|].
    apply Z.ltb_lt in Hc. now rewrite Hc.
  - intros H Hd Hc. apply Z.ltb_ge in H. rewrite H.
    destruct (Qltb avgDepth 2) eqn:E; [apply Qltb_iff in E; contradiction|].
    apply Z.ltb_ge in Hc. now rewrite Hc.
Qed.

Lemma In_firstn {A : Type} (n : nat) (l : list A) (x : A) :
  In x (firstn n l) -> In x l.
Proof.
  intros H. rewrite <- (firstn_skipn n l). apply in_or_app. now left.
Qed.

Lemma In_dashboardAtRisk (students : list StudentData)
  (allEntries : list DailyEntry) (r : AtRiskStudent) :
  In r (dashboardAtRisk students allEntries) ->
  exists s, In s students /\ isAtRisk allEntries s = true /\
            r = toAtRisk allEntries s.
Proof.
  unfold dashboardAtRisk, slice_first, atRiskStudents. intros H.
  apply In_firstn, in_map_iff in H. destruct H as (s & <- & Hs).
  apply filter_In in Hs. destruct Hs as [Hin Hrisk]. now exists s.
Qed.


(** C10.  Every entry of the at-risk list carries one of the three
    specific reasons; the fall-back reason is never produced, since a
    student who passes the filter meets one of the three conditions. *)
Theorem reason_never_fallback (students : list StudentData)
  (allEntries : list DailyEntry) (r : AtRiskStudent) :
  In r (dashboardAtRisk students allEntries) ->
  ((exists n, 2 < n /\
      reason r = String.append "Missed "
                   (String.append (Number_toString (Z.to_nat n)) " goals"))
   \/ reason r = "Low reflection depth"
   \/ reason r = "Low consistency score")
  /\ reason r <> "Multiple issues".
Proof.
  intros Hr. apply In_dashboardAtRisk in Hr.
  destruct Hr as (s & _ & Hrisk & ->).
  cbn [toAtRisk reason].
  set (es := studentEntries allEntries s).
  apply isAtRisk_iff in Hrisk. cbv zeta in Hrisk. fold es in Hrisk.
  destruct (reasonOf_cases (countMissedGoals es) (avgDepthOf es)
              (student_consistencyScore s)) as (H1 & H2 & H3 & _).
  destruct (Z.lt_ge_cases 2 (countMissedGoals es)) as [Hm|Hm].
  - rewrite (H1 Hm). split.
    + left. exists (countMissedGoals es). now split.
    + cbn [String.append]. discriminate.
  - assert (Hm' : countMissedGoals es <= 2) by lia.
    destruct (Qlt_le_dec (avgDepthOf es) 2) as [Hd|Hd].
    + rewrite (H2 Hm' Hd). split; [right; now left | discriminate].
    + assert (Hnd : ~ (avgDepthOf es < 2)%Q)
        by (intros Hlt; exact (Qlt_not_le _ _ Hlt Hd)).
      destruct Hrisk as [H|[H|H]]; [lia | contradiction|].
      rewrite (H3 Hm' Hnd H). split; [right; now right | discriminate].
Qed.

(** ** The theorems on sample records *)

Lemma perDay_thirty_days_witness :
  let m := calculateDailyEngagement isoGetTime tzUTC sampleNow sampleRun in
  dailyEngagement (calculateDailyEngagement isoGetTime tzUTC sampleNow []) = [] /\
  sampleRun <> [] /\ (29 < 30)%nat /\
  List.length (dailyEngagement m) = 30%nat /\
  exists day,
    nth_error (dailyEngagement m) 29 = Some day /\
    engagementScore day =
    Z.min 100
      (sumOver specPoints
         (recordsOfDay isoGetTime tzUTC sampleRun
            (localDay tzUTC sampleNow - 29 + Z.of_nat 29))).
Proof.
  intros m.
  assert (Hne : sampleRun <> []) by discriminate.
  assert (Hk : (29 < 30)%nat) by lia.
  destruct (perDay_thirty_days isoGetTime tzUTC sampleNow []) as [Hnil _].
  destruct (perDay_thirty_days isoGetTime tzUTC sampleNow sampleRun) as [_ H].
  destruct (H Hne) as [Hlen [first Hday]].
  destruct (Hday 29%nat Hk) as (day & Hnth & _ & Hscore & _).
  split; [exact (proj1 (Hnil eq_refl))|].
  split; [exact Hne|]. split; [exact Hk|]. split; [exact Hlen|].
  exists day. split; [exact Hnth | exact Hscore].
Defined.

Lemma streak_consecutive_active_days_witness :
  onePerDay isoGetTime tzUTC sampleRun /\
  noneAfterToday isoGetTime tzUTC sampleNow sampleRun /\
  IsStreak isoGetTime tzUTC sampleNow sampleRun
    (streak (calculateConsistencyAndStreak isoGetTime tzUTC sampleNow sampleRun)) /\
  streak (calculateConsistencyAndStreak isoGetTime tzUTC sampleNow sampleRun) = 3.
Proof.
  assert (Hone : onePerDay isoGetTime tzUTC sampleRun)
    by (unfold onePerDay; concrete_NoDup).
  assert (Hpast : noneAfterToday isoGetTime tzUTC sampleNow sampleRun).
  { intros e He. cbn in He.
    destruct He as [<-|[<-|[<-|[<-|[]]]]]; vm_compute; intros H; discriminate H. }
  destruct (streak_consecutive_active_days isoGetTime tzUTC sampleNow sampleRun
              Hone Hpast) as (Hs & _ & _ & H3).
  split; [exact Hone|]. split; [exact Hpast|]. split; [exact Hs|].
  apply H3; reflexivity.
Defined.

Lemma consistencyScore_window_witness :
  let r := consistencyScore
             (calculateConsistencyAndStreak isoGetTime tzUTC sampleNow sampleRun) in
  consistencyScore (calculateConsistencyAndStreak isoGetTime tzUTC sampleNow []) = 0 /\
  sampleRun <> [] /\
  0 <= r <= 100 /\
  exists older window,
    Permutation (older ++ window) sampleRun /\
    len window = Z.min 30 (len sampleRun) /\
    (forall a b, In a older -> In b window ->
       entryTime isoGetTime a <= entryTime isoGetTime b) /\
    r = Math_round
          (ZtoQ (100 * len (filter isActive window)) / ZtoQ (len window))%Q /\
    2 * len window * r
      <= 200 * len (filter isActive window) + len window
      < 2 * len window * (r + 1).
Proof.
  intros r.
  assert (Hne : sampleRun <> []) by discriminate.
  destruct (consistencyScore_window isoGetTime tzUTC sampleNow []) as (Hnil & _ & _).
  destruct (consistencyScore_window isoGetTime tzUTC sampleNow sampleRun)
    as (_ & Hbounds & Hwin).
  split; [exact (Hnil eq_refl)|]. split; [exact Hne|].
  split; [exact Hbounds | exact (Hwin Hne)].
Defined.


Lemma permutation_invariance_witness :
  Permutation sampleRun (rev sampleRun) /\
  NoDup (map (entryTime isoGetTime) sampleRun) /\
  calculateDailyEngagement isoGetTime tzUTC sampleNow sampleRun
  = calculateDailyEngagement isoGetTime tzUTC sampleNow (rev sampleRun) /\
  calculateConsistencyAndStreak isoGetTime tzUTC sampleNow sampleRun
  = calculateConsistencyAndStreak isoGetTime tzUTC sampleNow (rev sampleRun).
Proof.
  assert (HP : Permutation sampleRun (rev sampleRun)) by apply Permutation_rev.
  assert (Hnd : NoDup (map (entryTime isoGetTime) sampleRun)) by concrete_NoDup.
  destruct (permutation_invariance isoGetTime tzUTC sampleNow
              sampleRun (rev sampleRun) HP) as [He Hc].
  split; [exact HP|]. split; [exact Hnd|]. split; [exact He | exact (Hc Hnd)].
Defined.

Lemma zero_score_quiz_day_witness :
  let m := calculateDailyEngagement isoGetTime tzUTC sampleNow zeroQuiz in
  (0 < 30)%nat /\
  recordsOfDay isoGetTime tzUTC zeroQuiz (localDay tzUTC sampleNow - Z.of_nat 0) <> [] /\
  streak (calculateConsistencyAndStreak isoGetTime tzUTC sampleNow zeroQuiz) = 1 /\
  exists day,
    nth_error (dailyEngagement m) 29 = Some day /\
    engagementScore day = 0 /\ hasQuiz day = true /\
    activeDays m = 0 /\ streakDays m <= 0 /\
    (forall e, In e zeroQuiz -> isActive e = true).
Proof.
  intros m.
  assert (Hj : (0 < 30)%nat) by lia.
  assert (Hsome : recordsOfDay isoGetTime tzUTC zeroQuiz
                    (localDay tzUTC sampleNow - Z.of_nat 0) <> [])
    by (vm_compute; discriminate).
  assert (Hall : forall e,
    In e (recordsOfDay isoGetTime tzUTC zeroQuiz
            (localDay tzUTC sampleNow - Z.of_nat 0)) ->
    goal e = None /\ reflection e = None /\
    exists q, quizEvaluation e = Some q /\ score q = 0 /\ 0 < total q).
  { intros e He. vm_compute in He. destruct He as [<-|[]].
    split; [reflexivity|]. split; [reflexivity|].
    exists {| score := 0; total := 10 |}. repeat split. }
  destruct (zero_score_quiz_day isoGetTime tzUTC sampleNow zeroQuiz 0 Hj Hsome Hall)
    as (day & Hnth & Hscore & Hquiz & Hactive & _ & Hle & Hact).
  split; [exact Hj|]. split; [exact Hsome|]. split; [reflexivity|].
  exists day. split; [exact Hnth|]. split; [exact Hscore|].
  split; [exact Hquiz|]. split; [reflexivity|]. split; [exact Hle|].
  exact Hact.
Defined.


Lemma badges_monotone_idempotent_witness :
  student_streak lapsed < 7 /\
  In "streak-7" (badge_ids (badges lapsed)) /\
  In "streak-7" (badge_ids (badges (checkAndAwardBadges lapsed))) /\
  badges (checkAndAwardBadges (checkAndAwardBadges lapsed))
  = badges (checkAndAwardBadges lapsed).
Proof.
  destruct (badges_monotone_idempotent lapsed) as (Hmono & Hidem & _).
  assert (Hheld : In "streak-7" (badge_ids (badges lapsed)))
    by (left; reflexivity).
  split; [reflexivity|]. split; [exact Hheld|].
  split; [exact (Hmono _ Hheld) | exact Hidem].
Defined.


Lemma reason_never_fallback_witness :
  let r := toAtRisk octoberEntries octoberStudent in
  In r (dashboardAtRisk [octoberStudent] octoberEntries) /\
  reason r <> "Multiple issues".
Proof.
  intros r.
  assert (Hin : In r (dashboardAtRisk [octoberStudent] octoberEntries))
    by (left; reflexivity).
  split; [exact Hin|].
  exact (proj2 (reason_never_fallback [octoberStudent] octoberEntries r Hin)).
Defined.

(** The first example of the specification: one record dated today with
    a completed goal. *)
Example one_goal_today :
  calculateConsistencyAndStreak isoGetTime tzUTC sampleNow
    [goalEntry "2026-11-01T08:00:00.000Z" true]
  = {| consistencyScore := 100; streak := 1 |}.
Proof. reflexivity. Qed.

Example sampleRun_scores :
  map engagementScore
    (skipn 26 (dailyEngagement
                 (calculateDailyEngagement isoGetTime tzUTC sampleNow sampleRun)))
  = [0; 28; 45; 40].
Proof. reflexivity. Qed.

(** East of Greenwich the date label of the last entry is the date before
    today's. *)
Example sampleRun_last_label_IST :
  map day_date
    (skipn 29 (dailyEngagement
                 (calculateDailyEngagement isoGetTime tzIST sampleNow sampleRun)))
  = [localDay tzIST sampleNow - 1].
Proof. reflexivity. Qed.

(** ** Where the specification and the code part *)

(** C1: for the empty record list the table is empty, not 30 entries
    long. *)
Lemma empty_list_has_no_table :
  List.length
    (dailyEngagement (calculateDailyEngagement isoGetTime tzUTC sampleNow []))
  <> 30%nat.
Proof. cbn. discriminate. Qed.


(** C3: two records on one local day.  Today and the two days before
    have an active record each and the third day before has none, so the
    walk over the days counts 3; the loop over the records stops at the
    second record and returns 1. *)
Lemma streak_two_records_one_day :
  let today := localDay tzIST sampleNow in
  let s := streak (calculateConsistencyAndStreak isoGetTime tzIST sampleNow lateNight) in
  s = 1 /\
  dayActive isoGetTime tzIST lateNight today = true /\
  dayActive isoGetTime tzIST lateNight (today - 1) = true /\
  dayActive isoGetTime tzIST lateNight (today - 2) = true /\
  dayActive isoGetTime tzIST lateNight (today - 3) = false /\
  IsStreak isoGetTime tzIST sampleNow lateNight 3 /\
  ~ IsStreak isoGetTime tzIST sampleNow lateNight s.
Proof.
  cbv zeta.
  assert (H3 : IsStreak isoGetTime tzIST sampleNow lateNight 3).
  { split; [lia|]. split; [|reflexivity].
    intros j Hj. assert (Hc : j = 0 \/ j = 1 \/ j = 2) by lia.
    destruct Hc as [-> | [-> | ->]]; reflexivity. }
  repeat split; try reflexivity; try exact (proj1 (proj2 H3)); try lia.
  intros Hs.
  assert (E : streak (calculateConsistencyAndStreak isoGetTime tzIST sampleNow lateNight) = 3)
    by (symmetry; exact (IsStreak_unique _ _ _ _ _ _ H3 Hs)).
  vm_compute in E. discriminate E.
Qed.

(** C8: two orders of two records that bear the same date stamp give
    different streaks. *)
Lemma streak_depends_on_order :
  Permutation sameStamp sameStampSwapped /\
  streak (calculateConsistencyAndStreak isoGetTime tzUTC sampleNow sameStamp) = 1 /\
  streak (calculateConsistencyAndStreak isoGetTime tzUTC sampleNow sameStampSwapped) = 0 /\
  calculateConsistencyAndStreak isoGetTime tzUTC sampleNow sameStamp
  <> calculateConsistencyAndStreak isoGetTime tzUTC sampleNow sameStampSwapped.
Proof.
  split; [apply perm_swap|]. split; [reflexivity|]. split; [reflexivity|].
  intros H. apply (f_equal streak) in H. vm_compute in H. discriminate H.
Qed.

(** ** Badges: order, provenance, no duplicates *)

(** X10.  Whatever badge list the student document holds, with repeated
    ids or not, the list written back holds every id once. *)
Theorem awarded_ids_distinct (student : StudentData) :
  NoDup (badge_ids (badges (checkAndAwardBadges student))).
Proof.
  destruct (checkAndAwardBadges_map student) as (m & Heq & _ & Hwf & _).
  rewrite Heq. cbn [badges]. rewrite (Map_values_ids m Hwf). apply Hwf.
Qed.

Lemma Map_has_existsb (k : string) (bs : list Badge) :
  Map_has k (map (fun b => (badge_id b, b)) bs)
  = existsb (String.eqb k) (badge_ids bs).
Proof.
  unfold Map_has, badge_ids. induction bs as [|b bs IH]; [reflexivity|].
  cbn [map existsb fst]. rewrite IH, (String.eqb_sym (badge_id b) k).
  reflexivity.
Qed.

Lemma Map_has_app (k : string) (m1 m2 : BadgeMap) :
  Map_has k (m1 ++ m2) = Map_has k m1 || Map_has k m2.
Proof. unfold Map_has. apply existsb_app. Qed.

Lemma award_app (c : bool) (k : string) (m : BadgeMap) :
  award c k m =
  m ++ (if c && negb (Map_has k m) then [(k, find_badge k)] else []).
Proof.
  unfold award. destruct (c && negb (Map_has k m)) eqn:E.
  - apply andb_true_iff in E. destruct E as [_ E].
    apply negb_true_iff, Map_has_false in E. now apply Map_set_fresh.
  - now rewrite app_nil_r.
Qed.

(** X11.  When the ids of the held badges are distinct, the run keeps the
    held badges in place and appends the newly earned catalog badges in
    the order streak, consistency, deep thinker, quiz whiz. *)
Theorem awarded_badges_appended (student : StudentData) :
  NoDup (badge_ids (badges student)) ->
  badges (checkAndAwardBadges student) = badges student ++ newlyAwarded student.
Proof.
  intros Hnd.
  destruct (checkAndAwardBadges_map student) as (m & Heq & Hm & _ & _).
  cbv zeta in Hm. rewrite Heq. cbn [badges]. rewrite Hm.
  set (pairs := map (fun b => (badge_id b, b)) (badges student)).
  assert (Hkeys : Map_keys pairs = badge_ids (badges student)).
  { unfold pairs, Map_keys, badge_ids. rewrite map_map. reflexivity. }
  assert (H0 : Map_new pairs = pairs).
  { unfold Map_new. rewrite Map_fold_fresh; [reflexivity|].
    cbn [Map_keys map app]. now rewrite Hkeys. }
  assert (Hhas : forall k, Map_has k pairs
                           = existsb (String.eqb k) (badge_ids (badges student)))
    by (intros k; apply Map_has_existsb).
  assert (Hvals : Map_values pairs = badges student).
  { unfold pairs, Map_values. rewrite map_map. cbn [snd]. apply map_id. }
  rewrite H0, !award_app, !Map_has_app, !Hhas.
  unfold newlyAwarded, newBadge. cbv zeta.
  set (h1 := existsb (String.eqb "streak-7") (badge_ids (badges student))).
  set (h2 := existsb (String.eqb "consistency-90") (badge_ids (badges student))).
  set (h3 := existsb (String.eqb "deep-thinker") (badge_ids (badges student))).
  set (h4 := existsb (String.eqb "quiz-whiz") (badge_ids (badges student))).
  unfold Map_values in *. rewrite !map_app, Hvals, <- !app_assoc.
  destruct (7 <=? student_streak student),
    (90 <=? student_consistencyScore student),
    (deepThinkerCond (entries student)),
    (quizWhizCond (entries student)), h1, h2, h3, h4; reflexivity.
Qed.

Lemma In_Map_set_value (k : string) (v : Badge) (m : BadgeMap) (p : string * Badge) :
  In p (Map_set k v m) -> In (snd p) (map snd m) \/ snd p = v.
Proof.
  induction m as [|[k' v'] m IH]; cbn [Map_set].
  - intros [<-|[]]. now right.
  - destruct (String.eqb k' k).
    + intros [<-|H]; [now right|]. left. right. now apply in_map.
    + intros [<-|H]; [left; now left|].
      destruct (IH H) as [H'|H']; [left; now right | now right].
Qed.

Lemma Map_fold_values (ps : list (string * Badge)) (acc : BadgeMap) (b : Badge) :
  In b (Map_values (fold_left (fun m p => Map_set (fst p) (snd p) m) ps acc)) ->
  In b (Map_values acc) \/ In b (map snd ps).
Proof.
  revert acc. induction ps as [|p ps IH]; intros acc; cbn [fold_left map].
  - now left.
  - intros H. destruct (IH _ H) as [H'|H']; [|right; now right].
    unfold Map_values in H'. apply in_map_iff in H'.
    destruct H' as (q & <- & Hq).
    destruct (In_Map_set_value _ _ _ _ Hq) as [Hm|Hv];
      [now left | right; left; now symmetry].
Qed.

Lemma award_values (c : bool) (k : string) (m : BadgeMap) (b : Badge) :
  In b (Map_values (award c k m)) -> In b (Map_values m) \/ b = find_badge k.
Proof.
  rewrite award_app. unfold Map_values. rewrite map_app, in_app_iff.
  intros [H|H]; [now left|].
  destruct (c && negb (Map_has k m)); [|contradiction].
  destruct H as [<-|[]]. now right.
Qed.

(** X12.  Every badge of the list written back is a badge the student
    document held or an entry of the catalog, and one run adds at most
    four badges. *)
Theorem awarded_badges_provenance (student : StudentData) :
  (forall b, In b (badges (checkAndAwardBadges student)) ->
     In b (badges student) \/ In b ALL_BADGES) /\
  len (badges (checkAndAwardBadges student)) <= len (badges student) + 4.
Proof.
  destruct (checkAndAwardBadges_map student) as (m & Heq & Hm & Hwf & Hkeys).
  cbv zeta in Hm, Hkeys. rewrite Heq. cbn [badges]. split.
  - intros b Hb. rewrite Hm in Hb.
    apply award_values in Hb.
    destruct Hb as [Hb| ->]; [|right; cbn; tauto].
    apply award_values in Hb.
    destruct Hb as [Hb| ->]; [|right; cbn; tauto].
    apply award_values in Hb.
    destruct Hb as [Hb| ->]; [|right; cbn; tauto].
    apply award_values in Hb.
    destruct Hb as [Hb| ->]; [|right; cbn; tauto].
    unfold Map_new in Hb. apply Map_fold_values in Hb.
    destruct Hb as [[]|Hb]. left.
    rewrite map_map in Hb. cbn [snd] in Hb. now rewrite map_id in Hb.
  - assert (Hlen : forall c k m0, len (award c k m0) <= len m0 + 1).
    { intros c k m0. rewrite award_app, len_app.
      destruct (c && negb (Map_has k m0)); unfold len; cbn; lia. }
    assert (Hnew : forall ps acc,
      len (fold_left (fun m p => Map_set (fst p) (snd p) m) ps acc)
      <= len acc + len ps).
    { induction ps as [|p ps IH]; intros acc; cbn [fold_left].
      - unfold len. cbn. lia.
      - specialize (IH (Map_set (fst p) (snd p) acc)).
        assert (len (Map_set (fst p) (snd p) acc) <= len acc + 1).
        { clear. induction acc as [|[k' v'] acc IHa]; cbn [Map_set].
          - unfold len. cbn. lia.
          - destruct (String.eqb k' (fst p)); rewrite !len_cons; lia. }
        rewrite len_cons. lia. }
    unfold Map_values. rewrite len_map, Hm.
    pose proof (Hnew (map (fun b => (badge_id b, b)) (badges student)) []) as H0.
    rewrite len_map in H0. unfold Map_new.
    set (m0 := fold_left (fun m p => Map_set (fst p) (snd p) m)
                 (map (fun b => (badge_id b, b)) (badges student)) []) in *.
    pose proof (Hlen (7 <=? student_streak student) "streak-7" m0) as H1.
    set (m1 := award _ "streak-7" m0) in *.
    pose proof (Hlen (90 <=? student_consistencyScore student)
                  "consistency-90" m1) as H2.
    set (m2 := award _ "consistency-90" m1) in *.
    pose proof (Hlen (deepThinkerCond (entries student)) "deep-thinker" m2) as H3.
    set (m3 := award _ "deep-thinker" m2) in *.
    pose proof (Hlen (quizWhizCond (entries student)) "quiz-whiz" m3) as H4.
    unfold len in H0 at 2. cbn in H0. lia.
Qed.

(** ** The dashboard with ids that occur in no date *)

Lemma studentEntries_nil (allEntries : list DailyEntry) (s : StudentData) :
  (forall e, In e allEntries -> includes (date e) (studentId s) = false) ->
  studentEntries allEntries s = [].
Proof.
  intros H. unfold studentEntries.
  induction allEntries as [|e l IH]; [reflexivity|].
  cbn [filter]. rewrite (H e) by now left.
  apply IH. intros; apply H; now right.
Qed.

Lemma filter_all {A : Type} (f : A -> bool) (l : list A) :
  (forall x, In x l -> f x = true) -> filter f l = l.
Proof.
  induction l as [|x l IH]; intros H; [reflexivity|].
  cbn [filter]. rewrite (H x) by now left.
  f_equal. apply IH. intros; apply H; now right.
Qed.

(** X13.  A student whose id occurs in the date of no record is at risk
    whatever the consistency score is, with 0 missed goals and the reason
    "Low reflection depth"; when that holds for all students the dashboard
    lists the first five students of the collection. *)
Theorem unattributed_students_at_risk (students : list StudentData)
  (allEntries : list DailyEntry) :
  (forall s e, In s students -> In e allEntries ->
     includes (date e) (studentId s) = false) ->
  (forall s, In s students ->
     isAtRisk allEntries s = true /\
     missedGoals (toAtRisk allEntries s) = 0 /\
     reason (toAtRisk allEntries s) = "Low reflection depth") /\
  map atRisk_id (dashboardAtRisk students allEntries)
  = firstn 5 (map studentId students) /\
  (forall r, In r (dashboardAtRisk students allEntries) ->
     reason r = "Low reflection depth").
Proof.
  intros Hno.
  assert (Hs : forall s, In s students ->
     isAtRisk allEntries s = true /\
     missedGoals (toAtRisk allEntries s) = 0 /\
     reason (toAtRisk allEntries s) = "Low reflection depth").
  { intros s Hin.
    assert (Hnil : studentEntries allEntries s = [])
      by (apply studentEntries_nil; intros; now apply Hno).
    unfold isAtRisk, toAtRisk. cbv zeta. cbn [missedGoals reason].
    rewrite Hnil. repeat split. }
  split; [exact Hs|]. split.
  - unfold dashboardAtRisk, slice_first, atRiskStudents.
    rewrite (filter_all (isAtRisk allEntries) students)
      by (intros s Hin; apply (Hs s Hin)).
    rewrite <- firstn_map, map_map. reflexivity.
  - intros r Hr. apply In_dashboardAtRisk in Hr.
    destruct Hr as (s & Hin & _ & ->). apply (Hs s Hin).
Qed.

(** ** Key figures *)

Lemma reduceQ_acc {A : Type} (f : A -> Q) (l : list A) (a lo hi : Q) :
  (forall x, In x l -> (lo <= f x <= hi)%Q) ->
  (a + lo * ZtoQ (len l) <= fold_left (fun s x => s + f x) l a
   <= a + hi * ZtoQ (len l))%Q.
Proof.
  revert a. induction l as [|x l IH]; intros a H.
  - cbn [fold_left]. unfold len. cbn [List.length Z.of_nat].
    change (ZtoQ 0) with 0%Q. split; ring_simplify; apply Qle_refl.
  - cbn [fold_left]. rewrite len_cons.
    assert (Hx : (lo <= f x <= hi)%Q) by (apply H; now left).
    assert (Hl : forall y, In y l -> (lo <= f y <= hi)%Q)
      by (intros; apply H; now right).
    specialize (IH (a + f x)%Q Hl). destruct IH as [IH1 IH2].
    unfold ZtoQ in *. rewrite inject_Z_plus. change (inject_Z 1) with 1%Q.
    split.
    + eapply Qle_trans; [|exact IH1].
      setoid_replace (a + lo * (inject_Z (len l) + 1))%Q
        with ((a + lo) + lo * inject_Z (len l))%Q by ring.
      apply Qplus_le_l, Qplus_le_r, Hx.
    + eapply Qle_trans; [exact IH2|].
      setoid_replace (a + hi * (inject_Z (len l) + 1))%Q
        with ((a + hi) + hi * inject_Z (len l))%Q by ring.
      apply Qplus_le_l, Qplus_le_r, Hx.
Qed.

Lemma ratio_range (q : QuizEvaluation) :
  0 <= score q <= total q -> 0 < total q -> (0 <= ratio q <= 1)%Q.
Proof.
  intros Hs Ht. unfold ratio.
  change 0%Q with (ZtoQ 0). change 1%Q with (ZtoQ 1). split.
  - apply Qdiv_ge_iff; lia.
  - apply Qdiv_le_iff; lia.
Qed.

Lemma In_present {A B : Type} (f : A -> option B) (l : list A) (y : B) :
  In y (present f l) <-> exists x, In x l /\ f x = Some y.
Proof.
  induction l as [|x l IH]; cbn [present].
  - split; [intros [] | intros (x & [] & _)].
  - destruct (f x) as [z|] eqn:E.
    + cbn [In]. rewrite IH. split.
      * intros [<-|(x' & Hx' & Hf)]; [exists x; split; [now left|exact E]|].
        exists x'. split; [now right | exact Hf].
      * intros (x' & [<-|Hx'] & Hf); [left; congruence|].
        right. now exists x'.
    + rewrite IH. split.
      * intros (x' & Hx' & Hf). exists x'. split; [now right | exact Hf].
      * intros (x' & [<-|Hx'] & Hf); [congruence|]. now exists x'.
Qed.

Lemma Math_round_mono (x y : Q) : (x <= y)%Q -> Math_round x <= Math_round y.
Proof.
  intros H. unfold Math_round. apply Qfloor_resp_le.
  now apply Qplus_le_l.
Qed.

(** X14.  The goal-completion figure is [round(100 * completed / records)]
    with every record in the denominator, a record without a goal
    included: it lies between 0 and 100, is 0 for no records and when no
    record has a completed goal, and is 100 when every record has one. *)
Theorem goalCompletion_range (allEntries : list DailyEntry) :
  0 <= goalCompletion allEntries <= 100 /\
  (allEntries = [] -> goalCompletion allEntries = 0) /\
  ((forall e, In e allEntries -> goalCompleted e = false) ->
   goalCompletion allEntries = 0) /\
  (allEntries <> [] -> (forall e, In e allEntries -> goalCompleted e = true) ->
   goalCompletion allEntries = 100) /\
  (allEntries <> [] ->
   let c := len (filter goalCompleted allEntries) in
   let n := len allEntries in
   2 * n * goalCompletion allEntries <= 200 * c + n
     < 2 * n * (goalCompletion allEntries + 1)).
Proof.
  unfold goalCompletion. cbv zeta.
  set (c := len (filter goalCompleted allEntries)).
  set (n := len allEntries).
  assert (Hc : 0 <= c <= n)
    by (split; [apply len_nonneg | apply len_filter_le]).
  destruct (0 <? n) eqn:E.
  - apply Z.ltb_lt in E.
    rewrite (Math_round_Qeq _ _ (percent_Qeq c n)).
    pose proof (Math_round_percent_bounds c n Hc E) as Hb.
    pose proof (Math_round_div_spec (100 * c) n E) as Hspec. cbv zeta in Hspec.
    split; [exact Hb|]. split; [|split; [|split]].
    + intros ->. unfold n, len in E. cbn in E. lia.
    + intros Hnone. assert (c = 0) by (apply len_filter_none; exact Hnone). nia.
    + intros _ Hall. assert (c = n) by (apply len_filter_all; exact Hall). nia.
    + intros _. lia.
  - apply Z.ltb_ge in E. split; [lia|]. split; [reflexivity|].
    split; [reflexivity|].
    assert (Hnil : allEntries = []).
    { apply len_zero_iff. apply Z.eqb_eq. fold n. lia. }
    split; intros Hne; now contradiction Hne.
Qed.

(** X15.  For well-formed records the test-performance figure lies
    between 0 and 100 and the reflection-depth figure between 0 and 5, at
    least 1 as soon as one record has a reflection. *)
Theorem kpi_ranges (allEntries : list DailyEntry) :
  (forall e, In e allEntries -> wfEntry e) ->
  0 <= avgTestPerformance allEntries <= 100 /\
  (0 <= kpiReflectionDepth allEntries <= 5)%Q /\
  (present reflection allEntries <> [] ->
   (1 <= kpiReflectionDepth allEntries)%Q).
Proof.
  intros Hwf. split; [|].
  - unfold avgTestPerformance. cbv zeta.
    set (qs := present quizEvaluation allEntries).
    destruct (0 <? len qs) eqn:E; [|lia].
    apply Z.ltb_lt in E.
    assert (Hq : forall q, In q qs -> (0 <= ratio q <= 1)%Q).
    { intros q Hin. apply In_present in Hin. destruct Hin as (e & He & Hf).
      destruct (Hwf e He) as [_ Hq]. destruct (Hq q Hf) as [Hs Ht].
      now apply ratio_range. }
    pose proof (reduceQ_acc ratio qs 0 0 1 Hq) as [Hlo Hhi].
    fold (reduceQ ratio qs) in Hlo, Hhi.
    assert (Hn : (0 < ZtoQ (len qs))%Q).
    { unfold ZtoQ. change 0%Q with (inject_Z 0). rewrite <- Zlt_Qlt. exact E. }
    assert (H0 : (0 <= reduceQ ratio qs / ZtoQ (len qs) * 100)%Q).
    { apply Qmult_le_0_compat; [|discriminate].
      apply Qle_shift_div_l; [exact Hn|].
      eapply Qle_trans; [|exact Hlo]. ring_simplify. apply Qle_refl. }
    assert (H1 : (reduceQ ratio qs / ZtoQ (len qs) * 100 <= 100)%Q).
    { setoid_replace 100%Q with (1 * 100)%Q at 2 by ring.
      apply Qmult_le_r; [reflexivity|].
      apply Qle_shift_div_r; [exact Hn|].
      eapply Qle_trans; [exact Hhi|]. ring_simplify. apply Qle_refl. }
    split.
    + change 0 with (Math_round 0). now apply Math_round_mono.
    + change 100 with (Math_round 100). now apply Math_round_mono.
  - unfold kpiReflectionDepth. cbv zeta.
    set (rs := present reflection allEntries).
    destruct (0 <? len rs) eqn:E.
    + apply Z.ltb_lt in E.
      assert (Hr : forall r, In r rs -> 1 <= depth r <= 5).
      { intros r Hin. apply In_present in Hin. destruct Hin as (e & He & Hf).
        destruct (Hwf e He) as [Hr _]. now apply Hr. }
      pose proof (sumOver_bounds depth rs 1 5 Hr) as Hsum.
      rewrite reduceZ_sumOver.
      set (S := sumOver depth rs) in *. set (n := len rs) in *.
      rewrite (Math_round_Qeq _ (ZtoQ (10 * S) / ZtoQ n)%Q).
      * rewrite Math_round_div by exact E.
        assert (Hb : 10 <= (2 * (10 * S) + n) / (2 * n) <= 50).
        { split; [apply Z.div_le_lower_bound; lia|].
          enough ((2 * (10 * S) + n) / (2 * n) < 51) by lia.
          apply Z.div_lt_upper_bound; lia. }
        change 10%Q with (ZtoQ 10). change 0%Q with (ZtoQ 0).
        change 5%Q with (ZtoQ 5). change 1%Q with (ZtoQ 1).
        split; [split|intros _].
        -- apply Qdiv_ge_iff; lia.
        -- apply Qdiv_le_iff; lia.
        -- apply Qdiv_ge_iff; lia.
      * unfold ZtoQ, Qdiv. rewrite inject_Z_mult.
        change (inject_Z 10) with 10%Q. ring.
    + apply Z.ltb_ge in E. split; [split; discriminate|].
      intros Hne. exfalso. apply Hne. apply len_zero_iff, Z.eqb_eq.
      pose proof (len_nonneg rs). lia.
Qed.

(** X16.  The dashboard series has four points whose goal values lie
    between 0 and 100, the second at most the first and the first at most
    the third; the first and the last point are equal. *)
Theorem dashboardEngagement_goals (allEntries : list DailyEntry) :
  exists w1 w2 w3 w4,
    dashboardEngagement allEntries = [w1; w2; w3; w4] /\
    0 <= goals w2 <= goals w1 /\ goals w1 <= goals w3 <= 100 /\
    goals w1 = goalCompletion allEntries /\
    goals w4 = goals w1 /\ reflections w4 = reflections w1 /\
    confidence w4 = confidence w1.
Proof.
  assert (Hb : 0 <= goalCompletion allEntries <= 100).
  { unfold goalCompletion. cbv zeta.
    destruct (0 <? len allEntries) eqn:E; [|lia].
    apply Z.ltb_lt in E.
    rewrite (Math_round_Qeq _ _ (percent_Qeq _ _)).
    apply Math_round_percent_bounds; [|exact E].
    split; [apply len_nonneg | apply len_filter_le]. }
  unfold dashboardEngagement, engagementData.
  do 4 eexists. split; [reflexivity|]. cbn [goals reflections confidence].
  repeat split; lia.
Qed.

(** ** The document store: collections *)

Lemma getDoc_setDoc_same {V : Type} (k : string) (v : V) (c : list (string * V)) :
  getDoc k (setDoc k v c) = Some v.
Proof.
  induction c as [|[k' v'] c IH]; cbn [setDoc getDoc].
  - now rewrite String.eqb_refl.
  - destruct (String.eqb k' k) eqn:E; cbn [getDoc]; rewrite E; [reflexivity|exact IH].
Qed.

Lemma getDoc_setDoc_other {V : Type} (k k' : string) (v : V) (c : list (string * V)) :
  k' <> k -> getDoc k' (setDoc k v c) = getDoc k' c.
Proof.
  intros Hne. induction c as [|[k0 v0] c IH]; cbn [setDoc getDoc].
  - apply String.eqb_neq in Hne. rewrite String.eqb_sym in Hne. now rewrite Hne.
  - destruct (String.eqb k0 k) eqn:E; cbn [getDoc].
    + apply String.eqb_eq in E. subst k0.
      apply String.eqb_neq in Hne. rewrite String.eqb_sym in Hne. now rewrite Hne.
    + now rewrite IH.
Qed.

Lemma setDoc_setDoc {V : Type} (k : string) (v v' : V) (c : list (string * V)) :
  setDoc k v (setDoc k v' c) = setDoc k v c.
Proof.
  induction c as [|[k0 v0] c IH]; cbn [setDoc].
  - now rewrite String.eqb_refl.
  - destruct (String.eqb k0 k) eqn:E; cbn [setDoc]; rewrite E; [reflexivity|].
    now rewrite IH.
Qed.

Lemma setDoc_keys {V : Type} (k : string) (v : V) (c : list (string * V)) :
  getDoc k c <> None -> map fst (setDoc k v c) = map fst c.
Proof.
  induction c as [|[k0 v0] c IH]; cbn [setDoc getDoc map fst]; intros H.
  - now contradiction H.
  - destruct (String.eqb k0 k); [reflexivity|]. cbn [map fst]. now rewrite IH.
Qed.

Lemma getDoc_deleteDoc_same {V : Type} (k : string) (c : list (string * V)) :
  getDoc k (deleteDoc k c) = None.
Proof.
  unfold deleteDoc. induction c as [|[k0 v0] c IH]; cbn [filter getDoc fst].
  - reflexivity.
  - destruct (String.eqb k0 k) eqn:E; cbn [negb]; [exact IH|].
    cbn [getDoc]. now rewrite E.
Qed.

Lemma getDoc_deleteDoc_other {V : Type} (k k' : string) (c : list (string * V)) :
  k' <> k -> getDoc k' (deleteDoc k c) = getDoc k' c.
Proof.
  intros Hne. unfold deleteDoc.
  induction c as [|[k0 v0] c IH]; cbn [filter getDoc fst]; [reflexivity|].
  destruct (String.eqb k0 k) eqn:E; cbn [negb getDoc].
  - apply String.eqb_eq in E. subst k0.
    apply String.eqb_neq in Hne. rewrite String.eqb_sym in Hne.
    now rewrite Hne.
  - now rewrite IH.
Qed.

Section StoreProperties.

Variable getTime : string -> Z.
Variable tz : Z.
Variable now : Z.

(** ** Saving a record *)

Lemma sameKey_docKey (sid : string) (day : Z) (d : EntryDoc) :
  sameKey sid day d = true <-> docKey d = (sid, day).
Proof.
  unfold sameKey, docKey. rewrite andb_true_iff, String.eqb_eq, Z.eqb_eq.
  split; [intros [-> ->]; reflexivity | intros H; injection H; auto].
Qed.

Lemma filter_sameKey_nil (sid : string) (day : Z) (docs : list EntryDoc) :
  filter (sameKey sid day) docs = [] <-> ~ In (sid, day) (map docKey docs).
Proof.
  induction docs as [|d ds IH]; cbn [filter map In].
  - tauto.
  - destruct (sameKey sid day d) eqn:E.
    + apply sameKey_docKey in E. split; [discriminate|]. intros H. exfalso. auto.
    + split.
      * intros H [Hd|Hin]; [|now apply IH in H].
        apply sameKey_docKey in Hd. congruence.
      * intros H. apply IH. tauto.
Qed.

Lemma updateFirst_keys (p : EntryDoc -> bool) (f : EntryDoc -> EntryDoc)
  (docs : list EntryDoc) :
  (forall d, p d = true -> docKey (f d) = docKey d) ->
  map docKey (updateFirst p f docs) = map docKey docs.
Proof.
  intros H. induction docs as [|d ds IH]; cbn [updateFirst map]; [reflexivity|].
  destruct (p d) eqn:E; cbn [map]; [now rewrite H | now rewrite IH].
Qed.

Lemma docKey_mergeEntry (old : EntryDoc) (sid : string) (entry : DailyEntry) :
  docKey (mergeEntry getTime old sid entry)
  = (sid, toISODate (getTime (date entry))).
Proof. reflexivity. Qed.

(** X17.  Saving a record keeps the collection at one document per
    student and UTC date, each filed under the UTC date of its own date
    stamp. *)
Theorem upsert_keeps_one_per_date (sid : string) (entry : DailyEntry)
  (docs : list EntryDoc) :
  (uniqueKeys docs -> uniqueKeys (upsertEntry getTime sid entry docs)) /\
  (filedByDate getTime docs -> filedByDate getTime (upsertEntry getTime sid entry docs)).
Proof.
  unfold upsertEntry. cbv zeta.
  set (day := toISODate (getTime (date entry))).
  destruct (filter (sameKey sid day) docs) as [|o os] eqn:E.
  - split.
    + intros Hu. unfold uniqueKeys in *. rewrite map_app. cbn [map].
      apply NoDup_app; [exact Hu | repeat constructor; intros [] |].
      intros k Hk [<-|[]]. apply filter_sameKey_nil in E. now apply E.
    + intros Hf. unfold filedByDate in *. apply Forall_app. split; [exact Hf|].
      repeat constructor.
  - split.
    + intros Hu. unfold uniqueKeys in *. rewrite updateFirst_keys; [exact Hu|].
      intros d Hd. rewrite docKey_mergeEntry. symmetry.
      now apply sameKey_docKey.
    + intros Hf. unfold filedByDate in *. clear E.
      induction Hf as [|d ds Hd Hds IH]; cbn [updateFirst]; [constructor|].
      destruct (sameKey sid day d); constructor; try assumption. reflexivity.
Qed.

Lemma filter_updateFirst_unique (sid : string) (day : Z)
  (f : EntryDoc -> EntryDoc) (docs : list EntryDoc) :
  uniqueKeys docs ->
  (forall d, sameKey sid day (f d) = true) ->
  forall o os, filter (sameKey sid day) docs = o :: os ->
  os = [] /\
  filter (sameKey sid day) (updateFirst (sameKey sid day) f docs) = [f o].
Proof.
  intros Hu Hf. induction docs as [|d ds IH]; intros o os E; [discriminate|].
  unfold uniqueKeys in Hu. cbn [map] in Hu.
  inversion Hu as [|? ? Hnotin Hu']; subst.
  cbn [filter updateFirst] in *.
  destruct (sameKey sid day d) eqn:Ed.
  - injection E as <- <-.
    apply sameKey_docKey in Ed. rewrite Ed in Hnotin.
    apply filter_sameKey_nil in Hnotin. rewrite Hnotin.
    split; [reflexivity|]. cbn [filter]. now rewrite Hf, Hnotin.
  - cbn [filter]. rewrite Ed. now apply IH.
Qed.

(** X18.  After a save the collection holds exactly one document for the
    student and the UTC date of the record: the record itself when none
    was stored, else the stored document with the date stamp and every
    field the record defines replaced, a field the record leaves undefined
    keeping its stored value. *)
Theorem upsert_then_lookup (sid : string) (entry : DailyEntry)
  (docs : list EntryDoc) :
  uniqueKeys docs ->
  let day := toISODate (getTime (date entry)) in
  let old := filter (sameKey sid day) docs in
  exists d,
    filter (sameKey sid day) (upsertEntry getTime sid entry docs) = [d] /\
    doc_date d = date entry /\ timestamp d = getTime (date entry) /\
    doc_goal d =
      match goal entry, old with
      | Some g, _ => Some g
      | None, o :: _ => doc_goal o
      | None, [] => None
      end /\
    doc_reflection d =
      match reflection entry, old with
      | Some r, _ => Some r
      | None, o :: _ => doc_reflection o
      | None, [] => None
      end /\
    doc_quizEvaluation d =
      match quizEvaluation entry, old with
      | Some q, _ => Some q
      | None, o :: _ => doc_quizEvaluation o
      | None, [] => None
      end.
Proof.
  intros Hu day old. unfold upsertEntry. cbv zeta. fold day. fold old.
  destruct old as [|o os] eqn:E.
  - exists (newEntryDoc getTime sid entry). split.
    + rewrite filter_app. unfold old in E. rewrite E. cbn [app filter].
      assert (Hk : sameKey sid day (newEntryDoc getTime sid entry) = true)
        by (apply sameKey_docKey; reflexivity).
      now rewrite Hk.
    + cbn [newEntryDoc doc_date timestamp doc_goal doc_reflection doc_quizEvaluation].
      split; [reflexivity|]. split; [reflexivity|].
      split; [destruct (goal entry); reflexivity|].
      split; [destruct (reflection entry); reflexivity
             | destruct (quizEvaluation entry); reflexivity].
  - exists (mergeEntry getTime o sid entry). split.
    + apply (filter_updateFirst_unique sid day
               (fun d => mergeEntry getTime d sid entry) docs Hu) with (os := os).
      * intros d. apply sameKey_docKey. reflexivity.
      * exact E.
    + cbn [mergeEntry doc_date timestamp doc_goal doc_reflection doc_quizEvaluation].
      split; [reflexivity|]. split; [reflexivity|].
      split; [destruct (goal entry); reflexivity|].
      split; [destruct (reflection entry); reflexivity
             | destruct (quizEvaluation entry); reflexivity].
Qed.

Lemma filter_updateFirst_others (p : EntryDoc -> bool) (f : EntryDoc -> EntryDoc)
  (docs : list EntryDoc) :
  (forall d, p d = true -> p (f d) = true) ->
  filter (fun d => negb (p d)) (updateFirst p f docs)
  = filter (fun d => negb (p d)) docs.
Proof.
  intros H. induction docs as [|d ds IH]; cbn [updateFirst filter]; [reflexivity|].
  destruct (p d) eqn:E; cbn [negb filter].
  - now rewrite (H d E).
  - rewrite E. cbn [negb]. now rewrite IH.
Qed.

Lemma len_updateFirst (p : EntryDoc -> bool) (f : EntryDoc -> EntryDoc)
  (docs : list EntryDoc) : len (updateFirst p f docs) = len docs.
Proof.
  induction docs as [|d ds IH]; cbn [updateFirst]; [reflexivity|].
  destruct (p d); rewrite !len_cons; [reflexivity | now rewrite IH].
Qed.

(** X19.  A save leaves the documents of every other student and date as
    they are, in their order, and adds one document when none was stored
    for the student and date, none otherwise. *)
Theorem upsert_frame (sid : string) (entry : DailyEntry) (docs : list EntryDoc) :
  let day := toISODate (getTime (date entry)) in
  filter (fun d => negb (sameKey sid day d)) (upsertEntry getTime sid entry docs)
  = filter (fun d => negb (sameKey sid day d)) docs /\
  len (upsertEntry getTime sid entry docs)
  = len docs + (if existsb (sameKey sid day) docs then 0 else 1).
Proof.
  cbv zeta. unfold upsertEntry. cbv zeta.
  set (day := toISODate (getTime (date entry))).
  destruct (filter (sameKey sid day) docs) as [|o os] eqn:E.
  - assert (Hex : existsb (sameKey sid day) docs = false).
    { apply existsb_false_iff. intros d Hd.
      destruct (sameKey sid day d) eqn:Ed; [|reflexivity].
      assert (In d (filter (sameKey sid day) docs)) by (apply filter_In; now split).
      rewrite E in H. contradiction. }
    rewrite Hex. split.
    + rewrite filter_app. cbn [filter].
      assert (Hk : sameKey sid day (newEntryDoc getTime sid entry) = true)
        by (apply sameKey_docKey; reflexivity).
      rewrite Hk. cbn [negb]. apply app_nil_r.
    + rewrite len_app. reflexivity.
  - assert (Hex : existsb (sameKey sid day) docs = true).
    { apply existsb_exists. exists o.
      assert (Ho : In o (filter (sameKey sid day) docs)) by (rewrite E; now left).
      apply filter_In in Ho. exact Ho. }
    rewrite Hex. split.
    + apply filter_updateFirst_others. intros d _.
      apply sameKey_docKey. reflexivity.
    + rewrite len_updateFirst. lia.
Qed.

(** ** Loading a student *)

Lemma checkAndAwardBadges_again (student : StudentData) :
  checkAndAwardBadges (checkAndAwardBadges student) = checkAndAwardBadges student.
Proof.
  destruct (checkAndAwardBadges_map student) as (m & Heq & Hm & Hwf & Hkeys).
  cbv zeta in *.
  rewrite Heq at 1. unfold checkAndAwardBadges at 1.
  cbn [badges entries student_streak student_consistencyScore studentId
       student_name student_dailyEngagement].
  rewrite (Map_new_values m Hwf).
  rewrite (award_present _ "streak-7" m)
    by (intros Hc; apply Hkeys; right; left; now split).
  rewrite (award_present _ "consistency-90" m)
    by (intros Hc; apply Hkeys; right; right; left; now split).
  rewrite (award_present _ "deep-thinker" m)
    by (intros Hc; apply Hkeys; right; right; right; left; now split).
  rewrite (award_present _ "quiz-whiz" m)
    by (intros Hc; apply Hkeys; right; right; right; right; now split).
  symmetry. exact Heq.
Qed.

Lemma checkAndAwardBadges_eta (student : StudentData) :
  checkAndAwardBadges student =
  {| studentId := studentId student;
     student_name := student_name student;
     student_consistencyScore := student_consistencyScore student;
     student_streak := student_streak student;
     badges := badges (checkAndAwardBadges student);
     entries := entries student;
     student_dailyEngagement := student_dailyEngagement student |}.
Proof. reflexivity. Qed.

Lemma StronglySorted_weaken {A : Type} (R S : A -> A -> Prop) (l : list A) :
  (forall a b, R a b -> S a b) -> StronglySorted R l -> StronglySorted S l.
Proof.
  intros H. induction 1 as [|x l Hs IH Hx]; constructor; [exact IH|].
  rewrite Forall_forall in Hx |- *. intros y Hy. apply H, Hx, Hy.
Qed.

(** The aggregate and the stored document of a load that finds the student
    document. *)
Lemma getStudentData_existing (sid : string) (name : option string) (st : Store)
  (stored : StudentData) :
  getDoc sid (studentDocs st) = Some stored ->
  let sorted := Array_sort (byDateDescending getTime)
                  (map entryOfDoc (entriesOfStudent sid (entryDocs st))) in
  let cs := calculateConsistencyAndStreak getTime tz now sorted in
  let de := calculateDailyEngagement getTime tz now sorted in
  let data := checkAndAwardBadges
    {| studentId := studentId stored; student_name := student_name stored;
       student_consistencyScore := consistencyScore cs;
       student_streak := streak cs; badges := badges stored;
       entries := sorted; student_dailyEngagement := Some de |} in
  getStudentData getTime tz now sid name st =
  (data,
   {| studentDocs :=
        setDoc sid
          {| studentId := studentId stored; student_name := student_name stored;
             student_consistencyScore := consistencyScore cs;
             student_streak := streak cs; badges := badges data;
             entries := entries stored; student_dailyEngagement := Some de |}
          (studentDocs st);
      entryDocs := entryDocs st; userDocs := userDocs st;
      adminDocs := adminDocs st |}).
Proof.
  intros H. cbv zeta. unfold getStudentData. rewrite H. reflexivity.
Qed.

(** X20.  Loading a student whose document exists returns the student's
    stored records newest first, with the consistency score, the streak
    and the engagement metrics computed from them and every badge the
    document held; it writes these figures and badges to the student
    document and changes nothing else in the store. *)
Theorem load_existing_student (sid : string) (name : option string) (st : Store)
  (stored : StudentData) :
  getDoc sid (studentDocs st) = Some stored ->
  let data := fst (getStudentData getTime tz now sid name st) in
  let st' := snd (getStudentData getTime tz now sid name st) in
  Permutation (entries data)
    (map entryOfDoc (entriesOfStudent sid (entryDocs st))) /\
  StronglySorted (fun a b => entryTime getTime b <= entryTime getTime a)
    (entries data) /\
  student_consistencyScore data
    = consistencyScore (calculateConsistencyAndStreak getTime tz now (entries data)) /\
  student_streak data
    = streak (calculateConsistencyAndStreak getTime tz now (entries data)) /\
  student_dailyEngagement data
    = Some (calculateDailyEngagement getTime tz now (entries data)) /\
  (forall k, In k (badge_ids (badges stored)) -> In k (badge_ids (badges data))) /\
  (exists written,
     getDoc sid (studentDocs st') = Some written /\
     badges written = badges data /\
     student_consistencyScore written = student_consistencyScore data /\
     student_streak written = student_streak data /\
     student_dailyEngagement written = student_dailyEngagement data /\
     entries written = entries stored) /\
  (forall k, k <> sid -> getDoc k (studentDocs st') = getDoc k (studentDocs st)) /\
  entryDocs st' = entryDocs st /\ userDocs st' = userDocs st /\
  adminDocs st' = adminDocs st.
Proof.
  intros H. cbv zeta.
  rewrite (getStudentData_existing sid name st stored H). cbv zeta.
  cbn [fst snd studentDocs entryDocs userDocs adminDocs].
  set (sorted := Array_sort (byDateDescending getTime)
                   (map entryOfDoc (entriesOfStudent sid (entryDocs st)))).
  split; [apply Array_sort_perm|]. split.
  { apply (StronglySorted_weaken (keyLe (fun e => - entryTime getTime e))).
    - unfold keyLe. intros a b Hab. lia.
    - apply (Array_sort_sorted (byDateDescending getTime)
               (fun e => - entryTime getTime e)
               (byDateDescending_key getTime)). }
  split; [reflexivity|]. split; [reflexivity|]. split; [reflexivity|].
  split.
  { intros k Hk. apply checkAndAwardBadges_ids. left. exact Hk. }
  split.
  { eexists. split; [apply getDoc_setDoc_same|]. repeat split. }
  split; [intros k Hk; now apply getDoc_setDoc_other|].
  repeat split.
Qed.

(** X21.  Loading a student whose document exists a second time returns
    the same aggregate and leaves the store as the first load left it. *)
Theorem load_twice (sid : string) (name1 name2 : option string) (st : Store)
  (stored : StudentData) :
  getDoc sid (studentDocs st) = Some stored ->
  let first := getStudentData getTime tz now sid name1 st in
  getStudentData getTime tz now sid name2 (snd first) = first.
Proof.
  intros H. cbv zeta.
  rewrite (getStudentData_existing sid name1 st stored H). cbv zeta.
  cbn [snd].
  set (sorted := Array_sort (byDateDescending getTime)
                   (map entryOfDoc (entriesOfStudent sid (entryDocs st)))).
  set (cs := calculateConsistencyAndStreak getTime tz now sorted).
  set (de := calculateDailyEngagement getTime tz now sorted).
  set (X := {| studentId := studentId stored; student_name := student_name stored;
               student_consistencyScore := consistencyScore cs;
               student_streak := streak cs; badges := badges stored;
               entries := sorted; student_dailyEngagement := Some de |}).
  set (written := {| studentId := studentId stored;
                     student_name := student_name stored;
                     student_consistencyScore := consistencyScore cs;
                     student_streak := streak cs;
                     badges := badges (checkAndAwardBadges X);
                     entries := entries stored;
                     student_dailyEngagement := Some de |}).
  rewrite (getStudentData_existing sid name2 _ written)
    by (cbn [studentDocs]; apply getDoc_setDoc_same).
  cbv zeta. cbn [studentDocs entryDocs userDocs adminDocs].
  fold sorted. fold cs. fold de.
  cbn [studentId student_name badges entries written].
  assert (HX : {| studentId := studentId stored; student_name := student_name stored;
                  student_consistencyScore := consistencyScore cs;
                  student_streak := streak cs;
                  badges := badges (checkAndAwardBadges X);
                  entries := sorted; student_dailyEngagement := Some de |}
               = checkAndAwardBadges X)
    by (symmetry; apply (checkAndAwardBadges_eta X)).
  rewrite HX, checkAndAwardBadges_again, setDoc_setDoc. reflexivity.
Qed.

Lemma student_dates_distinct (sid : string) (docs : list EntryDoc) :
  uniqueKeys docs -> NoDup (map dateString (entriesOfStudent sid docs)).
Proof.
  unfold uniqueKeys, entriesOfStudent.
  induction docs as [|d ds IH]; intros Hu; cbn [filter map]; [constructor|].
  cbn [map] in Hu. inversion Hu as [|? ? Hnotin Hu']; subst.
  destruct (String.eqb (doc_studentId d) sid) eqn:E; [|now apply IH].
  cbn [map]. constructor; [|now apply IH].
  intros Hin. apply Hnotin. apply in_map_iff in Hin.
  destruct Hin as (d' & Hday & Hd'). apply filter_In in Hd'.
  destruct Hd' as [Hd' Hs]. apply in_map_iff. exists d'. split; [|exact Hd'].
  apply String.eqb_eq in E, Hs. unfold docKey. congruence.
Qed.

(** X22.  In a UTC browser, on a store with one document per student and
    UTC date, each filed under its own date, and no record of the student
    dated after today, the streak a load returns is the number of
    consecutive active days ending today. *)
Theorem stored_streak_counts_days (sid : string) (name : option string)
  (st : Store) (stored : StudentData) :
  getDoc sid (studentDocs st) = Some stored ->
  uniqueKeys (entryDocs st) ->
  filedByDate getTime (entryDocs st) ->
  (forall d, In d (entryDocs st) -> doc_studentId d = sid ->
     dateString d <= toISODate now) ->
  let data := fst (getStudentData getTime 0 now sid name st) in
  IsStreak getTime 0 now (entries data) (student_streak data) /\
  (forall n, IsStreak getTime 0 now (entries data) n -> n = student_streak data).
Proof.
  intros H Hu Hf Hpast.
  assert (Hdata : forall tz',
    getDoc sid (studentDocs st) = Some stored ->
    let sorted := Array_sort (byDateDescending getTime)
                    (map entryOfDoc (entriesOfStudent sid (entryDocs st))) in
    entries (fst (getStudentData getTime tz' now sid name st)) = sorted /\
    student_streak (fst (getStudentData getTime tz' now sid name st))
    = streak (calculateConsistencyAndStreak getTime tz' now sorted)).
  { intros tz' H'. cbv zeta. unfold getStudentData. rewrite H'. split; reflexivity. }
  cbv zeta. destruct (Hdata 0 H) as [He Hs]. cbv zeta in He, Hs.
  rewrite He, Hs.
  set (mine := map entryOfDoc (entriesOfStudent sid (entryDocs st))).
  set (sorted := Array_sort (byDateDescending getTime) mine).
  assert (Hperm : Permutation sorted mine) by apply Array_sort_perm.
  assert (Hday : forall d, In d (entriesOfStudent sid (entryDocs st)) ->
            entryDay getTime 0 (entryOfDoc d) = dateString d).
  { intros d Hd. unfold entriesOfStudent in Hd. apply filter_In in Hd.
    destruct Hd as [Hd _]. unfold filedByDate in Hf.
    rewrite Forall_forall in Hf. rewrite (Hf d Hd).
    unfold entryDay, entryTime, localDay, toISODate. cbn [entryOfDoc date].
    now rewrite Z.add_0_r. }
  assert (Hone : onePerDay getTime 0 sorted).
  { unfold onePerDay. eapply Permutation_NoDup;
      [apply Permutation_map, Permutation_sym, Hperm|].
    unfold mine. rewrite map_map.
    rewrite (map_ext_in _ dateString) by exact Hday.
    now apply student_dates_distinct. }
  assert (Hnone : noneAfterToday getTime 0 now sorted).
  { intros e He'. apply (Permutation_in _ Hperm) in He'.
    unfold mine in He'. apply in_map_iff in He'. destruct He' as (d & <- & Hd).
    rewrite (Hday d Hd).
    unfold entriesOfStudent in Hd. apply filter_In in Hd. destruct Hd as [Hd Hs'].
    apply String.eqb_eq in Hs'. specialize (Hpast d Hd Hs').
    unfold localDay, toISODate in *. now rewrite Z.add_0_r. }
  pose proof (streak_IsStreak getTime 0 now sorted Hone Hnone) as Hstreak.
  split; [exact Hstreak|].
  intros n Hn. exact (IsStreak_unique getTime 0 now sorted n _ Hn Hstreak).
Qed.

(** X23.  The first save for a student without a student document stores
    the record but returns a fresh aggregate without records; the next
    load returns the record. *)
Theorem first_save_returns_no_records (sid : string) (entry : DailyEntry)
  (st : Store) :
  getDoc sid (studentDocs st) = None ->
  let saved := addOrUpdateDailyEntry getTime tz now sid entry st in
  let next := getStudentData getTime tz now sid None (snd saved) in
  entries (fst saved) = [] /\ badges (fst saved) = [] /\
  student_consistencyScore (fst saved) = 0 /\ student_streak (fst saved) = 0 /\
  student_name (fst saved) = String.append "Student " sid /\
  (exists d, In d (entryDocs (snd saved)) /\ doc_studentId d = sid /\
             doc_date d = date entry) /\
  In (date entry) (map date (entries (fst next))).
Proof.
  intros H. cbv zeta. unfold addOrUpdateDailyEntry.
  set (st1 := {| studentDocs := studentDocs st;
                 entryDocs := upsertEntry getTime sid entry (entryDocs st);
                 userDocs := userDocs st; adminDocs := adminDocs st |}).
  assert (Hdoc : exists d, In d (entryDocs st1) /\ doc_studentId d = sid /\
                           doc_date d = date entry).
  { cbn [st1 entryDocs]. unfold upsertEntry. cbv zeta.
    set (day := toISODate (getTime (date entry))).
    destruct (filter (sameKey sid day) (entryDocs st)) as [|o os] eqn:E.
    - exists (newEntryDoc getTime sid entry). split; [|split; reflexivity].
      apply in_or_app. right. now left.
    - assert (Hin : forall docs, (exists o', In o' docs /\ sameKey sid day o' = true) ->
        exists d, In d (updateFirst (sameKey sid day)
                          (fun d => mergeEntry getTime d sid entry) docs) /\
                  doc_studentId d = sid /\ doc_date d = date entry).
      { induction docs as [|x xs IHx]; intros (o' & Ho' & Hk); [contradiction|].
        cbn [updateFirst]. destruct (sameKey sid day x) eqn:Ex.
        - eexists. split; [now left | split; reflexivity].
        - destruct Ho' as [->|Ho']; [congruence|].
          destruct (IHx (ex_intro _ o' (conj Ho' Hk))) as (d & Hd & Hrest).
          exists d. split; [now right | exact Hrest]. }
      apply Hin. exists o.
      assert (Ho : In o (filter (sameKey sid day) (entryDocs st)))
        by (rewrite E; now left).
      apply filter_In in Ho. exact Ho. }
  assert (Hfirst : getStudentData getTime tz now sid None st1 =
    ({| studentId := sid; student_name := String.append "Student " sid;
        student_consistencyScore := 0; student_streak := 0; badges := [];
        entries := []; student_dailyEngagement := None |},
     {| studentDocs := setDoc sid
          {| studentId := sid; student_name := String.append "Student " sid;
             student_consistencyScore := 0; student_streak := 0; badges := [];
             entries := []; student_dailyEngagement := None |} (studentDocs st);
        entryDocs := entryDocs st1; userDocs := userDocs st;
        adminDocs := adminDocs st |})).
  { unfold getStudentData. cbn [st1 studentDocs]. rewrite H. reflexivity. }
  rewrite Hfirst. cbn [fst snd entries badges student_consistencyScore
                       student_streak student_name entryDocs].
  repeat split; try exact Hdoc.
  erewrite getStudentData_existing
    by (cbn [studentDocs]; apply getDoc_setDoc_same).
  cbv zeta. cbn [fst entries entryDocs].
  destruct Hdoc as (d & Hd & Hs & Hdate).
  apply (Permutation_in _ (Permutation_sym
           (Permutation_map date (Array_sort_perm _ _)))).
  rewrite map_map. apply in_map_iff. exists d. split; [exact Hdate|].
  unfold entriesOfStudent. apply filter_In. split; [exact Hd|].
  now apply String.eqb_eq.
Qed.

End StoreProperties.

(** ** Users and their removal *)

Section UserProperties.

Variable now : Z.

Lemma getUserProfile_result (id : string) (st : Store) :
  fst (getUserProfile now id st) = getDoc id (userDocs st) /\
  studentDocs (snd (getUserProfile now id st)) = studentDocs st /\
  entryDocs (snd (getUserProfile now id st)) = entryDocs st /\
  adminDocs (snd (getUserProfile now id st)) = adminDocs st /\
  map fst (userDocs (snd (getUserProfile now id st))) = map fst (userDocs st) /\
  (forall k, option_map role (getDoc k (userDocs (snd (getUserProfile now id st))))
             = option_map role (getDoc k (userDocs st))).
Proof.
  unfold getUserProfile. destruct (getDoc id (userDocs st)) as [u|] eqn:E.
  - cbn [fst snd withUsers studentDocs entryDocs adminDocs userDocs].
    repeat split.
    + apply setDoc_keys. rewrite E. discriminate.
    + intros k. destruct (String.eqb k id) eqn:Ek.
      * apply String.eqb_eq in Ek. subst k.
        rewrite getDoc_setDoc_same, E. reflexivity.
      * apply String.eqb_neq in Ek. now rewrite getDoc_setDoc_other.
  - cbn [fst snd]. repeat split.
Qed.

(** X24.  After a profile is created the user's profile is found with the
    given role, the user has an admin document when the role is the admin
    role or one existed before (creating a student profile never removes
    it), and no other user's documents change. *)
Theorem create_then_lookup (user : AuthUser) (r : UserRole) (st : Store) :
  let p := fst (createUserProfile now user r st) in
  let st' := snd (createUserProfile now user r st) in
  fst (getUserProfile now (user_uid user) st') = Some p /\
  uid p = user_uid user /\ role p = r /\
  isUserAdmin (user_uid user) st'
    = isAdminRole r || isUserAdmin (user_uid user) st /\
  (forall k, k <> user_uid user ->
     getDoc k (userDocs st') = getDoc k (userDocs st) /\
     isUserAdmin k st' = isUserAdmin k st) /\
  studentDocs st' = studentDocs st /\ entryDocs st' = entryDocs st.
Proof.
  cbv zeta. unfold createUserProfile. cbv zeta.
  cbn [fst snd uid role studentDocs entryDocs].
  split.
  { rewrite (proj1 (getUserProfile_result _ _)). cbn [userDocs].
    apply getDoc_setDoc_same. }
  split; [reflexivity|]. split; [reflexivity|]. split.
  { unfold isUserAdmin. cbn [adminDocs]. destruct (isAdminRole r); cbn [orb].
    - now rewrite getDoc_setDoc_same.
    - reflexivity. }
  split; [|split; reflexivity].
  intros k Hk. cbn [userDocs]. split; [now apply getDoc_setDoc_other|].
  unfold isUserAdmin. cbn [adminDocs].
  destruct (isAdminRole r); [now rewrite getDoc_setDoc_other | reflexivity].
Qed.

Lemma isAdminRole_true (r : UserRole) : isAdminRole r = true <-> r = ADMIN.
Proof. destruct r; split; intros H; try reflexivity; discriminate. Qed.

Lemma removeUser_cases (userId adminUserId : string) (st : Store) :
  let st1 := snd (getUserProfile now adminUserId st) in
  let st2 := snd (getUserProfile now userId st1) in
  (fst (removeUser now userId adminUserId st) = Done tt /\
   snd (removeUser now userId adminUserId st) =
     {| studentDocs := deleteDoc userId (studentDocs st2);
        entryDocs := filter (fun d => negb (hasUserId userId d)) (entryDocs st2);
        userDocs := deleteDoc userId (userDocs st2);
        adminDocs := deleteDoc userId (adminDocs st2) |} /\
   exists a u,
     getDoc adminUserId (userDocs st) = Some a /\ role a = ADMIN /\
     getDoc userId (userDocs st) = Some u /\ role u <> ADMIN /\
     userId <> adminUserId)
  \/
  ((exists msg, fst (removeUser now userId adminUserId st) = Thrown msg) /\
   (snd (removeUser now userId adminUserId st) = st1 \/
    snd (removeUser now userId adminUserId st) = st2) /\
   ~ (exists a u,
        getDoc adminUserId (userDocs st) = Some a /\ role a = ADMIN /\
        getDoc userId (userDocs st) = Some u /\ role u <> ADMIN /\
        userId <> adminUserId)).
Proof.
  cbv zeta. unfold removeUser.
  destruct (getUserProfile_result adminUserId st) as (Hf1 & _ & _ & _ & _ & Hr1).
  destruct (getUserProfile now adminUserId st) as [ap st1] eqn:E1.
  cbn [fst snd] in *. subst ap.
  destruct (getDoc adminUserId (userDocs st)) as [a|] eqn:Ea.
  - destruct (isAdminRole (role a)) eqn:Erole; cbn [negb].
    + apply isAdminRole_true in Erole.
      destruct (getUserProfile_result userId st1) as (Hf2 & _).
      destruct (getUserProfile now userId st1) as [up st2] eqn:E2.
      cbn [fst snd] in *. subst up.
      destruct (getDoc userId (userDocs st1)) as [u|] eqn:Eu.
      * destruct (String.eqb userId adminUserId) eqn:Eeq.
        -- right. apply String.eqb_eq in Eeq.
           split; [eexists; reflexivity|]. split; [now right|].
           intros (a' & u' & _ & _ & _ & _ & Hne). contradiction.
        -- apply String.eqb_neq in Eeq.
           assert (Hu : option_map role (getDoc userId (userDocs st))
                        = Some (role u)).
           { rewrite <- (Hr1 userId), Eu. reflexivity. }
           destruct (getDoc userId (userDocs st)) as [u0|] eqn:Eu0;
             [|discriminate]. cbn [option_map] in Hu. injection Hu as Hu.
           destruct (isAdminRole (role u)) eqn:Eur.
           ++ right. apply isAdminRole_true in Eur.
              split; [eexists; reflexivity|]. split; [now right|].
              intros (a' & u' & _ & _ & Hu' & Hnot & _).
              injection Hu' as <-. congruence.
           ++ left. split; [reflexivity|]. split; [reflexivity|].
              exists a, u0. repeat split; try assumption.
              intros Hadm. rewrite Hu in Hadm.
              apply isAdminRole_true in Hadm. congruence.
      * right. split; [eexists; reflexivity|]. split; [now right|].
        intros (a' & u' & _ & _ & Hu' & _ & _).
        assert (Hu : option_map role (getDoc userId (userDocs st1))
                     = option_map role (getDoc userId (userDocs st)))
          by apply Hr1.
        rewrite Eu, Hu' in Hu. discriminate.
    + right. split; [eexists; reflexivity|]. split; [now left|].
      intros (a' & u' & Ha' & Hadm & _). injection Ha' as <-.
      apply isAdminRole_true in Hadm. congruence.
  - right. split; [eexists; reflexivity|]. split; [now left|].
    intros (a' & u' & Ha' & _). discriminate.
Qed.

(** X25.  A removal goes through exactly when the requester's profile has
    the admin role, the target has a profile without the admin role, and
    the two are different users; so an admin can remove neither the own
    account nor another admin.  When it is refused, no document is
    created or deleted: the students, the records and the admin documents
    are as before and the user collection holds the same ids. *)
Theorem removeUser_guard (userId adminUserId : string) (st : Store) :
  let result := removeUser now userId adminUserId st in
  (fst result = Done tt <->
   exists a u,
     getDoc adminUserId (userDocs st) = Some a /\ role a = ADMIN /\
     getDoc userId (userDocs st) = Some u /\ role u <> ADMIN /\
     userId <> adminUserId) /\
  (fst result <> Done tt ->
   studentDocs (snd result) = studentDocs st /\
   entryDocs (snd result) = entryDocs st /\
   adminDocs (snd result) = adminDocs st /\
   map fst (userDocs (snd result)) = map fst (userDocs st)).
Proof.
  cbv zeta. pose proof (removeUser_cases userId adminUserId st) as H.
  cbv zeta in H.
  destruct (getUserProfile_result adminUserId st) as (_ & Hs1 & He1 & Ha1 & Hk1 & _).
  destruct (getUserProfile_result userId (snd (getUserProfile now adminUserId st)))
    as (_ & Hs2 & He2 & Ha2 & Hk2 & _).
  destruct H as [(Hdone & _ & Hex) | ((msg & Hthrown) & Hst & Hnot)].
  - split; [split; [intros _; exact Hex | intros _; exact Hdone]|].
    intros Hne. contradiction.
  - split.
    + split; [intros Hd; rewrite Hd in Hthrown; discriminate|].
      intros Hex. contradiction.
    + intros _. destruct Hst as [-> | ->].
      * repeat split; assumption.
      * repeat split; congruence.
Qed.

(** X26.  A removal that goes through deletes the target's profile,
    student document and admin document and no other user's; of the
    records it deletes those with a [userId] field equal to the target, so
    every record without that field, as the service writes them, stays in
    the collection, the target's own records included. *)
Theorem removeUser_effect (userId adminUserId : string) (st : Store) :
  let result := removeUser now userId adminUserId st in
  fst result = Done tt ->
  getDoc userId (userDocs (snd result)) = None /\
  getDoc userId (studentDocs (snd result)) = None /\
  isUserAdmin userId (snd result) = false /\
  (forall k, k <> userId ->
     getDoc k (studentDocs (snd result)) = getDoc k (studentDocs st) /\
     isUserAdmin k (snd result) = isUserAdmin k st /\
     option_map role (getDoc k (userDocs (snd result)))
       = option_map role (getDoc k (userDocs st))) /\
  entryDocs (snd result)
    = filter (fun d => negb (hasUserId userId d)) (entryDocs st) /\
  ((forall d, In d (entryDocs st) -> doc_userId d = None) ->
   entryDocs (snd result) = entryDocs st /\
   entriesOfStudent userId (entryDocs (snd result))
     = entriesOfStudent userId (entryDocs st)).
Proof.
  cbv zeta. intros Hdone.
  pose proof (removeUser_cases userId adminUserId st) as H. cbv zeta in H.
  destruct (getUserProfile_result adminUserId st) as (_ & Hs1 & He1 & Ha1 & _ & Hr1).
  destruct (getUserProfile_result userId (snd (getUserProfile now adminUserId st)))
    as (_ & Hs2 & He2 & Ha2 & _ & Hr2).
  destruct H as [(_ & Hst & _) | ((msg & Hthrown) & _)];
    [|rewrite Hdone in Hthrown; discriminate].
  rewrite Hst. cbn [userDocs studentDocs entryDocs adminDocs].
  unfold isUserAdmin. cbn [adminDocs].
  rewrite Hs2, Hs1, He2, He1, Ha2, Ha1.
  split; [apply getDoc_deleteDoc_same|].
  split; [apply getDoc_deleteDoc_same|].
  split; [now rewrite getDoc_deleteDoc_same|].
  split.
  { intros k Hk. rewrite !getDoc_deleteDoc_other by exact Hk.
    repeat split. now rewrite Hr2, Hr1. }
  split; [reflexivity|].
  intros Hnone.
  assert (Hsame : filter (fun d => negb (hasUserId userId d)) (entryDocs st)
                  = entryDocs st).
  { apply filter_all. intros d Hd. unfold hasUserId.
    now rewrite (Hnone d Hd). }
  rewrite Hsame. split; reflexivity.
Qed.

(** X27.  With the option to delete the authentication account set and
    the requesting admin signed in, a complete removal never succeeds:
    either the removal of the documents is refused, or the documents are
    deleted and the authentication step then throws, the deletion staying
    in the store. *)
Theorem complete_removal_with_auth_fails (Browser : Type)
  (clearBrowserData : string -> Browser -> Outcome unit * Browser)
  (userId adminUserId : string) (options : UserDeletionOptions)
  (s : Session Browser) :
  opt_deleteAuthAccount options = Some true ->
  currentUser Browser s = Some adminUserId ->
  let result := removeUserCompletely now Browser clearBrowserData
                  userId adminUserId options s in
  (exists msg, fst result = Thrown msg) /\
  store Browser (snd result) = snd (removeUser now userId adminUserId (store Browser s)) /\
  browser Browser (snd result) = browser Browser s.
Proof.
  intros Hopt Hcur. cbv zeta. unfold removeUserCompletely. cbv zeta.
  rewrite Hopt. cbn [withDefault].
  pose proof (removeUser_cases userId adminUserId (store Browser s)) as H.
  cbv zeta in H.
  destruct (removeUser now userId adminUserId (store Browser s)) as [[[]|msg] st'] eqn:E.
  - destruct H as [(_ & _ & a & u & _ & _ & _ & _ & Hne) | ((m & Hm) & _)];
      [|discriminate].
    unfold deleteAuthStep. cbn [currentUser]. rewrite Hcur.
    assert (Heq : String.eqb adminUserId userId = false)
      by (apply String.eqb_neq; congruence).
    rewrite Heq. cbn [fst snd store browser].
    split; [eexists; reflexivity | split; reflexivity].
  - cbn [fst snd store browser]. split; [eexists; reflexivity | split; reflexivity].
Qed.

End UserProperties.

(** ** The weekly pattern *)

Section PanelProperties.

Variable getTime : string -> Z.
Variable tz : Z.

Lemma dayNameOf_In (e : DailyEntry) : In (dayNameOf getTime tz e) dayNames.
Proof.
  unfold dayNameOf, getDay. apply nth_In.
  pose proof (Z.mod_pos_bound (localDay tz (entryTime getTime e) + 4) 7).
  cbn [dayNames List.length]. lia.
Qed.

Lemma countOf_countUp (k k' : string) (acc : list (string * Z)) :
  countOf (countUp k acc) k'
  = countOf acc k' + (if String.eqb k' k then 1 else 0).
Proof.
  unfold countOf. induction acc as [|[k0 n] rest IH]; cbn [countUp getDoc].
  - rewrite (String.eqb_sym k k'). destruct (String.eqb k' k); reflexivity.
  - destruct (String.eqb k0 k) eqn:E; cbn [getDoc].
    + apply String.eqb_eq in E. subst k0.
      rewrite (String.eqb_sym k k').
      destruct (String.eqb k' k) eqn:E'.
      * destruct (n =? 0) eqn:En; [apply Z.eqb_eq in En|]; lia.
      * lia.
    + destruct (String.eqb k0 k') eqn:E'; [|exact IH].
      apply String.eqb_eq in E'. subst k0. rewrite E. lia.
Qed.

Lemma countUp_keys (k k' : string) (acc : list (string * Z)) :
  In k' (map fst (countUp k acc)) <-> k' = k \/ In k' (map fst acc).
Proof.
  induction acc as [|[k0 n] rest IH]; cbn [countUp map fst In].
  - intuition.
  - destruct (String.eqb k0 k) eqn:E; cbn [map fst In].
    + apply String.eqb_eq in E. subst k0. intuition.
    + rewrite IH. intuition.
Qed.

Lemma countUp_NoDup (k : string) (acc : list (string * Z)) :
  NoDup (map fst acc) -> NoDup (map fst (countUp k acc)).
Proof.
  induction acc as [|[k0 n] rest IH]; cbn [countUp map fst]; intros H.
  - repeat constructor. intros [].
  - inversion H as [|? ? Hnotin H']; subst.
    destruct (String.eqb k0 k) eqn:E; cbn [map fst]; [exact H|].
    constructor; [|now apply IH].
    rewrite countUp_keys. intros [->|Hin]; [|contradiction].
    now rewrite String.eqb_refl in E.
Qed.

Lemma countUp_sum (k : string) (acc : list (string * Z)) :
  sumOver snd (countUp k acc) = sumOver snd acc + 1.
Proof.
  induction acc as [|[k0 n] rest IH]; cbn [countUp]; [reflexivity|].
  destruct (String.eqb k0 k); rewrite !sumOver_cons; cbn [snd].
  - destruct (n =? 0) eqn:En; [apply Z.eqb_eq in En|]; lia.
  - rewrite IH. lia.
Qed.

Lemma countUp_positive (k : string) (acc : list (string * Z)) :
  Forall (fun p => 1 <= snd p) acc ->
  Forall (fun p => 1 <= snd p) (countUp k acc).
Proof.
  induction 1 as [|[k0 n] rest Hp Hrest IH]; cbn [countUp].
  - repeat constructor. cbn. lia.
  - cbn [snd] in Hp. destruct (String.eqb k0 k); constructor; try assumption.
    cbn [snd]. destruct (n =? 0); lia.
Qed.

Lemma weekly_fold (l : list DailyEntry) (acc : list (string * Z)) :
  let wa := fold_left (fun acc entry => countUp (dayNameOf getTime tz entry) acc) l acc in
  (NoDup (map fst acc) -> NoDup (map fst wa)) /\
  (incl (map fst acc) dayNames -> incl (map fst wa) dayNames) /\
  (forall k, countOf wa k
     = countOf acc k
       + len (filter (fun e => String.eqb (dayNameOf getTime tz e) k) l)) /\
  sumOver snd wa = sumOver snd acc + len l /\
  (Forall (fun p => 1 <= snd p) acc -> Forall (fun p => 1 <= snd p) wa).
Proof.
  revert acc. induction l as [|e l IH]; intros acc; cbn [fold_left filter].
  - cbv zeta. repeat split; try tauto; unfold len; cbn; intros; lia.
  - specialize (IH (countUp (dayNameOf getTime tz e) acc)). cbv zeta in *.
    destruct IH as (Hnd & Hincl & Hcount & Hsum & Hpos).
    split; [intros H; apply Hnd, countUp_NoDup, H|].
    split.
    { intros H. apply Hincl. intros k Hk. apply countUp_keys in Hk.
      destruct Hk as [->|Hk]; [apply dayNameOf_In | now apply H]. }
    split.
    { intros k. rewrite Hcount, countOf_countUp.
      rewrite (String.eqb_sym k).
      destruct (String.eqb (dayNameOf getTime tz e) k); rewrite ?len_cons; lia. }
    split; [rewrite Hsum, countUp_sum, len_cons; lia|].
    intros H. apply Hpos, countUp_positive, H.
Qed.

(** X28.  The weekly pattern holds one counter per day name that occurs,
    under a name of the week, and the counter of a day is the number of
    records on that day of the week; the counters are positive and add up
    to the number of records. *)
Theorem weeklyActivity_counts (entries : list DailyEntry) :
  let wa := weeklyActivity getTime tz entries in
  NoDup (map fst wa) /\ incl (map fst wa) dayNames /\
  (forall k, countOf wa k
     = len (filter (fun e => String.eqb (dayNameOf getTime tz e) k) entries)) /\
  sumOver snd wa = len entries /\
  Forall (fun p => 1 <= snd p) wa.
Proof.
  cbv zeta. unfold weeklyActivity. cbv zeta.
  set (sorted := Array_sort (byDateAscending getTime) entries).
  assert (Hperm : Permutation sorted entries) by apply Array_sort_perm.
  destruct (weekly_fold sorted []) as (Hnd & Hincl & Hcount & Hsum & Hpos).
  cbv zeta in *.
  split; [apply Hnd; constructor|].
  split; [apply Hincl; intros k []|].
  split.
  { intros k. rewrite Hcount.
    rewrite (len_perm _ _ (filter_perm _ _ _ Hperm)). reflexivity. }
  split; [rewrite Hsum, (len_perm _ _ Hperm); reflexivity|].
  apply Hpos. constructor.
Qed.

Lemma countOf_In (obj : list (string * Z)) (k : string) (n : Z) :
  NoDup (map fst obj) -> In (k, n) obj -> countOf obj k = n.
Proof.
  unfold countOf. induction obj as [|[k0 n0] rest IH]; intros Hnd Hin; [contradiction|].
  cbn [map fst] in Hnd. inversion Hnd as [|? ? Hnotin Hnd']; subst.
  cbn [getDoc]. destruct Hin as [Heq|Hin].
  - injection Heq as -> ->. now rewrite String.eqb_refl.
  - destruct (String.eqb k0 k) eqn:E; [|now apply IH].
    apply String.eqb_eq in E. subst k0. exfalso. apply Hnotin.
    apply in_map_iff. now exists (k, n).
Qed.

Lemma countOf_missing (obj : list (string * Z)) (k : string) :
  ~ In k (map fst obj) -> countOf obj k = 0.
Proof.
  unfold countOf. induction obj as [|[k0 n0] rest IH]; intros H; [reflexivity|].
  cbn [getDoc]. destruct (String.eqb k0 k) eqn:E.
  - apply String.eqb_eq in E. subst k0. exfalso. apply H. now left.
  - apply IH. intros Hin. apply H. now right.
Qed.

Lemma pick_max (cnt : string * Z -> Z) (xs : list (string * Z)) (x : string * Z) :
  let r := fold_left (fun a b => if cnt b <? cnt a then a else b) xs x in
  In r (x :: xs) /\ forall y, In y (x :: xs) -> cnt y <= cnt r.
Proof.
  revert x. induction xs as [|b xs IH]; intros x; cbn [fold_left].
  - cbv zeta. split; [now left|]. intros y [<-|[]]. lia.
  - cbv zeta. specialize (IH (if cnt b <? cnt x then x else b)).
    cbv zeta in IH. destruct IH as [Hin Hmax].
    destruct (cnt b <? cnt x) eqn:E.
    + apply Z.ltb_lt in E. split.
      * destruct Hin as [<-|Hin]; [now left | right; now right].
      * intros y [<-|[<-|Hy]].
        -- apply Hmax. now left.
        -- specialize (Hmax x (or_introl eq_refl)). lia.
        -- apply Hmax. now right.
    + apply Z.ltb_ge in E. split.
      * destruct Hin as [<-|Hin]; [right; now left | right; now right].
      * intros y [<-|[<-|Hy]].
        -- specialize (Hmax b (or_introl eq_refl)). lia.
        -- apply Hmax. now left.
        -- apply Hmax. now right.
Qed.

(** X29.  The most active day is undefined for a student without records:
    the reduction over the empty pattern throws.  For at least one record
    it is a day of the pattern whose counter is the largest. *)
Theorem mostActiveDay_maximum (entries : list DailyEntry) :
  let wa := weeklyActivity getTime tz entries in
  (entries = [] -> exists msg, mostActiveDay getTime tz entries = Thrown msg) /\
  (entries <> [] ->
   exists k n,
     mostActiveDay getTime tz entries = Done (k, n) /\
     In (k, n) wa /\ 1 <= n /\
     n = len (filter (fun e => String.eqb (dayNameOf getTime tz e) k) entries) /\
     forall k', countOf wa k' <= n).
Proof.
  cbv zeta.
  assert (Hfacts :
    NoDup (map fst (weeklyActivity getTime tz entries)) /\
    (forall k, countOf (weeklyActivity getTime tz entries) k
       = len (filter (fun e => String.eqb (dayNameOf getTime tz e) k) entries)) /\
    sumOver snd (weeklyActivity getTime tz entries) = len entries /\
    Forall (fun p => 1 <= snd p) (weeklyActivity getTime tz entries)).
  { unfold weeklyActivity. cbv zeta.
    pose proof (Array_sort_perm (byDateAscending getTime) entries) as Hperm.
    destruct (weekly_fold (Array_sort (byDateAscending getTime) entries) [])
      as (Hnd & _ & Hcount & Hsum & Hpos).
    cbv zeta in *.
    split; [apply Hnd; constructor|]. split.
    { intros k. rewrite Hcount.
      rewrite (len_perm _ _ (filter_perm _ _ _ Hperm)). reflexivity. }
    split; [rewrite Hsum, (len_perm _ _ Hperm); reflexivity|].
    apply Hpos. constructor. }
  destruct Hfacts as (Hnd & Hcount & Hsum & Hpos).
  split.
  - intros ->. eexists. reflexivity.
  - intros Hne. unfold mostActiveDay. cbv zeta.
    set (wa := weeklyActivity getTime tz entries) in *.
    destruct wa as [|x xs] eqn:Ewa.
    { exfalso. apply Hne. apply len_zero_iff, Z.eqb_eq.
      rewrite <- Hsum. reflexivity. }
    cbn [reduce1].
    destruct (pick_max (fun p => countOf (x :: xs) (fst p)) xs x) as [Hin Hmax].
    cbv zeta in Hin, Hmax.
    set (r := fold_left _ xs x) in *.
    destruct r as [k n] eqn:Er.
    exists k, n. split; [reflexivity|]. split; [exact Hin|].
    assert (Hn : countOf (x :: xs) k = n) by (apply countOf_In; assumption).
    split.
    { rewrite Forall_forall in Hpos. apply (Hpos (k, n) Hin). }
    split; [rewrite <- Hn; apply Hcount|].
    intros k'.
    destruct (in_dec string_dec k' (map fst (x :: xs))) as [Hk'|Hk'].
    + apply in_map_iff in Hk'. destruct Hk' as ([k0 n0] & Hfst & Hp).
      cbn [fst] in Hfst. subst k0.
      specialize (Hmax (k', n0) Hp). cbn [fst] in Hmax. lia.
    + rewrite (countOf_missing _ _ Hk').
      rewrite Forall_forall in Hpos. specialize (Hpos (k, n) Hin).
      cbn [snd] in Hpos. lia.
Qed.

End PanelProperties.

(** ** The further theorems on sample records *)

Lemma table_score_range_witness :
  let day := tableEntry isoGetTime tzUTC sampleRun (localDay tzUTC sampleNow) in
  (forall e, In e sampleRun -> wfEntry e) /\
  nth_error
    (dailyEngagement (calculateDailyEngagement isoGetTime tzUTC sampleNow sampleRun))
    29 = Some day /\
  0 <= engagementScore day <= 100.
Proof.
  intros day.
  assert (Hwf : forall e, In e sampleRun -> wfEntry e) by sample_wf.
  assert (Hnth : nth_error
    (dailyEngagement (calculateDailyEngagement isoGetTime tzUTC sampleNow sampleRun))
    29 = Some day) by reflexivity.
  split; [exact Hwf|]. split; [exact Hnth|].
  exact (proj1 (table_score_range isoGetTime tzUTC sampleNow sampleRun 29 day
                  Hwf Hnth)).
Defined.

Lemma trend_guard_witness :
  let m := calculateDailyEngagement isoGetTime tzUTC sampleNow todayOnly in
  (forall day, In day (slice_last_range 14 7 (dailyEngagement m)) ->
     engagementScore day = 0) /\
  (weeklyTrend m == 0)%Q.
Proof.
  intros m.
  assert (H : forall day, In day (slice_last_range 14 7 (dailyEngagement m)) ->
                engagementScore day = 0).
  { intros day Hin. vm_compute in Hin.
    repeat (destruct Hin as [<- | Hin]; [reflexivity|]). contradiction Hin. }
  split; [exact H|].
  exact (proj1 (trend_guard isoGetTime tzUTC sampleNow todayOnly) H).
Defined.

Lemma quiet_window_witness :
  let m := calculateDailyEngagement isoGetTime tzUTC sampleNow oldOnly in
  oldOnly <> [] /\
  (forall e, In e oldOnly ->
     entryDay isoGetTime tzUTC e < localDay tzUTC sampleNow - 29 \/
     localDay tzUTC sampleNow < entryDay isoGetTime tzUTC e) /\
  List.length (dailyEngagement m) = 30%nat /\
  activeDays m = 0 /\ streakDays m = 0 /\ (averageDaily m == 0)%Q.
Proof.
  intros m.
  assert (Hne : oldOnly <> []) by discriminate.
  assert (Hout : forall e, In e oldOnly ->
     entryDay isoGetTime tzUTC e < localDay tzUTC sampleNow - 29 \/
     localDay tzUTC sampleNow < entryDay isoGetTime tzUTC e).
  { intros e He. each_member He. left. reflexivity. }
  destruct (quiet_window isoGetTime tzUTC sampleNow oldOnly Hne Hout)
    as (Hlen & _ & Havg & Ha & Hs & _).
  split; [exact Hne|]. split; [exact Hout|]. split; [exact Hlen|].
  split; [exact Ha|]. split; [exact Hs | exact Havg].
Defined.

Lemma averageDaily_range_witness :
  (forall e, In e sampleRun -> wfEntry e) /\
  (0 <= averageDaily (calculateDailyEngagement isoGetTime tzUTC sampleNow sampleRun)
   <= 100)%Q.
Proof.
  assert (Hwf : forall e, In e sampleRun -> wfEntry e) by sample_wf.
  split; [exact Hwf|].
  exact (averageDaily_range isoGetTime tzUTC sampleNow sampleRun Hwf).
Defined.

Lemma table_activity_flags_witness :
  let day := tableEntry isoGetTime tzUTC sampleRun (localDay tzUTC sampleNow) in
  nth_error
    (dailyEngagement (calculateDailyEngagement isoGetTime tzUTC sampleNow sampleRun))
    29 = Some day /\
  (0 < engagementScore day -> 0 < activitiesCompleted day) /\
  activitiesCompleted day = 1.
Proof.
  intros day.
  assert (Hnth : nth_error
    (dailyEngagement (calculateDailyEngagement isoGetTime tzUTC sampleNow sampleRun))
    29 = Some day) by reflexivity.
  destruct (table_activity_flags isoGetTime tzUTC sampleNow sampleRun 29 day Hnth)
    as (_ & Hpos & _).
  split; [exact Hnth|]. split; [exact Hpos | reflexivity].
Defined.

Lemma consistency_end_points_witness :
  let r := consistencyScore
             (calculateConsistencyAndStreak isoGetTime tzUTC sampleNow sampleRun) in
  let window := slice_last 30 (Array_sort (byDateAscending isoGetTime) sampleRun) in
  sampleRun <> [] /\
  (r = 100 <-> forall e, In e window -> isActive e = true) /\
  r = 100.
Proof.
  intros r window.
  assert (Hne : sampleRun <> []) by discriminate.
  destruct (consistency_end_points isoGetTime tzUTC sampleNow sampleRun Hne)
    as (H100 & _ & _).
  split; [exact Hne|]. split; [exact H100 | reflexivity].
Defined.

Lemma future_record_resets_streak_witness :
  let f := goalEntry "2026-11-02T08:00:00.000Z" false in
  In f withTomorrow /\
  localDay tzUTC sampleNow < entryDay isoGetTime tzUTC f /\
  streak (calculateConsistencyAndStreak isoGetTime tzUTC sampleNow withTomorrow) = 0.
Proof.
  intros f.
  assert (Hin : In f withTomorrow) by (right; left; reflexivity).
  assert (Hfut : localDay tzUTC sampleNow < entryDay isoGetTime tzUTC f)
    by reflexivity.
  split; [exact Hin|]. split; [exact Hfut|].
  exact (future_record_resets_streak isoGetTime tzUTC sampleNow withTomorrow f
           Hin Hfut).
Defined.

Lemma awarded_badges_appended_witness :
  NoDup (badge_ids (badges lapsed)) /\
  badges (checkAndAwardBadges lapsed) = badges lapsed ++ newlyAwarded lapsed.
Proof.
  assert (Hnd : NoDup (badge_ids (badges lapsed))) by concrete_NoDup.
  split; [exact Hnd | exact (awarded_badges_appended lapsed Hnd)].
Defined.

Lemma awarded_badges_provenance_witness :
  let b := find_badge "deep-thinker" in
  In b (badges (checkAndAwardBadges thinker)) /\
  (In b (badges thinker) \/ In b ALL_BADGES).
Proof.
  intros b.
  assert (Hin : In b (badges (checkAndAwardBadges thinker)))
    by (left; reflexivity).
  split; [exact Hin|].
  exact (proj1 (awarded_badges_provenance thinker) b Hin).
Defined.

Lemma unattributed_students_at_risk_witness :
  (forall s e, In s [thinker; lapsed] -> In e sampleRun ->
     includes (date e) (studentId s) = false) /\
  map atRisk_id (dashboardAtRisk [thinker; lapsed] sampleRun)
  = firstn 5 (map studentId [thinker; lapsed]).
Proof.
  assert (Hno : forall s e, In s [thinker; lapsed] -> In e sampleRun ->
     includes (date e) (studentId s) = false).
  { intros s e Hs He. each_member Hs; each_member He; reflexivity. }
  split; [exact Hno|].
  exact (proj1 (proj2 (unattributed_students_at_risk [thinker; lapsed] sampleRun Hno))).
Defined.

Lemma goalCompletion_range_witness :
  sampleRun <> [] /\
  (forall e, In e todayOnly -> goalCompleted e = true) /\
  goalCompletion todayOnly = 100 /\
  2 * len sampleRun * goalCompletion sampleRun
    <= 200 * len (filter goalCompleted sampleRun) + len sampleRun
    < 2 * len sampleRun * (goalCompletion sampleRun + 1).
Proof.
  assert (Hne : sampleRun <> []) by discriminate.
  assert (Hne' : todayOnly <> []) by discriminate.
  assert (Hall : forall e, In e todayOnly -> goalCompleted e = true).
  { intros e He. each_member He. reflexivity. }
  destruct (goalCompletion_range sampleRun) as (_ & _ & _ & _ & Hspec).
  destruct (goalCompletion_range todayOnly) as (_ & _ & _ & H100 & _).
  split; [exact Hne|]. split; [exact Hall|].
  split; [exact (H100 Hne' Hall) | exact (Hspec Hne)].
Defined.

Lemma kpi_ranges_witness :
  (forall e, In e sampleRun -> wfEntry e) /\
  0 <= avgTestPerformance sampleRun <= 100 /\
  (1 <= kpiReflectionDepth sampleRun <= 5)%Q.
Proof.
  assert (Hwf : forall e, In e sampleRun -> wfEntry e) by sample_wf.
  destruct (kpi_ranges sampleRun Hwf) as (Ht & [_ H5] & H1).
  split; [exact Hwf|]. split; [exact Ht|].
  split; [apply H1; discriminate | exact H5].
Defined.
